(** * StoryBridge backend: graph repository, path engine, share scoring and
    network formatter, embedded from the JavaScript sources.

    - [JS]           : the fragment of JavaScript values and built-ins the
                       services rely on (truthiness, property access, object
                       spread, [parseInt], number-to-string).
    - [Neo4j]        : the labelled property graph held by the store and the
                       meaning of the Cypher patterns the services send to it.
    - [Neo4jService] : src/services/neo4jService.js
    - [DataService]  : src/services/dataService.js (the formatter functions)
    - [StoryController] : the story controller (src/unnamed/part_000)
*)

From Stdlib Require Import List String Ascii ZArith Bool Lia Arith PeanoNat.
From Stdlib Require Import DecimalString DecimalPos Sorted.
Import ListNotations.
Open Scope string_scope.
Open Scope list_scope.

Set Implicit Arguments.
Set Warnings "-register-all".

(* ================================================================== *)
(** ** JavaScript values *)
(* ================================================================== *)

Module JS.

(** Numbers are the integers a JavaScript number represents exactly, plus
    [NaN]; objects are ordered property lists (own enumerable string keys in
    insertion order); arrays are lists.  Values are trees: two object
    occurrences are two allocations. *)
Inductive value : Type :=
| VUndef
| VNull
| VBool (b : bool)
| VNum (n : Z)
| VNaN
| VStr (s : string)
| VArr (items : list value)
| VObj (fields : list (string * value)).

(** ToBoolean. *)
Definition truthy (v : value) : bool :=
  match v with
  | VUndef | VNull | VNaN => false
  | VBool b => b
  | VNum n => negb (n =? 0)%Z
  | VStr s => negb (s =? "")
  | VArr _ | VObj _ => true
  end.

(** [a || b] *)
Definition or_else (a b : value) : value := if truthy a then a else b.

(** [a && b] *)
Definition and_then (a b : value) : value := if truthy a then b else a.

Definition isArray (v : value) : bool :=
  match v with VArr _ => true | _ => false end.

Definition isPrimitive (v : value) : bool :=
  match v with VArr _ | VObj _ => false | _ => true end.

(** Own-property lookup in a property list. *)
Fixpoint lookup (k : string) (fs : list (string * value)) : option value :=
  match fs with
  | [] => None
  | (k', v) :: rest => if k' =? k then Some v else lookup k rest
  end.

(** Property write: an existing key keeps its position and takes the new
    value, a new key is appended. *)
Fixpoint set (k : string) (v : value) (fs : list (string * value))
  : list (string * value) :=
  match fs with
  | [] => [(k, v)]
  | (k', v') :: rest =>
      if k' =? k then (k', v) :: rest else (k', v') :: set k v rest
  end.

(** Writing a sequence of properties in order, as an object literal or a
    spread does. *)
Definition assign (fs extra : list (string * value)) : list (string * value) :=
  fold_left (fun acc kv => set (fst kv) (snd kv) acc) extra fs.

(** [v.k] for the (non-builtin) keys the services read.  Reading a property
    of a primitive, or of an array under a non-index key, gives
    [undefined]; callers guard against [undefined]/[null] receivers. *)
Definition get (v : value) (k : string) : value :=
  match v with
  | VObj fs => match lookup k fs with Some x => x | None => VUndef end
  | _ => VUndef
  end.

(** Decimal rendering of an integer number (Number.prototype.toString). *)
Definition numToString (n : Z) : string :=
  NilZero.string_of_int (Z.to_int n).

Definition natToString (n : nat) : string := numToString (Z.of_nat n).

(** Index keys "0", "1", ... paired with the items. *)
Fixpoint indexed_from (i : nat) (l : list value) : list (string * value) :=
  match l with
  | [] => []
  | x :: rest => (natToString i, x) :: indexed_from (S i) rest
  end.

Fixpoint chars (s : string) : list value :=
  match s with
  | EmptyString => []
  | String c rest => VStr (String c EmptyString) :: chars rest
  end.

(** An object holds one binding per key: should a property list repeat a
    key, the first binding is the property (as [lookup] reads it). *)
Fixpoint firstBindings (seen : list string) (fs : list (string * value))
  : list (string * value) :=
  match fs with
  | [] => []
  | (k, v) :: rest =>
      if existsb (String.eqb k) seen then firstBindings seen rest
      else (k, v) :: firstBindings (k :: seen) rest
  end.

(** The own enumerable properties copied by [{...v}]. *)
Definition spread (v : value) : list (string * value) :=
  match v with
  | VObj fs => firstBindings [] fs
  | VArr l => indexed_from 0 l
  | VStr s => indexed_from 0 (chars s)
  | _ => []
  end.

(** SameValueZero on the keys of a [Map]: primitives compare by value,
    objects and arrays by reference, and two occurrences in a value tree are
    never the same reference. *)
Definition sameValueZero (a b : value) : bool :=
  match a, b with
  | VUndef, VUndef => true
  | VNull, VNull => true
  | VBool x, VBool y => Bool.eqb x y
  | VNum x, VNum y => (x =? y)%Z
  | VNaN, VNaN => true
  | VStr x, VStr y => x =? y
  | _, _ => false
  end.

(** *** ToString *)

Fixpoint join (sep : string) (l : list string) : string :=
  match l with
  | [] => ""
  | [x] => x
  | x :: rest => x ++ sep ++ join sep rest
  end.

Fixpoint toString (v : value) : string :=
  match v with
  | VUndef => "undefined"
  | VNull => "null"
  | VBool true => "true"
  | VBool false => "false"
  | VNum n => numToString n
  | VNaN => "NaN"
  | VStr s => s
  | VArr l =>
      join "," (map (fun x => match x with
                              | VUndef | VNull => ""
                              | _ => toString x
                              end) l)
  | VObj _ => "[object Object]"
  end.

(** *** parseInt (radix omitted)

    ECMAScript's algorithm: skip leading white space, take an optional
    sign, switch to radix 16 after a [0x]/[0X] prefix, read the longest
    run of digits, answer [NaN] when there is none.  Strings are read as
    ASCII (white space outside ASCII is not recognised) and the result is
    the exact integer (beyond 2^53 JavaScript rounds it). *)

Definition isWhite (c : ascii) : bool :=
  let n := nat_of_ascii c in
  ((n =? 9) || (n =? 10) || (n =? 11) || (n =? 12) || (n =? 13)
   || (n =? 32))%nat.

Fixpoint trimStart (s : string) : string :=
  match s with
  | String c rest => if isWhite c then trimStart rest else s
  | EmptyString => EmptyString
  end.

Definition digitVal (c : ascii) : option Z :=
  let n := nat_of_ascii c in
  if ((48 <=? n) && (n <=? 57))%nat then Some (Z.of_nat (n - 48))
  else if ((97 <=? n) && (n <=? 122))%nat then Some (Z.of_nat (n - 87))
  else if ((65 <=? n) && (n <=? 90))%nat then Some (Z.of_nat (n - 55))
  else None.

(** Value of the longest prefix of radix-[r] digits; [None] when empty. *)
Fixpoint digits (r : Z) (s : string) (acc : option Z) : option Z :=
  match s with
  | String c rest =>
      match digitVal c with
      | Some d =>
          if (d <? r)%Z
          then digits r rest
                 (Some (r * (match acc with Some a => a | None => 0 end) + d)%Z)
          else acc
      | None => acc
      end
  | EmptyString => acc
  end.

Definition stripSign (s : string) : bool * string :=
  match s with
  | String "-" rest => (true, rest)
  | String "+" rest => (false, rest)
  | _ => (false, s)
  end.

Definition stripHex (s : string) : Z * string :=
  match s with
  | String "0" (String "x" rest) => (16%Z, rest)
  | String "0" (String "X" rest) => (16%Z, rest)
  | _ => (10%Z, s)
  end.

Definition parseIntStr (input : string) : value :=
  let (neg, s1) := stripSign (trimStart input) in
  let (r, s2) := stripHex s1 in
  match digits r s2 None with
  | None => VNaN
  | Some m => VNum (if neg then - m else m)
  end.

Definition parseInt (v : value) : value := parseIntStr (toString v).

(** [String.prototype.includes] *)
Fixpoint includes (s sub : string) : bool :=
  if prefix sub s then true
  else match s with
       | EmptyString => false
       | String _ rest => includes rest sub
       end.

(** A default parameter value applies when the argument is [undefined]. *)
Definition defaultArg (arg dflt : value) : value :=
  match arg with VUndef => dflt | _ => arg end.

End JS.

Import JS.

(* ================================================================== *)
(** ** Neo4jService: parameter handling of executeQuery and the paginated
       reads *)
(* ================================================================== *)

Module Params.

(** executeQuery, the loop over [params]: keys naming a limit or a skip are
    passed through [parseInt(...) || 0]. *)
Definition processParam (kv : string * value) : string * value :=
  let (key, v) := kv in
  if (key =? "limit") || includes key "limit" || includes key "skip"
  then (key, or_else (parseInt v) (VNum 0))
  else (key, v).

Definition processParams (params : list (string * value))
  : list (string * value) :=
  map processParam params.

(** getUsers(skip = 0, limit = 50): the parameter map handed to
    [session.run]. *)
Definition getUsers_params (skip limit : value) : list (string * value) :=
  let skip := defaultArg skip (VNum 0) in
  let limit := defaultArg limit (VNum 50) in
  processParams [("skip", parseInt skip); ("limit", parseInt limit)].

(** getStories(skip = 0, limit = 50) *)
Definition getStories_params (skip limit : value) : list (string * value) :=
  let skip := defaultArg skip (VNum 0) in
  let limit := defaultArg limit (VNum 50) in
  let intSkip := or_else (parseInt skip) (VNum 0) in
  let intLimit := or_else (parseInt limit) (VNum 50) in
  processParams [("skip", intSkip); ("limit", intLimit)].

End Params.

Import Params.

(* ================================================================== *)
(** ** The graph store and the meaning of the Cypher patterns *)
(* ================================================================== *)

Module Neo4j.

(** Driver-level records.  The driver is configured with
    [disableLosslessIntegers: true] (src/config/db.js), so identities reach
    the services as plain numbers. *)
Record Node : Type := mkNode {
  identity : Z;
  labels : list string;
  properties : list (string * value)
}.

Record Relationship : Type := mkRel {
  rel_identity : Z;
  rel_type : string;
  startNodeIdentity : Z;
  endNodeIdentity : Z;
  rel_properties : list (string * value)
}.

(** One hop of a path, in traversal order: the relationship keeps its own
    start and end whatever the direction of travel. *)
Record Segment : Type := mkSegment {
  seg_start : Node;
  seg_relationship : Relationship;
  seg_end : Node
}.

Definition Path : Type := list Segment.

(** The store: nodes and relationships in scan order, and the server setting
    [cypher.forbid_shortestpath_common_nodes] (true unless reconfigured). *)
Record Graph : Type := mkGraph {
  nodes : list Node;
  rels : list Relationship;
  forbid_shortestpath_common_nodes : bool
}.

(** Outcome of running a query: the rows, or a failure of the store. *)
Inductive outcome (A : Type) : Type :=
| Rows (r : A)
| Failed (message : string).
Arguments Rows {A} r.
Arguments Failed {A} message.

(** Cypher equality on property and parameter values (three-valued: [None]
    is [null]).  Identifiers of this application are strings; a comparison
    that involves a list or a map is taken as not equal. *)
Definition cy_eq (a b : value) : option bool :=
  match a, b with
  | VUndef, _ | VNull, _ | _, VUndef | _, VNull => None
  | VBool x, VBool y => Some (Bool.eqb x y)
  | VNum x, VNum y => Some (x =? y)%Z
  | VStr x, VStr y => Some (x =? y)
  | _, _ => Some false
  end.

Definition is_true (o : option bool) : bool :=
  match o with Some true => true | _ => false end.

(** [none(x IN l WHERE p x)]: [true] when [p] is false for every element,
    [false] when it is true for one, [null] otherwise. *)
Fixpoint cy_none (ps : list (option bool)) : option bool :=
  match ps with
  | [] => Some true
  | Some true :: _ => Some false
  | Some false :: rest => cy_none rest
  | None :: rest =>
      match cy_none rest with
      | Some false => Some false
      | _ => None
      end
  end.

Definition prop (ps : list (string * value)) (k : string) : value :=
  match lookup k ps with Some v => v | None => VNull end.

Definition hasLabel (l : string) (n : Node) : bool :=
  existsb (String.eqb l) (labels n).

(** [(n:Label {id: $p})] *)
Definition matchNodes (G : Graph) (label : string) (p : value) : list Node :=
  filter (fun n => hasLabel label n && is_true (cy_eq (prop (properties n) "id") p))
         (nodes G).

(** [(n:Label)] *)
Definition matchLabel (G : Graph) (label : string) : list Node :=
  filter (hasLabel label) (nodes G).

Definition nodesWithIdentity (G : Graph) (i : Z) : list Node :=
  filter (fun n => (identity n =? i)%Z) (nodes G).

(** [(u)-[r]-(v)]: the relationship joins the two nodes, in either
    direction. *)
Definition joins (r : Relationship) (u v : Node) : bool :=
  ((startNodeIdentity r =? identity u)%Z && (endNodeIdentity r =? identity v)%Z)
  || ((endNodeIdentity r =? identity u)%Z && (startNodeIdentity r =? identity v)%Z).

(** Relationship type alternatives of a pattern: [[]] stands for an
    untyped pattern [-[*]-]. *)
Definition typeMatches (types : list string) (r : Relationship) : bool :=
  match types with
  | [] => true
  | _ => existsb (String.eqb (rel_type r)) types
  end.

(** The hops leaving node [n] over admitted relationships, followed in
    either direction. *)
Definition hops (G : Graph) (keep : Relationship -> bool) (n : Node)
  : list (Relationship * Node) :=
  flat_map
    (fun r =>
       if keep r then
         (if (startNodeIdentity r =? identity n)%Z
          then map (pair r) (nodesWithIdentity G (endNodeIdentity r)) else [])
         ++
         (if (endNodeIdentity r =? identity n)%Z
          then map (pair r) (nodesWithIdentity G (startNodeIdentity r)) else [])
       else [])
    (rels G).

(** All one-hop extensions of the paths of a search front. *)
Definition expand (G : Graph) (keep : Relationship -> bool)
  (front : list (Node * Path)) : list (Node * Path) :=
  flat_map
    (fun np => map (fun rm => (snd rm, snd np ++ [mkSegment (fst np) (fst rm) (snd rm)]))
                   (hops G keep (fst np)))
    front.

(** [DISTINCT] on records with an identity: the first occurrence of each
    identity is kept. *)
Fixpoint distinctBy {A : Type} (key : A -> Z) (seen : list Z) (l : list A)
  : list A :=
  match l with
  | [] => []
  | x :: rest =>
      if existsb (Z.eqb (key x)) seen then distinctBy key seen rest
      else x :: distinctBy key (key x :: seen) rest
  end.

(** Keep the first path found to each node. *)
Definition dedup (seen : list Z) (l : list (Node * Path)) : list (Node * Path) :=
  distinctBy (fun np => identity (fst np)) seen l.

(** Breadth-first search by layers: layer [k] holds the nodes reached by
    [k] hops; the search stops at the first layer that contains the target. *)
Fixpoint search (G : Graph) (keep : Relationship -> bool) (target : Z)
  (fuel : nat) (front : list (Node * Path)) : option Path :=
  match fuel with
  | O => None
  | S fuel' =>
      let next := dedup [] (expand G keep front) in
      match find (fun np => (identity (fst np) =? target)%Z) next with
      | Some np => Some (snd np)
      | None => search G keep target fuel' next
      end
  end.

(** [shortestPath((a)-[r:T1|T2*]-(b)) WHERE <edge filter>]: a variable
    length pattern [*] needs at least one hop; identical end nodes are
    rejected by the store (an exception, or no row when the server setting
    is off).  A shortest path never repeats a node (nor, then, a
    relationship), so [List.length (nodes G)] layers cover every candidate:
    see [SearchComplete.shortestPath_complete]. *)
Definition shortestPath (G : Graph) (keep : Relationship -> bool)
  (a b : Node) : outcome (option Path) :=
  if (identity a =? identity b)%Z then
    if forbid_shortestpath_common_nodes G
    then Failed "The shortest path algorithm does not work when the start and end nodes are the same."
    else Rows None
  else Rows (search G keep (identity b) (List.length (nodes G)) [(a, [])]).

(** Running a per-row computation over the rows of a query: the query fails
    when one row fails. *)
Fixpoint forRows {A B : Type} (f : A -> outcome (list B)) (rows : list A)
  : outcome (list B) :=
  match rows with
  | [] => Rows []
  | x :: rest =>
      match f x with
      | Failed m => Failed m
      | Rows ys =>
          match forRows f rest with
          | Failed m => Failed m
          | Rows zs => Rows (ys ++ zs)
          end
      end
  end.

Definition optList {A : Type} (o : option A) : list A :=
  match o with Some x => [x] | None => [] end.

Definition maxIdentity (l : list Z) : Z := fold_right Z.max (-1)%Z l.

(** A relationship identity not in use. *)
Definition freshRel (G : Graph) : Z :=
  (maxIdentity (map rel_identity (rels G)) + 1)%Z.

Definition addRel (G : Graph) (r : Relationship) : Graph :=
  mkGraph (nodes G) (rels G ++ [r]) (forbid_shortestpath_common_nodes G).

End Neo4j.

Import Neo4j.

(* ================================================================== *)
(** ** Errors and the random source *)
(* ================================================================== *)

(** utils/errorHandler.js: [ApiError] carries a message and a status. *)
Record ApiError : Type := mkApiError {
  err_message : string;
  statusCode : Z
}.

Definition badRequest (m : string) : ApiError := mkApiError m 400.
Definition notFound (m : string) : ApiError := mkApiError m 404.

Inductive result (A : Type) : Type :=
| Ok (x : A)
| Err (e : ApiError).
Arguments Ok {A} x.
Arguments Err {A} e.

(** Computations that draw from [Math.random]: the state is the number of
    draws made so far. *)
Definition Rand (A : Type) : Type := nat -> A * nat.

Definition ret {A : Type} (x : A) : Rand A := fun k => (x, k).

Definition bind {A B : Type} (m : Rand A) (f : A -> Rand B) : Rand B :=
  fun k => let (x, k') := m k in f x k'.

Notation "x <- m ;; f" := (bind m (fun x => f))
  (at level 61, m at next level, right associativity).

Fixpoint mapM {A B : Type} (f : A -> Rand B) (l : list A) : Rand (list B) :=
  match l with
  | [] => ret []
  | x :: rest => y <- f x ;; ys <- mapM f rest ;; ret (y :: ys)
  end.

(** [xs[0]] *)
Definition index0 (v : value) : value :=
  match v with
  | VArr (x :: _) => x
  | VStr (String c _) => VStr (String c EmptyString)
  | _ => VUndef
  end.

(** An object literal: the properties are written in order. *)
Definition objLit (entries : list (string * value)) : value :=
  VObj (assign [] entries).

(* ================================================================== *)
(** ** src/services/neo4jService.js *)
(* ================================================================== *)

Module Neo4jService.

Section WithRandom.

(** [random36 k] is the text of the [k]-th [Math.random().toString(36)]. *)
Variable random36 : nat -> string.

(** [`${prefix}${Math.random().toString(36).substring(2)}`] *)
Definition randomId (prefix : string) : Rand value :=
  fun k => (VStr (prefix ++ substring 2 (String.length (random36 k)) (random36 k)), S k).

(** [identity ? identity.toString() : `node-...`] -- a number is falsy
    when it is 0. *)
Definition identityOrRandom (prefix : string) (i : Z) : Rand value :=
  if truthy (VNum i) then ret (VStr (numToString i)) else randomId prefix.

Definition identityOrUnknown (i : Z) : value :=
  if truthy (VNum i) then VStr (numToString i) else VStr "unknown".

(** executeQuery, the [Node] case. *)
Definition convertNode (n : Node) : Rand value :=
  id <- identityOrRandom "node-" (identity n) ;;
  ret (objLit (spread (VObj (properties n))
               ++ [("id", id); ("labels", VArr (map VStr (labels n)))])).

(** executeQuery, the [Relationship] case. *)
Definition convertRel (r : Relationship) : Rand value :=
  id <- identityOrRandom "rel-" (rel_identity r) ;;
  ret (objLit (spread (VObj (rel_properties r))
               ++ [("id", id);
                   ("type", or_else (VStr (rel_type r)) (VStr "UNKNOWN"));
                   ("startNodeId", identityOrUnknown (startNodeIdentity r));
                   ("endNodeId", identityOrUnknown (endNodeIdentity r))])).

(** executeQuery, the [Path] case. *)
Definition convertSegment (s : Segment) : Rand value :=
  st <- convertNode (seg_start s) ;;
  rl <- convertRel (seg_relationship s) ;;
  en <- convertNode (seg_end s) ;;
  ret (VObj [("start", st); ("relationship", rl); ("end", en)]).

Definition convertPath (p : Path) : Rand value :=
  segs <- mapM convertSegment p ;;
  ret (VObj [("segments", VArr segs)]).

(** executeQuery: a failure of the store is rethrown as a 500;
    [singleRecord] returns [records[0]]. *)
Definition databaseError (m : string) : ApiError :=
  mkApiError ("Database query failed: " ++ m) 500.

Definition firstRecord (records : list value) : value :=
  match records with
  | r :: _ => r
  | [] => VUndef
  end.

(** *** findShortestPath *)

Definition anyRelationship (r : Relationship) : bool := typeMatches [] r.

Definition findShortestPath_rows (G : Graph) (sourceId targetId : value)
  : outcome (list Path) :=
  forRows
    (fun st => match shortestPath G anyRelationship (fst st) (snd st) with
               | Failed m => Failed m
               | Rows o => Rows (optList o)
               end)
    (list_prod (matchNodes G "User" sourceId) (matchNodes G "User" targetId)).

Definition pathRecord (p : Path) : Rand value :=
  cp <- convertPath p ;;
  ret (VObj [("path", cp); ("pathLength", VNum (Z.of_nat (List.length p)))]).

Definition findShortestPath (G : Graph) (sourceId targetId : value)
  : Rand (result value) :=
  match findShortestPath_rows G sourceId targetId with
  | Failed m => ret (Err (databaseError m))
  | Rows ps => records <- mapM pathRecord ps ;; ret (Ok (firstRecord records))
  end.

(** *** getNetworkData *)

(** [OPTIONAL MATCH (u)-[r]-(related:User) WHERE id(related) < id(u)] *)
Definition relatedRels (G : Graph) (u : Node) : list Relationship :=
  flat_map
    (fun r => map (fun _ => r)
                  (filter (fun related => joins r u related
                                          && (identity related <? identity u)%Z)
                          (matchLabel G "User")))
    (rels G).

(** The query of getNetworkData for an integer [$limit]. *)
Definition networkQuery (G : Graph) (limit : Z)
  : outcome (list Node * list Relationship) :=
  if (limit <? 0)%Z then
    Failed "Invalid input. LIMIT must be a non-negative integer."
  else
    let us := firstn (Z.to_nat limit) (matchLabel G "User") in
    Rows (distinctBy identity [] us,
          distinctBy rel_identity [] (flat_map (relatedRels G) us)).

Definition d3Node (node : value) : value :=
  objLit ([("id", get node "id");
           ("label", get node "name");
           ("group", index0 (get node "labels"))]
          ++ spread node).

Definition d3Link (rel : value) : value :=
  objLit ([("source", get rel "startNodeId");
           ("target", get rel "endNodeId");
           ("type", get rel "type")]
          ++ spread rel).

Definition toInteger (v : value) : Z :=
  match v with VNum n => n | _ => 0%Z end.

Definition getNetworkData (G : Graph) (limit : value) : Rand (result value) :=
  let intLimit := parseInt (defaultArg limit (VNum 100)) in
  let params := processParams [("limit", intLimit)] in
  match networkQuery G (toInteger (get (VObj params) "limit")) with
  | Failed m => ret (Err (databaseError m))
  | Rows (ns, rs) =>
      cns <- mapM convertNode ns ;;
      crs <- mapM convertRel rs ;;
      ret (Ok (VObj [("nodes", VArr (map d3Node cns));
                     ("links", VArr (map d3Link crs))]))
  end.

(** *** shareStory *)

Definition shareRows (G : Graph) (storyId senderId receiverId : value)
  : list (Node * (Node * Node)) :=
  filter (fun row => negb (identity (fst (snd row)) =? identity (snd (snd row)))%Z)
         (list_prod (matchNodes G "Story" storyId)
                    (list_prod (matchNodes G "User" senderId)
                               (matchNodes G "User" receiverId))).

Definition sharedRel (G : Graph) (now : value) (sender story : Node)
  : Relationship :=
  mkRel (freshRel G) "SHARED" (identity sender) (identity story)
        [("timestamp", now)].

Definition sharedWithRel (G : Graph) (now storyId : value)
  (sender receiver : Node) : Relationship :=
  mkRel (freshRel G) "SHARED_WITH" (identity sender) (identity receiver)
        [("timestamp", now); ("storyId", storyId)].

(** The two CREATE clauses, run for one matched row. *)
Definition createShare (now storyId : value) (G : Graph)
  (row : Node * (Node * Node)) : Graph :=
  let story := fst row in
  let sender := fst (snd row) in
  let receiver := snd (snd row) in
  let G1 := addRel G (sharedRel G now sender story) in
  addRel G1 (sharedWithRel G1 now storyId sender receiver).

(** shareStory: the store after the write.  (The returned record is not
    read by any caller.) *)
Definition shareStory (G : Graph) (now storyId senderId receiverId : value)
  : Graph :=
  fold_left (createShare now storyId) (shareRows G storyId senderId receiverId) G.

End WithRandom.

End Neo4jService.

(* ================================================================== *)
(** ** The story controller: shareStory *)
(* ================================================================== *)

Module StoryController.

(** The three fields destructured from the request body. *)
Record ShareBody : Type := mkShareBody {
  storyId : value;
  senderId : value;
  receiverId : value
}.

Record ShareResponse : Type := mkShareResponse {
  message : string;
  share_storyId : value;
  share_senderId : value;
  share_receiverId : value;
  share_timestamp : value;
  pathReduction : Z;
  rewardPoints : Z
}.

(** ['MATCH (n:Label {id: $id}) RETURN n'] with [singleRecord]: the record
    and its node field are objects, so the test [!r || !r.n] fails exactly
    when a node matched. *)
Definition found (G : Graph) (label : string) (id : value) : bool :=
  match matchNodes G label id with
  | [] => false
  | _ :: _ => true
  end.

(** [-[r:KNOWS|SHARED_WITH*]-] *)
Definition socialEdge (r : Relationship) : bool :=
  typeMatches ["KNOWS"; "SHARED_WITH"] r.

(** [WHERE NONE(rel IN r WHERE rel.storyId = $storyId)] on the
    relationships of a path.  For a relationship without a [storyId]
    property (a KNOWS edge) the comparison is [null], and so is [NONE]
    unless another relationship carries the tag: the condition is then not
    true, and the path is not kept. *)
Definition whereNone (storyId : value) (p : list Relationship) : bool :=
  is_true (cy_none (map (fun rel => cy_eq (prop (rel_properties rel) "storyId") storyId) p)).

(** The same condition on one relationship: the search follows the
    relationships that pass it. *)
Definition untagged (storyId : value) (r : Relationship) : bool :=
  whereNone storyId [r].

(** [MATCH (author:User)-[:AUTHORED]->(s:Story {id: $storyId})] *)
Definition authorsOf (G : Graph) (storyId : value) : list Node :=
  flat_map
    (fun r =>
       if rel_type r =? "AUTHORED" then
         flat_map
           (fun author =>
              map (fun _ => author)
                  (filter (fun s => (identity s =? endNodeIdentity r)%Z)
                          (matchNodes G "Story" storyId)))
           (filter (hasLabel "User") (nodesWithIdentity G (startNodeIdentity r)))
       else [])
    (rels G).

(** The two path queries: one [pathLength] per (author, receiver) row for
    which the subquery finds a path. *)
Definition pathQuery (G : Graph) (keep : Relationship -> bool)
  (storyId receiverId : value) : outcome (list Z) :=
  forRows
    (fun ar => match shortestPath G keep (fst ar) (snd ar) with
               | Failed m => Failed m
               | Rows o => Rows (map (fun p => Z.of_nat (List.length p)) (optList o))
               end)
    (list_prod (authorsOf G storyId) (matchNodes G "User" receiverId)).

Definition pathBeforeShare (G : Graph) (storyId receiverId : value)
  : outcome (list Z) :=
  pathQuery G (fun r => socialEdge r && untagged storyId r) storyId receiverId.

Definition pathAfterShare (G : Graph) (storyId receiverId : value)
  : outcome (list Z) :=
  pathQuery G socialEdge storyId receiverId.

(** "Calculate reward points based on path reduction": the records are
    [{pathLength: n}] or [undefined]. *)
Definition score (pathBefore pathAfter : option Z) : Z * Z :=
  match pathBefore, pathAfter with
  | Some before, Some after =>
      if truthy (VNum before) && truthy (VNum after) then
        let pathReduction := (before - after)%Z in
        if (pathReduction >? 0)%Z
        then (pathReduction, pathReduction * 10)%Z
        else (pathReduction, 0%Z)
      else (0%Z, 0%Z)
  | _, _ => (0%Z, 0%Z)
  end.

Definition shareStory (G : Graph) (now stamp : value) (body : ShareBody)
  : Graph * result ShareResponse :=
  let sid := storyId body in
  let snd_ := senderId body in
  let rcv := receiverId body in
  if negb (truthy sid) || negb (truthy snd_) || negb (truthy rcv) then
    (G, Err (badRequest "StoryId, senderId, and receiverId are required"))
  else if negb (found G "Story" sid) then
    (G, Err (notFound ("Story with ID " ++ toString sid ++ " not found")))
  else if negb (found G "User" snd_) then
    (G, Err (notFound ("Sender with ID " ++ toString snd_ ++ " not found")))
  else if negb (found G "User" rcv) then
    (G, Err (notFound ("Receiver with ID " ++ toString rcv ++ " not found")))
  else
    let G' := Neo4jService.shareStory G now sid snd_ rcv in
    match pathBeforeShare G' sid rcv with
    | Failed m => (G', Err (Neo4jService.databaseError m))
    | Rows before =>
        match pathAfterShare G' sid rcv with
        | Failed m => (G', Err (Neo4jService.databaseError m))
        | Rows after =>
            let pr := score (hd_error before) (hd_error after) in
            (G', Ok (mkShareResponse "Story shared successfully"
                       sid snd_ rcv stamp (fst pr) (snd pr)))
        end
    end.

End StoryController.

(* ================================================================== *)
(** ** src/services/dataService.js: the formatters *)
(* ================================================================== *)

Module DataService.

(** A [Map] in insertion order. *)
Definition NodeMap : Type := list (value * value).

Definition mapHas (m : NodeMap) (k : value) : bool :=
  existsb (fun kv => sameValueZero (fst kv) k) m.

Fixpoint mapSet (m : NodeMap) (k v : value) : NodeMap :=
  match m with
  | [] => [(k, v)]
  | (k', v') :: rest =>
      if sameValueZero k' k then (k', v) :: rest else (k', v') :: mapSet rest k v
  end.

Definition mapValues (m : NodeMap) : list value := map snd m.

Section WithRandom.

Variable random36 : nat -> string.

(** [`${prefix}${Math.random().toString(36).substr(2, 9)}`] *)
Definition placeholder (prefix : string) : Rand value :=
  fun k => (VStr (prefix ++ substring 2 9 (random36 k)), S k).

(** [v || placeholder] *)
Definition orPlaceholder (v : value) (prefix : string) : Rand value :=
  if truthy v then ret v else placeholder prefix.

Definition groupOf (n : value) : value :=
  if truthy (get n "labels") && isArray (get n "labels")
  then index0 (get n "labels")
  else VStr "Unknown".

(** [{ id, name: n.name || 'Unknown', group: ..., ...n }] *)
Definition nodeEntry (id n : value) : value :=
  objLit ([("id", id);
           ("name", or_else (get n "name") (VStr "Unknown"));
           ("group", groupOf n)]
          ++ spread n).

(** [{ source, target, type: rel.type || 'Unknown', id, ...rel }] *)
Definition linkEntry (startId endId relId rel : value) : value :=
  objLit ([("source", startId);
           ("target", endId);
           ("type", or_else (get rel "type") (VStr "Unknown"));
           ("id", relId)]
          ++ spread rel).

Definition validSegment (segment : value) : bool :=
  truthy segment && truthy (get segment "start")
  && truthy (get segment "end") && truthy (get segment "relationship").

(** formatNetworkForD3, the body of [path.segments.forEach]. *)
Definition addSegment (st : NodeMap * list value) (segment : value)
  : Rand (NodeMap * list value) :=
  let (nodeMap, links) := st in
  if negb (validSegment segment) then ret st
  else
    let start := get segment "start" in
    let end_ := get segment "end" in
    let rel := get segment "relationship" in
    startId <- orPlaceholder (get start "id") "node-" ;;
    endId <- orPlaceholder (get end_ "id") "node-" ;;
    let m1 := if mapHas nodeMap startId then nodeMap
              else mapSet nodeMap startId (nodeEntry startId start) in
    let m2 := if mapHas m1 endId then m1
              else mapSet m1 endId (nodeEntry endId end_) in
    relId <- orPlaceholder (get rel "id") "rel-" ;;
    ret (m2, links ++ [linkEntry startId endId relId rel]).

Fixpoint foldM {S A : Type} (f : S -> A -> Rand S) (l : list A) (s : S)
  : Rand S :=
  match l with
  | [] => ret s
  | x :: rest => s' <- f s x ;; foldM f rest s'
  end.

Definition arrayItems (v : value) : list value :=
  match v with VArr l => l | _ => [] end.

(** formatNetworkForD3, the body of [data.paths.forEach]. *)
Definition addPath (st : NodeMap * list value) (path : value)
  : Rand (NodeMap * list value) :=
  if negb (truthy path) || negb (truthy (get path "segments"))
     || negb (isArray (get path "segments"))
  then ret st
  else foldM addSegment (arrayItems (get path "segments")) st.

Definition emptyNetwork : value :=
  VObj [("nodes", VArr []); ("links", VArr [])].

Definition formatNetworkForD3 (data : value) : Rand value :=
  if negb (truthy data) then ret emptyNetwork
  else if truthy (and_then (get data "nodes") (get data "links")) then ret data
  else
    st <- (if truthy (and_then (get data "paths") (VBool (isArray (get data "paths"))))
           then foldM addPath (arrayItems (get data "paths")) ([], [])
           else ret ([], [])) ;;
    ret (VObj [("nodes", VArr (mapValues (fst st))); ("links", VArr (snd st))]).

(** formatPathData, the body of [segments.forEach]: the state is the
    [nodes] array, the map and the [links] array. *)
Definition addPathSegment (st : list value * NodeMap * list value)
  (segment : value) : Rand (list value * NodeMap * list value) :=
  let '(nodes, nodeMap, links) := st in
  if negb (validSegment segment) then ret st
  else
    let start := get segment "start" in
    let end_ := get segment "end" in
    let rel := get segment "relationship" in
    startId <- orPlaceholder (get start "id") "node-" ;;
    endId <- orPlaceholder (get end_ "id") "node-" ;;
    let '(nodes1, m1) :=
      if mapHas nodeMap startId then (nodes, nodeMap)
      else (nodes ++ [nodeEntry startId start],
            mapSet nodeMap startId (nodeEntry startId start)) in
    let '(nodes2, m2) :=
      if mapHas m1 endId then (nodes1, m1)
      else (nodes1 ++ [nodeEntry endId end_],
            mapSet m1 endId (nodeEntry endId end_)) in
    relId <- orPlaceholder (get rel "id") "rel-" ;;
    ret (nodes2, m2, links ++ [linkEntry startId endId relId rel]).

(** formatPathData; [None] is the [TypeError] raised by [segments.forEach]
    when [segments] is neither falsy nor an array. *)
Definition formatPathData (pathData : value) : Rand (option value) :=
  if negb (truthy pathData) || negb (truthy (get pathData "path")) then
    ret (Some (VObj [("nodes", VArr []); ("links", VArr []); ("length", VNum 0)]))
  else
    let segments := or_else (get (get pathData "path") "segments") (VArr []) in
    match segments with
    | VArr items =>
        st <- foldM addPathSegment items ([], [], []) ;;
        let '(nodes, _, links) := st in
        ret (Some (VObj [("nodes", VArr nodes);
                         ("links", VArr links);
                         ("length", or_else (get pathData "pathLength")
                                            (VNum (Z.of_nat (List.length items))))]))
    | _ => ret None
    end.

End WithRandom.

End DataService.


From Stdlib Require Import Permutation.

(* ================================================================== *)
(** ** src/services/neo4jService.js: the create operations *)
(* ================================================================== *)

Module GraphWrites.

(** The fields of a user that the CREATE clause of createUser reads. *)
Record UserData : Type := mkUserData {
  user_id : string;
  user_name : string;
  user_bio : string
}.

(** The parameter object of the service's createStory. *)
Record StoryData : Type := mkStoryData {
  story_id : string;
  story_title : string;
  story_content : string;
  story_authorId : string
}.

(** An identity above every identity the store mentions. *)
Definition freshNode (G : Graph) : Z :=
  (maxIdentity (map identity (nodes G)
                ++ map startNodeIdentity (rels G)
                ++ map endNodeIdentity (rels G)) + 1)%Z.

Definition addNode (G : Graph) (n : Node) : Graph :=
  mkGraph (nodes G ++ [n]) (rels G) (forbid_shortestpath_common_nodes G).

(** The constraints user_id_unique and story_id_unique of
    src/config/db.js: a CREATE that repeats an id under the label fails. *)
Definition constraintViolation (label : string) : string :=
  "Node already exists with label " ++ label ++ " and property id".

(** createUser: [CREATE (u:User {id, name, bio, createdAt: datetime(),
    isActive: true})]. *)
Definition createUser (G : Graph) (now : value) (user : UserData)
  : outcome Graph :=
  match matchNodes G "User" (VStr (user_id user)) with
  | _ :: _ => Failed (constraintViolation "User")
  | [] =>
      Rows (addNode G (mkNode (freshNode G) ["User"]
                         [("id", VStr (user_id user));
                          ("name", VStr (user_name user));
                          ("bio", VStr (user_bio user));
                          ("createdAt", now);
                          ("isActive", VBool true)]))
  end.

Definition storyNode (G : Graph) (now : value) (story : StoryData) : Node :=
  mkNode (freshNode G) ["Story"]
         [("id", VStr (story_id story));
          ("title", VStr (story_title story));
          ("content", VStr (story_content story));
          ("createdAt", now);
          ("authorId", VStr (story_authorId story))].

Definition authoredRel (G : Graph) (author s : Node) : Relationship :=
  mkRel (freshRel G) "AUTHORED" (identity author) (identity s) [].

(** createStory: the Story node is created first; then one AUTHORED edge
    per User matching [$authorId]. *)
Definition createStory (G : Graph) (now : value) (story : StoryData)
  : outcome Graph :=
  match matchNodes G "Story" (VStr (story_id story)) with
  | _ :: _ => Failed (constraintViolation "Story")
  | [] =>
      let s := storyNode G now story in
      let G1 := addNode G s in
      Rows (fold_left (fun g author => addRel g (authoredRel g author s))
                      (matchNodes G1 "User" (VStr (story_authorId story)))
                      G1)
  end.

(** createConnection(user1Id, user2Id, relationshipType): the type is
    spliced into the query text; the embedding covers types that are plain
    identifiers. *)
Definition connectionRows (G : Graph) (user1Id user2Id : value)
  : list (Node * Node) :=
  filter (fun row => negb (identity (fst row) =? identity (snd row))%Z)
         (list_prod (matchNodes G "User" user1Id)
                    (matchNodes G "User" user2Id)).

Definition connectionRel (G : Graph) (now : value) (relationshipType : string)
  (u1 u2 : Node) : Relationship :=
  mkRel (freshRel G) relationshipType (identity u1) (identity u2)
        [("createdAt", now)].

Definition createConnection (G : Graph) (now user1Id user2Id : value)
  (relationshipType : string) : Graph :=
  fold_left
    (fun g row => addRel g (connectionRel g now relationshipType (fst row) (snd row)))
    (connectionRows G user1Id user2Id) G.

End GraphWrites.

(* ================================================================== *)
(** ** The story controller: createStory *)
(* ================================================================== *)

Module StoryCreation.

Import GraphWrites.

(** The request body; an absent field and an empty string are both falsy. *)
Record StoryBody : Type := mkStoryBody {
  title : string;
  content : string;
  authorId : string
}.

Record StoryCreated : Type := mkStoryCreated {
  created_status : Z;
  created_message : string;
  created_id : string;
  created_title : string;
  created_content : string;
  created_authorId : string;
  created_createdAt : value
}.

(** createStory: [uuid] is the identifier drawn by [uuidv4()]. *)
Definition createStory (G : Graph) (now stamp : value) (uuid : string)
  (body : StoryBody) : Graph * result StoryCreated :=
  if negb (truthy (VStr (title body))) || negb (truthy (VStr (content body)))
     || negb (truthy (VStr (authorId body)))
  then (G, Err (badRequest "Title, content, and authorId are required"))
  else if negb (StoryController.found G "User" (VStr (authorId body)))
  then (G, Err (notFound ("Author with ID " ++ authorId body ++ " not found")))
  else
    match GraphWrites.createStory G now
            (mkStoryData uuid (title body) (content body) (authorId body)) with
    | Failed m => (G, Err (Neo4jService.databaseError m))
    | Rows G' =>
        (G', Ok (mkStoryCreated 201 "Story created successfully" uuid
                   (title body) (content body) (authorId body) stamp))
    end.

End StoryCreation.

(* ================================================================== *)
(** ** src/services/neo4jService.js: the connection queries *)
(* ================================================================== *)

Module VarLength.

(** A path of a variable length pattern uses a relationship once at most. *)
Definition usedIn (p : Path) (r : Relationship) : bool :=
  existsb (fun s => (rel_identity (seg_relationship s) =? rel_identity r)%Z) p.

(** The hops that continue path [p] from its last node [n]: a relationship
    the path has not used yet, followed in either direction. *)
Definition steps (G : Graph) (p : Path) (n : Node)
  : list (Relationship * Node) :=
  flat_map
    (fun r =>
       if usedIn p r then []
       else if (startNodeIdentity r =? identity n)%Z
       then map (pair r) (nodesWithIdentity G (endNodeIdentity r))
       else if (endNodeIdentity r =? identity n)%Z
       then map (pair r) (nodesWithIdentity G (startNodeIdentity r))
       else [])
    (rels G).

Definition extend (G : Graph) (front : list (Node * Path))
  : list (Node * Path) :=
  flat_map
    (fun np => map (fun rm => (snd rm,
                               snd np ++ [mkSegment (fst np) (fst rm) (snd rm)]))
                   (steps G (snd np) (fst np)))
    front.

(** [(a)-[*1..d]-(b)]: the paths of one hop, then those of two hops, and
    so on up to [d] hops, each with its last node.  The paths come out by
    ascending length, the order [ORDER BY length(path)] asks for. *)
Fixpoint varLength (G : Graph) (d : nat) (front : list (Node * Path))
  : list (Node * Path) :=
  match d with
  | O => []
  | S d' => let next := extend G front in next ++ varLength G d' next
  end.

Definition sameSegment (s t : Segment) : bool :=
  (identity (seg_start s) =? identity (seg_start t))%Z
  && (rel_identity (seg_relationship s) =? rel_identity (seg_relationship t))%Z
  && (identity (seg_end s) =? identity (seg_end t))%Z.

Fixpoint samePath (p q : Path) : bool :=
  match p, q with
  | [], [] => true
  | s :: p', t :: q' => sameSegment s t && samePath p' q'
  | _, _ => false
  end.

(** [collect(distinct path)] *)
Fixpoint distinctPaths (seen : list Path) (l : list Path) : list Path :=
  match l with
  | [] => []
  | p :: rest =>
      if existsb (samePath p) seen then distinctPaths seen rest
      else p :: distinctPaths (p :: seen) rest
  end.

End VarLength.

Module ConnectionQueries.

Import VarLength.

(** The text [*1..${depth}] of the pattern: a bound is an unsigned integer
    literal, so the store rejects the query text when [depth] is [NaN] or
    negative.  [depth] is a number: the controller passes [parseInt(depth)]. *)
Definition depthBound (depth : value) : option nat :=
  match depth with
  | VNum z => if (z <? 0)%Z then None else Some (Z.to_nat z)
  | _ => None
  end.

(** The start of the store's message. *)
Definition invalidDepth (depth : value) : string :=
  "Invalid input '" ++ toString depth ++ "'".

(** The subquery
    [CALL { WITH c MATCH path = (c)-[*1..depth]-(connected:User)
            WHERE c <> connected
            RETURN path, connected ORDER BY length(path) LIMIT 50 }]. *)
Definition connectedRows (G : Graph) (c : Node) (d : nat)
  : list (Node * Path) :=
  firstn 50
    (filter (fun np => hasLabel "User" (fst np)
                       && negb (identity (fst np) =? identity c)%Z)
            (varLength G d [(c, [])])).

(** A row of [RETURN c, collect(distinct path) as paths,
    collect(distinct connected) as connections]. *)
Record ConnectionRow : Type := mkConnectionRow {
  row_node : Node;
  row_paths : list Path;
  row_connections : list Node
}.

(** A matched node for which the subquery gives no row gives no row of
    the query. *)
Definition recordRows (G : Graph) (matches : list Node) (d : nat)
  : list ConnectionRow :=
  flat_map
    (fun c =>
       match connectedRows G c d with
       | [] => []
       | rows => [mkConnectionRow c
                    (distinctPaths [] (map snd rows))
                    (distinctBy identity [] (map fst rows))]
       end)
    matches.

(** Driver objects that executeQuery hands on as they are, with the fields
    this code reads: a [Node] has [identity], [labels] and [properties], a
    [Relationship] has [identity], [type], [properties] and the identities
    of its two nodes, a path has [segments]. *)
Definition rawNode (n : Node) : value :=
  VObj [("identity", VNum (identity n));
        ("labels", VArr (map VStr (labels n)));
        ("properties", VObj (properties n))].

Definition rawRel (r : Relationship) : value :=
  VObj [("identity", VNum (rel_identity r));
        ("type", VStr (rel_type r));
        ("properties", VObj (rel_properties r));
        ("startNodeIdentity", VNum (startNodeIdentity r));
        ("endNodeIdentity", VNum (endNodeIdentity r))].

Definition rawSegment (s : Segment) : value :=
  VObj [("start", rawNode (seg_start s));
        ("relationship", rawRel (seg_relationship s));
        ("end", rawNode (seg_end s))].

Definition rawPath (p : Path) : value :=
  VObj [("segments", VArr (map rawSegment p))].

Section WithRandom.

Variable random36 : nat -> string.

(** executeQuery on one record: the node under [key] is converted, the
    items of [paths] are [Path] objects, which the array case returns as
    they are, and the nodes of [connections] are converted. *)
Definition connectionRecord (key : string) (row : ConnectionRow) : Rand value :=
  c <- Neo4jService.convertNode random36 (row_node row) ;;
  cs <- mapM (Neo4jService.convertNode random36) (row_connections row) ;;
  ret (VObj [(key, c);
             ("paths", VArr (map rawPath (row_paths row)));
             ("connections", VArr cs)]).

Definition connectionsQuery (G : Graph) (key : string) (matches : list Node)
  (depth : value) : Rand (result value) :=
  match depthBound depth with
  | None => ret (Err (Neo4jService.databaseError (invalidDepth depth)))
  | Some d =>
      records <- mapM (connectionRecord key) (recordRows G matches d) ;;
      ret (Ok (Neo4jService.firstRecord records))
  end.

(** getUserConnections(userId, depth = 1) *)
Definition getUserConnections (G : Graph) (userId depth : value)
  : Rand (result value) :=
  connectionsQuery G "user" (matchNodes G "User" userId)
                   (defaultArg depth (VNum 1)).

(** getCharacterConnections(characterName, depth = 1) *)
Definition getCharacterConnections (G : Graph) (characterName depth : value)
  : Rand (result value) :=
  connectionsQuery G "character"
    (filter (fun n => hasLabel "User" n
                      && is_true (cy_eq (prop (properties n) "name") characterName))
            (nodes G))
    (defaultArg depth (VNum 1)).

End WithRandom.

End ConnectionQueries.

(* ================================================================== *)
(** ** src/controllers/networkController.js *)
(* ================================================================== *)

Module NetworkController.

(** The test [source.match(/^[0-9a-f]{8}-[0-9a-f]{4}-[0-9a-f]{4}-[0-9a-f]{4}-[0-9a-f]{12}$/i)]. *)
Definition isHex (c : ascii) : bool :=
  let n := nat_of_ascii c in
  (((48 <=? n) && (n <=? 57)) || ((97 <=? n) && (n <=? 102))
   || ((65 <=? n) && (n <=? 70)))%nat.

(** Exactly [n] hexadecimal characters, then the rest. *)
Fixpoint hexRun (n : nat) (s : string) : option string :=
  match n with
  | O => Some s
  | S n' =>
      match s with
      | String c rest => if isHex c then hexRun n' rest else None
      | EmptyString => None
      end
  end.

Definition dash (s : string) : option string :=
  match s with
  | String "-" rest => Some rest
  | _ => None
  end.

Definition andThen (o : option string) (f : string -> option string)
  : option string :=
  match o with Some s => f s | None => None end.

Definition uuidShaped (s : string) : bool :=
  match andThen (andThen (andThen (andThen (andThen (andThen (andThen (andThen
          (hexRun 8 s) dash) (hexRun 4)) dash) (hexRun 4)) dash) (hexRun 4))
          dash) (hexRun 12) with
  | Some EmptyString => true
  | _ => false
  end.

(** [(u:User {name: $name})] *)
Definition matchByName (G : Graph) (name : value) : list Node :=
  filter (fun n => hasLabel "User" n
                   && is_true (cy_eq (prop (properties n) "name") name))
         (nodes G).

Definition noPath : value :=
  VObj [("message", VStr "No path found between the specified users");
        ("path", VNull);
        ("length", VNum (-1))].

Section WithRandom.

Variable random36 : nat -> string.

(** executeQuery('MATCH (u:User {name: $name}) RETURN u', {name}, true) *)
Definition userByName (G : Graph) (name : value) : Rand value :=
  records <- mapM (fun n => u <- Neo4jService.convertNode random36 n ;;
                            ret (VObj [("u", u)]))
                  (matchByName G name) ;;
  ret (Neo4jService.firstRecord records).

(** The tail of getPath, from [if (!pathData)] on.  A [TypeError] raised by
    the formatter reaches the error handler without a status and is
    answered 500. *)
Definition respondPath (pathData : value) : Rand (result value) :=
  if negb (truthy pathData) then ret (Ok noPath)
  else
    fp <- DataService.formatPathData random36 pathData ;;
    match fp with
    | None => ret (Err (mkApiError "segments.forEach is not a function" 500))
    | Some formattedPath =>
        ret (Ok (objLit ([("message",
                           VStr ("Path found with length "
                                 ++ toString (get formattedPath "length")))]
                         ++ spread formattedPath)))
    end.

Definition findAndRespond (G : Graph) (sourceId targetId : value)
  : Rand (result value) :=
  r <- Neo4jService.findShortestPath random36 G sourceId targetId ;;
  match r with
  | Err e => ret (Err e)
  | Ok pathData => respondPath pathData
  end.

(** getPath: [source] and [target] are the two query parameters. *)
Definition getPath (G : Graph) (source target : value) : Rand (result value) :=
  if negb (truthy source) || negb (truthy target) then
    ret (Err (badRequest "Source and target parameters are required"))
  else
    match source with
    | VStr s =>
        if uuidShaped s then findAndRespond G source target
        else
          sourceNode <- userByName G source ;;
          targetNode <- userByName G target ;;
          if negb (truthy sourceNode) || negb (truthy (get sourceNode "u")) then
            ret (Err (notFound ("Source user '" ++ s ++ "' not found")))
          else if negb (truthy targetNode) || negb (truthy (get targetNode "u")) then
            ret (Err (notFound ("Target user '" ++ toString target ++ "' not found")))
          else
            findAndRespond G (get (get sourceNode "u") "id")
                             (get (get targetNode "u") "id")
    | _ => ret (Err (mkApiError "source.match is not a function" 500))
    end.

(** getNetworkData: [limitParam] is the query parameter [limit]. *)
Definition getNetworkData (G : Graph) (limitParam : value)
  : Rand (result value) :=
  let limit := or_else limitParam (VNum 100) in
  Neo4jService.getNetworkData random36 G (parseInt limit).

(** [{ id: c.id, name: c.name, ...c }] *)
Definition withIdAndName (c : value) : value :=
  objLit ([("id", get c "id"); ("name", get c "name")] ++ spread c).

(** getCharacterConnections: [characterName] is the route parameter and
    [depthParam] the query parameter [depth]. *)
Definition getCharacterConnections (G : Graph) (characterName : string)
  (depthParam : value) : Rand (result value) :=
  let depth := or_else depthParam (VNum 1) in
  r <- ConnectionQueries.getCharacterConnections random36 G
         (VStr characterName) (parseInt depth) ;;
  match r with
  | Err e => ret (Err e)
  | Ok connectionData =>
      if negb (truthy connectionData)
         || negb (truthy (get connectionData "character"))
      then ret (Err (notFound ("Character '" ++ characterName ++ "' not found")))
      else
        formattedData <- DataService.formatNetworkForD3 random36
                           (VObj [("paths", get connectionData "paths")]) ;;
        ret (Ok (VObj [("character",
                        withIdAndName (get connectionData "character"));
                       ("connections",
                        VArr (map withIdAndName
                                  (DataService.arrayItems
                                     (get connectionData "connections"))));
                       ("network", formattedData)]))
  end.

End WithRandom.

End NetworkController.

(* ================================================================== *)
(** ** Reading stories: neo4jService.getStories and the story
       controller's getStories and getStoryById *)
(* ================================================================== *)

Module StoryQueries.

(** [(s)<-[:AUTHORED]-(author:User)] for a story node [s]. *)
Definition authorsOfNode (G : Graph) (s : Node) : list Node :=
  flat_map
    (fun r =>
       if (rel_type r =? "AUTHORED") && (endNodeIdentity r =? identity s)%Z
       then filter (hasLabel "User") (nodesWithIdentity G (startNodeIdentity r))
       else [])
    (rels G).

(** The rows [(s, author)] of the pattern over the matched stories. *)
Definition authoredRows (G : Graph) (stories : list Node) : list (Node * Node) :=
  flat_map (fun s => map (pair s) (authorsOfNode G s)) stories.

(** [(sharer:User)-[shared:SHARED]->(s)] *)
Definition sharesOf (G : Graph) (s : Node) : list (Node * Relationship) :=
  flat_map
    (fun r =>
       if (rel_type r =? "SHARED") && (endNodeIdentity r =? identity s)%Z
       then map (fun u => (u, r))
                (filter (hasLabel "User")
                        (nodesWithIdentity G (startNodeIdentity r)))
       else [])
    (rels G).

Definition sameRow (x y : Node * Node) : bool :=
  (identity (fst x) =? identity (fst y))%Z
  && (identity (snd x) =? identity (snd y))%Z.

(** The grouping keys [s, author] of an aggregation, in order of first
    appearance. *)
Fixpoint distinctRows (seen : list (Node * Node)) (l : list (Node * Node))
  : list (Node * Node) :=
  match l with
  | [] => []
  | x :: rest =>
      if existsb (sameRow x) seen then distinctRows seen rest
      else x :: distinctRows (x :: seen) rest
  end.

(** [SKIP toInteger($skip) LIMIT toInteger($limit)]: the store rejects a
    negative count. *)
Definition skipLimit {A : Type} (skip limit : Z) (rows : list A)
  : outcome (list A) :=
  if (skip <? 0)%Z then
    Failed "Invalid input. SKIP must be a non-negative integer."
  else if (limit <? 0)%Z then
    Failed "Invalid input. LIMIT must be a non-negative integer."
  else Rows (firstn (Z.to_nat limit) (skipn (Z.to_nat skip) rows)).

Section WithRandom.

Variable random36 : nat -> string.

(** [ORDER BY s.createdAt DESC]: the rows in the order the store returns
    them. *)
Variable newestFirst : list (Node * Node) -> list (Node * Node).

(** executeQuery on a record of [RETURN s, author]. *)
Definition storyRow (row : Node * Node) : Rand value :=
  s <- Neo4jService.convertNode random36 (fst row) ;;
  author <- Neo4jService.convertNode random36 (snd row) ;;
  ret (VObj [("s", s); ("author", author)]).

(** getStories(skip = 0, limit = 50) *)
Definition getStories (G : Graph) (skip limit : value)
  : Rand (result (list value)) :=
  let params := VObj (getStories_params skip limit) in
  match skipLimit (Neo4jService.toInteger (get params "skip"))
             (Neo4jService.toInteger (get params "limit"))
             (newestFirst (authoredRows G (matchLabel G "Story"))) with
  | Failed m => ret (Err (Neo4jService.databaseError m))
  | Rows rows => records <- mapM storyRow rows ;; ret (Ok records)
  end.

End WithRandom.

End StoryQueries.

Module StoryListing.

Import StoryQueries.

(** [a * b] on numbers. *)
Definition times (a b : value) : value :=
  match a, b with
  | VNum x, VNum y => VNum (x * y)
  | _, _ => VNaN
  end.

(** The entry of a story in the listing. *)
Definition formatStory (record : value) : value :=
  VObj [("id", get (get record "s") "id");
        ("title", get (get record "s") "title");
        ("content", get (get record "s") "content");
        ("createdAt", get (get record "s") "createdAt");
        ("author", VObj [("id", get (get record "author") "id");
                         ("name", get (get record "author") "name")])].

(** The entry of a share in a story's details. *)
Definition formatShare (share : value) : value :=
  VObj [("user", VObj [("id", get (get share "sharer") "id");
                       ("name", get (get share "sharer") "name")]);
        ("timestamp", get (get share "shared") "timestamp")].

(** An item of [collect(distinct {sharer: sharer, shared: shared})]: a
    plain object, which executeQuery returns as it is, around the driver's
    node and relationship. *)
Definition shareItem (share : Node * Relationship) : value :=
  VObj [("sharer", ConnectionQueries.rawNode (fst share));
        ("shared", ConnectionQueries.rawRel (snd share))].

(** The item the OPTIONAL MATCH leaves when nobody shared the story. *)
Definition noShare : value := VObj [("sharer", VNull); ("shared", VNull)].

Definition shareItems (G : Graph) (s : Node) : list value :=
  match sharesOf G s with
  | [] => [noShare]
  | shares => map shareItem
                  (distinctBy (fun share => rel_identity (snd share)) [] shares)
  end.

Section WithRandom.

Variable random36 : nat -> string.

Variable newestFirst : list (Node * Node) -> list (Node * Node).

(** getStories: [pageParam] and [limitParam] are the query parameters
    [page] and [limit]. *)
Definition getStories (G : Graph) (pageParam limitParam : value)
  : Rand (result value) :=
  let page := or_else (parseInt pageParam) (VNum 0) in
  let limit := or_else (parseInt limitParam) (VNum 10) in
  let skip := times page limit in
  r <- StoryQueries.getStories random36 newestFirst G skip limit ;;
  match r with
  | Err e => ret (Err e)
  | Ok stories =>
      let formattedStories := map formatStory stories in
      ret (Ok (VObj [("stories", VArr formattedStories);
                     ("page", page);
                     ("limit", limit);
                     ("total", VNum (Z.of_nat (List.length formattedStories)))]))
  end.

(** executeQuery on a record of
    [RETURN s, author, collect(distinct {sharer: sharer, shared: shared}) as shares]. *)
Definition storyRecord (G : Graph) (row : Node * Node) : Rand value :=
  s <- Neo4jService.convertNode random36 (fst row) ;;
  author <- Neo4jService.convertNode random36 (snd row) ;;
  ret (VObj [("s", s); ("author", author);
             ("shares", VArr (shareItems G (fst row)))]).

(** getStoryById: [id] is the route parameter. *)
Definition getStoryById (G : Graph) (id : string) : Rand (result value) :=
  records <- mapM (storyRecord G)
                  (distinctRows []
                     (authoredRows G (matchNodes G "Story" (VStr id)))) ;;
  let result := Neo4jService.firstRecord records in
  if negb (truthy result) || negb (truthy (get result "s")) then
    ret (Err (notFound ("Story with ID " ++ id ++ " not found")))
  else
    ret (Ok (VObj [("id", get (get result "s") "id");
                   ("title", get (get result "s") "title");
                   ("content", get (get result "s") "content");
                   ("createdAt", get (get result "s") "createdAt");
                   ("author", VObj [("id", get (get result "author") "id");
                                    ("name", get (get result "author") "name")]);
                   ("shares",
                    VArr (map formatShare
                            (filter (fun share =>
                                       truthy (and_then (get share "sharer")
                                                        (get share "shared")))
                                    (DataService.arrayItems
                                       (get result "shares")))))])).

End WithRandom.

End StoryListing.

(* ================================================================== *)
(** ** src/utils/errorHandler.js *)
(* ================================================================== *)

Module ErrorHandler.

(** [new ApiError(message, statusCode)]: [super(message)] keeps the text
    of the message, the empty text when there is none. *)
Definition newApiError (message : value) (statusCode : Z) : ApiError :=
  mkApiError (match message with VUndef => "" | _ => toString message end)
             statusCode.

Definition badRequest (message : value) : ApiError :=
  newApiError (or_else message (VStr "Bad Request")) 400.

Definition notFound (message : value) : ApiError :=
  newApiError (or_else message (VStr "Resource Not Found")) 404.

Definition internalServer (message : value) : ApiError :=
  newApiError (or_else message (VStr "Internal Server Error")) 500.

Definition forbidden (message : value) : ApiError :=
  newApiError (or_else message (VStr "Forbidden")) 403.

Definition unauthorized (message : value) : ApiError :=
  newApiError (or_else message (VStr "Unauthorized")) 401.

(** The error object as the handler reads it; [stack] is the trace the
    engine recorded. *)
Definition thrown (e : ApiError) (stack : value) : value :=
  VObj [("message", VStr (err_message e));
        ("statusCode", VNum (statusCode e));
        ("name", VStr "ApiError");
        ("stack", stack)].

(** What the handler sends: [res.status(status).json(body)]. *)
Record Response : Type := mkResponse {
  status : value;
  body : value
}.

(** errorHandler; [development] is the test
    [process.env.NODE_ENV === 'development']. *)
Definition errorHandler (development : bool) (err : value) : Response :=
  let statusCode := or_else (get err "statusCode") (VNum 500) in
  mkResponse statusCode
    (VObj [("error",
            objLit ([("message", or_else (get err "message")
                                         (VStr "Internal Server Error"));
                     ("statusCode", statusCode)]
                    ++ spread (and_then (VBool development)
                                        (VObj [("stack", get err "stack")]))))]).

End ErrorHandler.

(* ================================================================== *)
(** ** src/services/dataService.js: initializeWithWotData, and the init
       controller *)
(* ================================================================== *)

Module Initialization.

(** A character as generateSampleWotCharacters describes it: every field
    is a string, [associations] an array of names.  A field that is
    missing and a field that is the empty string are both falsy. *)
Record Character : Type := mkCharacter {
  name : string;
  description : string;
  gender : string;
  nationality : string;
  affiliation : string;
  associations : list string
}.

(** A character of the array, with the [id] the first loop has set on it
    (none while its user has not been created). *)
Record Entry : Type := mkEntry {
  character : Character;
  entry_id : option string
}.

Record Summary : Type := mkSummary {
  characters : nat;
  relationships : nat;
  stories : nat
}.

(** The store, the summary, the number of identifiers drawn from
    [uuidv4()] and the number of queries run. *)
Record State : Type := mkState {
  store : Graph;
  summary : Summary;
  uuids : nat;
  queries : nat
}.

Definition countCharacter (s : Summary) : Summary :=
  mkSummary (S (characters s)) (relationships s) (stories s).

Definition countRelationship (s : Summary) : Summary :=
  mkSummary (characters s) (S (relationships s)) (stories s).

Definition countStory (s : Summary) : Summary :=
  mkSummary (characters s) (relationships s) (S (stories s)).

(** [c.id], as a test. *)
Definition hasId (e : Entry) : bool :=
  match entry_id e with
  | Some i => truthy (VStr i)
  | None => false
  end.

Definition idOf (e : Entry) : string :=
  match entry_id e with
  | Some i => i
  | None => ""
  end.

Definition storyTitles : list string :=
  ["The Dragon Reborn"; "The Eye of the World"; "The Great Hunt";
   "The Shadow Rising"; "The Fires of Heaven"].

Definition isMain (e : Entry) : bool :=
  hasId e && truthy (VStr (name (character e)))
  && ((name (character e) =? "Rand al'Thor")
      || (name (character e) =? "Matrim Cauthon")
      || (name (character e) =? "Perrin Aybara")
      || (name (character e) =? "Egwene al'Vere")
      || (name (character e) =? "Nynaeve al'Meara")).

(** [mainCharacters.length ? mainCharacters
     : characters.filter(c => c && c.id).slice(0, 5)] *)
Definition authorsAmong (entries : list Entry) : list Entry :=
  match filter isMain entries with
  | [] => firstn 5 (filter hasId entries)
  | mainCharacters => mainCharacters
  end.

Section WithOracles.

(** [uuidv4 k] is the [k]-th identifier drawn, [now k] the [datetime()] of
    the [k]-th query, [toLowerCase] the method of strings, and [shuffle i]
    what [.sort(() => 0.5 - Math.random())] makes of the candidates for
    the [i]-th story. *)
Variable uuidv4 : nat -> string.
Variable now : nat -> value.
Variable toLowerCase : string -> string.
Variable shuffle : nat -> list Entry -> list Entry.

Definition bioOf (c : Character) : string :=
  if truthy (VStr (description c)) then description c
  else "A character from the Wheel of Time series".

(** The body of the first loop: an error of createUser is logged and the
    character is left without [id]. *)
Definition createCharacter (acc : State * list Entry) (c : Character)
  : State * list Entry :=
  let (st, entries) := acc in
  if negb (truthy (VStr (name c))) then (st, entries ++ [mkEntry c None])
  else
    let userId := uuidv4 (uuids st) in
    match GraphWrites.createUser (store st) (now (queries st))
            (GraphWrites.mkUserData userId (name c) (bioOf c)) with
    | Rows G' =>
        (mkState G' (countCharacter (summary st)) (S (uuids st)) (S (queries st)),
         entries ++ [mkEntry c (Some userId)])
    | Failed _ =>
        (mkState (store st) (summary st) (S (uuids st)) (S (queries st)),
         entries ++ [mkEntry c None])
    end.

(** [characters.find(c => c && c.name && c.id &&
       c.name.toLowerCase() === association.toLowerCase())] *)
Definition associated (entries : list Entry) (association : string)
  : option Entry :=
  find (fun c => truthy (VStr (name (character c))) && hasId c
                 && (toLowerCase (name (character c)) =? toLowerCase association))
       entries.

(** The body of the loop over the associations of the character with
    identifier [cid]. *)
Definition connect (entries : list Entry) (cid : string) (st : State)
  (association : string) : State :=
  if negb (truthy (VStr association)) then st
  else
    match associated entries association with
    | None => st
    | Some a =>
        if negb (hasId a) then st
        else
          mkState (GraphWrites.createConnection (store st) (now (queries st))
                     (VStr cid) (VStr (idOf a)) "KNOWS")
                  (countRelationship (summary st)) (uuids st) (S (queries st))
    end.

(** The body of the second loop. *)
Definition connectCharacter (entries : list Entry) (st : State) (e : Entry)
  : State :=
  if negb (hasId e) then st
  else fold_left (connect entries (idOf e)) (associations (character e)) st.

Definition share (storyId authorId : string) (st : State) (recipient : Entry)
  : State :=
  if hasId recipient then
    mkState (Neo4jService.shareStory (store st) (now (queries st))
               (VStr storyId) (VStr authorId) (VStr (idOf recipient)))
            (summary st) (uuids st) (S (queries st))
  else st.

(** The body of the loop over the titles: an error of createStory is
    logged, and the story is then neither counted nor shared. *)
Definition createSampleStory (entries authors : list Entry) (st : State)
  (it : nat * string) : State :=
  let (i, title) := it in
  match nth_error authors (i mod List.length authors) with
  | None => st
  | Some author =>
      if negb (hasId author) then st
      else
        let storyId := uuidv4 (uuids st) in
        match GraphWrites.createStory (store st) (now (queries st))
                (GraphWrites.mkStoryData storyId title
                   "This is a sample story about the adventures in the world of the Wheel of Time."
                   (idOf author)) with
        | Failed _ =>
            mkState (store st) (summary st) (S (uuids st)) (S (queries st))
        | Rows G' =>
            let st1 := mkState G' (countStory (summary st)) (S (uuids st))
                               (S (queries st)) in
            let recipients :=
              firstn 5
                (shuffle i
                   (filter (fun c => hasId c && negb (idOf c =? idOf author))
                           entries)) in
            fold_left (share storyId (idOf author)) recipients st1
        end
  end.

(** initializeWithWotData on an array of characters: the store afterwards
    and the summary. *)
Definition initializeWithWotData (G : Graph) (wot : list Character)
  : Graph * Summary :=
  let (st1, entries) :=
    fold_left createCharacter wot (mkState G (mkSummary 0 0 0) 0 0, []) in
  let st2 := fold_left (connectCharacter entries) entries st1 in
  let authors := authorsAmong entries in
  let st3 :=
    match authors with
    | [] => st2
    | _ => fold_left (createSampleStory entries authors)
                     (combine (seq 0 (List.length storyTitles)) storyTitles) st2
    end in
  (store st3, summary st3).

End WithOracles.

Definition generateSampleWotCharacters : list Character :=
  [
  mkCharacter "Rand al'Thor"
    "The Dragon Reborn, a farm boy from the Two Rivers who discovers he is the reincarnation of the Dragon."
    "Male" "Andoran/Aiel" "Dragon Reborn"
    ["Matrim Cauthon"; "Perrin Aybara"; "Egwene al'Vere"; "Moiraine Damodred"];
  mkCharacter "Matrim Cauthon"
    "A gambler and trickster from the Two Rivers with incredible luck."
    "Male" "Andoran" "Band of the Red Hand"
    ["Rand al'Thor"; "Perrin Aybara"; "Tuon Athaem Kore Paendrag"];
  mkCharacter "Perrin Aybara"
    "A blacksmith from the Two Rivers with the ability to communicate with wolves."
    "Male" "Andoran" "Wolf Brother"
    ["Rand al'Thor"; "Matrim Cauthon"; "Faile Bashere"];
  mkCharacter "Egwene al'Vere"
    "An innkeeper's daughter who becomes the Amyrlin Seat."
    "Female" "Andoran" "Aes Sedai (White Tower)"
    ["Rand al'Thor"; "Nynaeve al'Meara"; "Elayne Trakand"];
  mkCharacter "Nynaeve al'Meara"
    "The former Wisdom of Emond's Field who becomes a powerful Aes Sedai."
    "Female" "Andoran" "Aes Sedai (Yellow Ajah)"
    ["Lan Mandragoran"; "Egwene al'Vere"; "Elayne Trakand"];
  mkCharacter "Moiraine Damodred"
    "An Aes Sedai of the Blue Ajah who guides the young heroes from the Two Rivers."
    "Female" "Cairhienin" "Aes Sedai (Blue Ajah)"
    ["Lan Mandragoran"; "Rand al'Thor"; "Siuan Sanche"];
  mkCharacter "Lan Mandragoran"
    "The uncrowned king of Malkier and Moiraine's Warder."
    "Male" "Malkieri" "Warder"
    ["Moiraine Damodred"; "Nynaeve al'Meara"];
  mkCharacter "Elayne Trakand"
    "Daughter-Heir of Andor who becomes a queen and Aes Sedai."
    "Female" "Andoran" "Aes Sedai (Green Ajah)/Queen of Andor"
    ["Rand al'Thor"; "Egwene al'Vere"; "Nynaeve al'Meara"];
  mkCharacter "Min Farshaw"
    "A young woman with the ability to see visions about people's futures."
    "Female" "Andoran" "Rand al'Thor"
    ["Rand al'Thor"; "Elayne Trakand"; "Aviendha"];
  mkCharacter "Aviendha"
    "A Maiden of the Spear who becomes a Wise One."
    "Female" "Aiel" "Wise One"
    ["Rand al'Thor"; "Elayne Trakand"; "Min Farshaw"]
  ].



End Initialization.

(* ================================================================== *)
(** ** Auxiliary definitions used in the statements and proofs *)
(* ================================================================== *)

Module Aux.

Unset Implicit Arguments.

Import Decimal.



(** A walk of the graph over admitted relationships, as a path in
    traversal order: consecutive segments share a node and every segment's
    relationship joins its two nodes. *)
Inductive walk (G : Graph) (keep : Relationship -> bool)
  : Node -> Path -> Node -> Prop :=
| walk_nil : forall a, walk G keep a [] a
| walk_snoc : forall a p b r c,
    walk G keep a p b ->
    In r (rels G) -> keep r = true ->
    In c (nodes G) -> joins r b c = true ->
    walk G keep a (p ++ [mkSegment b r c]) c.

(** The node identities of a search front. *)
Definition frontIds (front : list (Node * Path)) : list Z :=
  map (fun np => identity (fst np)) front.

(** Every path of a search front is a walk from the source, of the depth
    of the layer. *)
Definition layer (G : Graph) (keep : Relationship -> bool) (a : Node)
  (d : nat) (front : list (Node * Path)) : Prop :=
  forall n p, In (n, p) front -> walk G keep a p n /\ List.length p = d.

(** One admitted hop between node identities of the store. *)
Definition adjacent (G : Graph) (keep : Relationship -> bool) (i j : Z) : Prop :=
  exists r n,
    In r (rels G) /\ keep r = true /\ In n (nodes G) /\ identity n = j
    /\ ((startNodeIdentity r = i /\ endNodeIdentity r = j)
        \/ (endNodeIdentity r = i /\ startNodeIdentity r = j)).

(** [hopsTo G keep i l]: starting from identity [i], the identities [l] are
    reached one admitted hop after the other. *)
Inductive hopsTo (G : Graph) (keep : Relationship -> bool)
  : Z -> list Z -> Prop :=
| hopsTo_nil : forall i, hopsTo G keep i []
| hopsTo_cons : forall i j l,
    adjacent G keep i j -> hopsTo G keep j l -> hopsTo G keep i (j :: l).

(** The search front after [k] more layers. *)
Fixpoint layers (G : Graph) (keep : Relationship -> bool) (k : nat)
  (front : list (Node * Path)) : list (Node * Path) :=
  match k with
  | O => front
  | S k' => layers G keep k' (dedup [] (expand G keep front))
  end.

(** *** The formatters, segment by segment *)

(** A valid segment with the identifiers it is registered under. *)
Record Resolved : Type := mkResolved {
  r_startId : value;
  r_start : value;
  r_endId : value;
  r_end : value;
  r_relId : value;
  r_rel : value
}.

Definition resolveSegment (random36 : nat -> string) (segment : value)
  : Rand (list Resolved) :=
  if negb (DataService.validSegment segment) then ret []
  else
    startId <- DataService.orPlaceholder random36
                 (get (get segment "start") "id") "node-" ;;
    endId <- DataService.orPlaceholder random36
               (get (get segment "end") "id") "node-" ;;
    relId <- DataService.orPlaceholder random36
               (get (get segment "relationship") "id") "rel-" ;;
    ret [mkResolved startId (get segment "start") endId (get segment "end")
                    relId (get segment "relationship")].

Fixpoint resolve (random36 : nat -> string) (segments : list value)
  : Rand (list Resolved) :=
  match segments with
  | [] => ret []
  | s :: rest =>
      a <- resolveSegment random36 s ;;
      b <- resolve random36 rest ;;
      ret (a ++ b)
  end.

(** The node occurrences of the segments in encounter order (start before
    end), each with its identifier. *)
Definition occurrencesOf (rs : list Resolved) : list (value * value) :=
  flat_map (fun r => [(r_startId r, r_start r); (r_endId r, r_end r)]) rs.

Definition linksOf (rs : list Resolved) : list value :=
  map (fun r => DataService.linkEntry (r_startId r) (r_endId r) (r_relId r)
                                      (r_rel r)) rs.

(** Registering occurrences in a node map: an identifier already present
    is left alone. *)
Definition registerOne (m : DataService.NodeMap) (ko : value * value)
  : DataService.NodeMap :=
  if DataService.mapHas m (fst ko) then m
  else DataService.mapSet m (fst ko) (DataService.nodeEntry (fst ko) (snd ko)).

Definition register (m : DataService.NodeMap) (occs : list (value * value))
  : DataService.NodeMap :=
  fold_left registerOne occs m.

(** The first occurrence registered under an identifier. *)
Definition firstOccurrence (i : value) (occs : list (value * value))
  : option value :=
  match find (fun ko => sameValueZero (fst ko) i) occs with
  | Some ko => Some (snd ko)
  | None => None
  end.

(** The segments a formatter call walks through. *)
Definition networkSegments (data : value) : list value :=
  flat_map (fun path => DataService.arrayItems (get path "segments"))
           (DataService.arrayItems (get data "paths")).

Definition pathSegments (pathData : value) : list value :=
  DataService.arrayItems (get (get pathData "path") "segments").

(** Path-shaped input: in every segment that is processed, the start and
    end nodes are objects whose [id], when present, is a non-empty string,
    a non-zero number or [true] ... *)
Definition keyed (n : value) : bool :=
  match n with
  | VObj fs =>
      match lookup "id" fs with
      | None => true
      | Some v => truthy v && isPrimitive v
      end
  | _ => false
  end.

(** ... and the relationship is an object without properties named
    [source] or [target]. *)
Definition plainRel (rel : value) : bool :=
  match rel with
  | VObj fs =>
      match lookup "source" fs, lookup "target" fs with
      | None, None => true
      | _, _ => false
      end
  | _ => false
  end.

Definition segmentKeyed (segment : value) : bool :=
  if DataService.validSegment segment
  then keyed (get segment "start") && keyed (get segment "end")
  else true.

Definition segmentPlain (segment : value) : bool :=
  if DataService.validSegment segment
  then plainRel (get segment "relationship")
  else true.

Definition nodesKeyed (segments : list value) : bool :=
  forallb segmentKeyed segments.

Definition pathShaped (segments : list value) : bool :=
  forallb (fun s => segmentKeyed s && segmentPlain s) segments.

Definition nodeId (n : value) : value := get n "id".

(** An occurrence registered under a primitive identifier that its node
    entry carries as [id]. *)
Definition wellKeyed (ko : value * value) : Prop :=
  isPrimitive (fst ko) = true
  /\ nodeId (DataService.nodeEntry (fst ko) (snd ko)) = fst ko.

(** No link dangles: source and target are ids of listed nodes. *)
Definition linksClosed (nodes links : list value) : Prop :=
  forall l, In l links ->
    In (get l "source") (map nodeId nodes)
    /\ In (get l "target") (map nodeId nodes).

(** Deduplication by identifier, first occurrence kept: the listed nodes
    have pairwise distinct ids; for every occurrence met, the list holds
    the node entry built from the first occurrence of its identifier, under
    that id; and the list holds nothing else. *)
Definition firstOccurrenceWins (occs : list (value * value))
  (nodesOut : list value) : Prop :=
  NoDup (map nodeId nodesOut)
  /\ (forall ko, In ko occs ->
       exists o1, firstOccurrence (fst ko) occs = Some o1
                  /\ In (DataService.nodeEntry (fst ko) o1) nodesOut
                  /\ nodeId (DataService.nodeEntry (fst ko) o1) = fst ko)
  /\ (forall n, In n nodesOut ->
       exists i o1, firstOccurrence i occs = Some o1
                    /\ n = DataService.nodeEntry i o1).

(** *** Sample formatter inputs *)

Definition seg (startId startName endId endName relId : string) : value :=
  VObj [("start", VObj [("name", VStr startName); ("id", VStr startId);
                        ("labels", VArr [VStr "User"])]);
        ("relationship", VObj [("createdAt", VStr "t0"); ("id", VStr relId);
                               ("type", VStr "KNOWS");
                               ("startNodeId", VStr startId);
                               ("endNodeId", VStr endId)]);
        ("end", VObj [("name", VStr endName); ("id", VStr endId);
                      ("labels", VArr [VStr "User"])])].

(** Two paths out of node 1; node 2 is met twice, the second time under
    another name. *)
Definition samplePaths : value :=
  VObj [("paths",
         VArr [VObj [("segments", VArr [seg "1" "Alice" "2" "Bob" "20"])];
               VObj [("segments", VArr [seg "1" "Alice" "4" "Dana" "22";
                                        seg "4" "Dana" "2" "Robert" "23"])]])].

Definition samplePathData : value :=
  VObj [("path", VObj [("segments", VArr [seg "1" "Alice" "4" "Dana" "22";
                                          seg "4" "Dana" "1" "Alicia" "23"])]);
        ("pathLength", VNum 2)].

Definition canonicalSample : value :=
  VObj [("nodes", VArr [VObj [("id", VStr "1")]; VObj [("id", VStr "1")]]);
        ("links", VArr [])].

(** *** Sample stores *)

Definition user (i : Z) (id name : string) : Node :=
  mkNode i ["User"] [("id", VStr id); ("name", VStr name)].

Definition story (i : Z) (id title author : string) : Node :=
  mkNode i ["Story"]
         [("id", VStr id); ("title", VStr title); ("authorId", VStr author)].

Definition alice : Node := user 1 "a" "Alice".
Definition bob : Node := user 2 "b" "Bob".
Definition tale : Node := story 3 "s" "Tale" "a".
Definition dana : Node := user 4 "d" "Dana".

(** Alice wrote the tale and Bob once shared it on: the two users are
    joined through the story node only. *)
Definition storyOnlyGraph : Graph :=
  mkGraph [alice; bob; tale]
          [mkRel 10 "AUTHORED" 1 3 [];
           mkRel 11 "SHARED" 2 3 [("timestamp", VStr "t0")]]
          true.

(** A single user. *)
Definition loneGraph (forbid : bool) : Graph :=
  mkGraph [alice] [] forbid.

(** Alice reaches Bob in two hops over shares of another story, and in one
    hop over a share of the tale. *)
Definition reshareGraph : Graph :=
  mkGraph [alice; bob; tale; dana]
          [mkRel 10 "AUTHORED" 1 3 [];
           mkRel 12 "SHARED_WITH" 1 4 [("timestamp", VStr "t0"); ("storyId", VStr "other")];
           mkRel 13 "SHARED_WITH" 4 2 [("timestamp", VStr "t0"); ("storyId", VStr "other")];
           mkRel 14 "SHARED_WITH" 1 2 [("timestamp", VStr "t1"); ("storyId", VStr "s")]]
          true.

(** Alice and Bob know nobody; Alice wrote the tale. *)
Definition strangersGraph : Graph :=
  mkGraph [alice; bob; tale] [mkRel 10 "AUTHORED" 1 3 []] true.


(** The first user of a fresh store has identity 0. *)
Definition freshGraph : Graph :=
  mkGraph [user 0 "z" "Zoe"; alice]
          [mkRel 20 "KNOWS" 1 0 [("createdAt", VStr "t0")]]
          true.



(** The relationship types along a path. *)
Definition pathTypes (p : Path) : list string :=
  map (fun s => rel_type (seg_relationship s)) p.

(** A random source that is never consulted in the samples. *)
Definition noRandom : nat -> string := fun _ => "0.x".

End Aux.

Import Aux.

(* ================================================================== *)
(** ** Further auxiliary definitions *)
(* ================================================================== *)

Module Aux2.

Unset Implicit Arguments.

(** The store differs from [G] by appended relationships only. *)
Definition extendsBy (G G' : Graph) (new : list Relationship) : Prop :=
  nodes G' = nodes G
  /\ rels G' = rels G ++ new
  /\ forbid_shortestpath_common_nodes G' = forbid_shortestpath_common_nodes G.

(** What a relationship written by shareStory looks like: a SHARED edge
    from a matched sender to a matched story, or a SHARED_WITH edge tagged
    with the story between a matched sender and a different matched
    receiver. *)
Definition shareEdge (G : Graph) (storyId senderId receiverId : value)
  (r : Relationship) : Prop :=
  (rel_type r = "SHARED"
   /\ exists sender story,
        In sender (matchNodes G "User" senderId)
        /\ In story (matchNodes G "Story" storyId)
        /\ startNodeIdentity r = identity sender
        /\ endNodeIdentity r = identity story)
  \/ (rel_type r = "SHARED_WITH"
      /\ prop (rel_properties r) "storyId" = storyId
      /\ startNodeIdentity r <> endNodeIdentity r
      /\ exists sender receiver,
           In sender (matchNodes G "User" senderId)
           /\ In receiver (matchNodes G "User" receiverId)
           /\ startNodeIdentity r = identity sender
           /\ endNodeIdentity r = identity receiver).


(** The uniqueness constraint on the [id] property under a label. *)
Definition uniqueIds (G : Graph) (label : string) : Prop :=
  forall p, (List.length (matchNodes G label p) <= 1)%nat.

Definition sameNodeMessage : string :=
  "The shortest path algorithm does not work when the start and end nodes are the same.".

(** Carol knows nobody yet. *)
Definition carol : GraphWrites.UserData :=
  GraphWrites.mkUserData "c" "Carol" "A reader".

Definition newTale : GraphWrites.StoryData :=
  GraphWrites.mkStoryData "s2" "Second tale" "Once more" "a".

(** Every User of the store carries a UUID-shaped string as its [id]
    property (the identifiers the application assigns with uuidv4). *)
Definition uuidKeyed (G : Graph) : Prop :=
  forall n, In n (nodes G) -> hasLabel "User" n = true ->
  exists u, prop (properties n) "id" = VStr u
            /\ NetworkController.uuidShaped u = true.

Fixpoint allDigits (s : string) : bool :=
  match s with
  | EmptyString => true
  | String c rest =>
      (let n := nat_of_ascii c in ((48 <=? n) && (n <=? 57))%nat)
      && allDigits rest
  end.

(** No relationship of the store has a property named source or target. *)
Definition plainRels (G : Graph) : Prop :=
  forall r, In r (rels G) ->
    lookup "source" (rel_properties r) = None
    /\ lookup "target" (rel_properties r) = None.

(** Users that carry UUIDs. *)
Definition ann : Node :=
  mkNode 1 ["User"]
         [("id", VStr "11111111-1111-4111-8111-111111111111"); ("name", VStr "Ann")].
Definition ben : Node :=
  mkNode 2 ["User"]
         [("id", VStr "22222222-2222-4222-8222-222222222222"); ("name", VStr "Ben")].

Definition uuidGraph : Graph :=
  mkGraph [ann; ben] [mkRel 20 "KNOWS" 1 2 [("createdAt", VStr "t0")]] true.

(** *** The connection queries *)

(** A chain of hops out of a node in which no relationship occurs twice:
    what the pattern [(a)-[*]-(b)] matches. *)
Inductive trail (G : Graph) : Node -> Path -> Node -> Prop :=
| trail_nil : forall a, trail G a [] a
| trail_snoc : forall a p b r c,
    trail G a p b ->
    In r (rels G) -> VarLength.usedIn p r = false ->
    In c (nodes G) -> joins r b c = true ->
    trail G a (p ++ [mkSegment b r c]) c.

(** A User other than [c]. *)
Definition otherUser (c b : Node) : Prop :=
  hasLabel "User" b = true /\ identity b <> identity c.

(** [p] leads from [c] to another user [b] in 1 to [d] hops. *)
Definition connects (G : Graph) (c : Node) (d : nat) (p : Path) (b : Node)
  : Prop :=
  trail G c p b /\ (1 <= List.length p <= d)%nat /\ otherUser c b.

(** The paths of exactly [n] more hops. *)
Fixpoint hopLayer (G : Graph) (n : nat) (front : list (Node * Path))
  : list (Node * Path) :=
  match n with
  | O => front
  | S n' => hopLayer G n' (VarLength.extend G front)
  end.

Definition shorter (p q : Path) : Prop :=
  (List.length p <= List.length q)%nat.

(** Shortest first. *)
Definition ascending (ps : list Path) : Prop := StronglySorted shorter ps.

(** The paths and the connected users of one record of a connection query
    about node [c] with depth [d]: between 1 and 50 paths, shortest first,
    each leading from [c] to one of the listed users in 1 to [d] hops; the
    listed users are pairwise different, and each is a User other than [c]
    within [d] hops of it. *)
Definition connectionsOf (G : Graph) (c : Node) (d : nat)
  (ps : list Path) (cs : list Node) : Prop :=
  (1 <= List.length ps <= 50)%nat
  /\ ascending ps
  /\ (forall p, In p ps ->
        exists b, connects G c d p b /\ In (identity b) (map identity cs))
  /\ NoDup (map identity cs)
  /\ (forall b, In b cs -> exists p, connects G c d p b).

(** The depth a request asks for: [parseInt(req.query.depth || 1)]. *)
Definition requestedDepth (depthParam : value) : value :=
  parseInt (or_else depthParam (VNum 1)).

(** A random source whose draws all differ. *)
Definition counter36 (k : nat) : string := "0." ++ natToString k.

(** *** Reading stories *)

(** What a share entry of getStoryById holds. *)
Definition blankShare : value :=
  VObj [("user", VObj [("id", VUndef); ("name", VUndef)]);
        ("timestamp", VUndef)].

(** A User with an AUTHORED relationship to the story node [s]. *)
Definition authored (G : Graph) (a s : Node) : Prop :=
  In a (nodes G) /\ hasLabel "User" a = true
  /\ exists r, In r (rels G) /\ rel_type r = "AUTHORED"
               /\ startNodeIdentity r = identity a
               /\ endNodeIdentity r = identity s.








(** Alice wrote the tale; Bob and Dana shared it. *)
Definition sharedTaleGraph : Graph :=
  mkGraph [alice; bob; tale; dana]
          [mkRel 10 "AUTHORED" 1 3 [];
           mkRel 11 "SHARED" 2 3 [("timestamp", VStr "t0")];
           mkRel 12 "SHARED" 4 3 [("timestamp", VStr "t1")]]
          true.

(** *** Errors *)

(** An error the handler passes on as it is: a status of 400, 404 or 500
    and a message that is not empty. *)
Definition plainError (e : ApiError) : Prop :=
  (statusCode e = 400 \/ statusCode e = 404 \/ statusCode e = 500)%Z
  /\ err_message e <> "".

(** The body of an error response outside development mode. *)
Definition errorBody (message : string) (code : Z) : value :=
  VObj [("error", VObj [("message", VStr message); ("statusCode", VNum code)])].

(** *** Initialization *)

Definition usersIn (G : Graph) : nat := List.length (matchLabel G "User").

Definition storiesIn (G : Graph) : nat := List.length (matchLabel G "Story").

Definition knowsIn (G : Graph) : nat :=
  List.length (filter (fun r => rel_type r =? "KNOWS") (rels G)).

(** Nothing was removed from the store. *)
Definition grownFrom (G G' : Graph) : Prop :=
  (exists n, nodes G' = nodes G ++ n) /\ (exists r, rels G' = rels G ++ r).

(** The characters that have a name. *)
Definition named (wot : list Initialization.Character) : nat :=
  List.length (filter (fun c => truthy (VStr (Initialization.name c))) wot).

(** The summary accounts for what was written since the store was [G0]. *)
Definition accounted (G0 : Graph) (st : Initialization.State) : Prop :=
  uniqueIds (Initialization.store st) "User"
  /\ grownFrom G0 (Initialization.store st)
  /\ usersIn (Initialization.store st)
     = (usersIn G0
        + Initialization.characters (Initialization.summary st))%nat
  /\ storiesIn (Initialization.store st)
     = (storiesIn G0
        + Initialization.stories (Initialization.summary st))%nat
  /\ (knowsIn (Initialization.store st)
      <= knowsIn G0
         + Initialization.relationships (Initialization.summary st))%nat.

(** The users of the store carry identifiers drawn so far. *)
Definition drawnIds (uuidv4 : nat -> string) (st : Initialization.State)
  : Prop :=
  forall n, In n (nodes (Initialization.store st)) -> hasLabel "User" n = true ->
  exists j, (j < Initialization.uuids st)%nat
            /\ prop (properties n) "id" = VStr (uuidv4 j).

(** Oracles for the samples: identifiers "u0", "u1", ...; a clock that
    stands still; ASCII names compared as they are; no shuffling. *)
Definition sampleUuid (k : nat) : string := "u" ++ natToString k.
Definition sampleClock (k : nat) : value := VStr "t0".
Definition sameCase (s : string) : string := s.
Definition noShuffle (i : nat) (l : list Initialization.Entry)
  : list Initialization.Entry := l.

(** *** executeQuery *)


(** The segments a formatter does not skip. *)
Definition validSegments (segments : list value) : list value :=
  filter DataService.validSegment segments.

(** A path record with one good segment and one without relationship, and
    no pathLength. *)
Definition gappyPathData : value :=
  VObj [("path",
         VObj [("segments",
                VArr [seg "1" "Alice" "2" "Bob" "20";
                      VObj [("start", VObj [("id", VStr "2")]);
                            ("end", VObj [("id", VStr "3")])]])])].

End Aux2.

Import Aux2.

Unset Implicit Arguments.

(* ================================================================== *)
(** ** Worked examples *)
(* ================================================================== *)

Example parseInt_ex1 : parseInt (VStr "  -42px") = VNum (-42).
Proof. reflexivity. Qed.
Example parseInt_ex2 : parseInt (VStr "abc") = VNaN.
Proof. reflexivity. Qed.
Example parseInt_ex3 : parseInt (VStr "0x1f") = VNum 31.
Proof. reflexivity. Qed.
Example parseInt_ex4 : parseInt (VNum 50) = VNum 50.
Proof. reflexivity. Qed.
Example parseInt_ex5 : parseInt (VArr [VStr "12"; VStr "x"]) = VNum 12.
Proof. reflexivity. Qed.
Example getStories_ex : getStories_params (VStr "-5") (VStr "abc")
  = [("skip", VNum (-5)); ("limit", VNum 50)].
Proof. reflexivity. Qed.
Example getUsers_ex : getUsers_params (VStr "-5") (VStr "abc")
  = [("skip", VNum (-5)); ("limit", VNum 0)].
Proof. reflexivity. Qed.

(* ================================================================== *)
(** ** Parsing a printed integer *)
(* ================================================================== *)

Module ParseIntFacts.

Import Decimal.







Lemma printed_nonzero (p : positive) :
  NilZero.string_of_uint (Pos.to_uint p)
  = NilEmpty.string_of_uint (Pos.to_uint p).
Proof.
  pose proof (DecimalPos.Unsigned.to_uint_nonnil p) as Hn.
  destruct (Pos.to_uint p); [congruence | reflexivity ..].
Qed.


End ParseIntFacts.

(* ================================================================== *)
(** ** Pagination parameters (listUsers, listStories) *)
(* ================================================================== *)

Module PaginationFacts.

Import ParseIntFacts.












End PaginationFacts.

(* ================================================================== *)
(** ** The shortest-path search *)
(* ================================================================== *)

Module SearchFacts.

Section Search.

Variable G : Graph.

Lemma in_hops (keep : Relationship -> bool) (n : Node) (r : Relationship)
  (m : Node) :
  In (r, m) (hops G keep n) <->
  In r (rels G) /\ keep r = true /\ In m (nodes G) /\ joins r n m = true.
Proof.
  unfold hops, joins, nodesWithIdentity. rewrite in_flat_map. split.
  - intros (r' & Hr & Hin). destruct (keep r') eqn:Hk; [| contradiction].
    apply in_app_or in Hin.
    destruct Hin as [Hin | Hin];
      [destruct (startNodeIdentity r' =? identity n)%Z eqn:E
      | destruct (endNodeIdentity r' =? identity n)%Z eqn:E];
      try contradiction;
      apply in_map_iff in Hin; destruct Hin as (m' & Heq & Hm);
      injection Heq as <- <-; apply filter_In in Hm; destruct Hm as [Hm Hid];
      (repeat split; try assumption);
      apply Z.eqb_eq in E, Hid; rewrite E;
      rewrite !Z.eqb_refl; rewrite <- ?Hid, ?Z.eqb_refl;
      cbn; rewrite ?orb_true_r; reflexivity.
  - intros (Hr & Hk & Hm & Hj). exists r. split; [assumption |].
    rewrite Hk. apply in_or_app.
    apply orb_true_iff in Hj. destruct Hj as [Hj | Hj];
      apply andb_true_iff in Hj; destruct Hj as [H1 H2]; [left | right];
      rewrite H1; apply in_map; apply filter_In; split; try assumption;
      apply Z.eqb_eq in H2; rewrite H2; apply Z.eqb_refl.
Qed.

Lemma in_expand (keep : Relationship -> bool) (front : list (Node * Path))
  (m : Node) (q : Path) :
  In (m, q) (expand G keep front) <->
  exists n p r, In (n, p) front /\ In (r, m) (hops G keep n)
                /\ q = p ++ [mkSegment n r m].
Proof.
  unfold expand. rewrite in_flat_map. split.
  - intros ([n p] & Hf & Hin). apply in_map_iff in Hin.
    destruct Hin as ([r m'] & Heq & Hh). cbn in Heq. injection Heq as <- <-.
    exists n, p, r. auto.
  - intros (n & p & r & Hf & Hh & ->). exists (n, p). split; [assumption |].
    apply in_map_iff. exists (r, m). split; [reflexivity | assumption].
Qed.

Lemma distinctBy_incl {A : Type} (key : A -> Z) (l : list A) :
  forall seen, incl (distinctBy key seen l) l.
Proof.
  induction l as [| x l IH]; intros seen y Hy; cbn in *; [assumption |].
  destruct (existsb _ seen).
  - right. eapply IH; eassumption.
  - destruct Hy as [-> | Hy]; [left; reflexivity | right; eapply IH; eassumption].
Qed.

Lemma distinctBy_keys {A : Type} (key : A -> Z) (l : list A) :
  forall (seen : list Z) (i : Z),
  In i (map key (distinctBy key seen l)) <-> In i (map key l) /\ ~ In i seen.
Proof.
  induction l as [| x l IH]; intros seen i; cbn; [tauto |].
  destruct (existsb (Z.eqb (key x)) seen) eqn:E.
  - rewrite IH. apply existsb_exists in E. destruct E as (j & Hj & Hij).
    apply Z.eqb_eq in Hij. subst j. split; [tauto |].
    intros [[<- | H] Hn]; tauto.
  - cbn. rewrite IH. cbn.
    assert (Hn : ~ In (key x) seen).
    { intro Hin. apply Bool.not_true_iff_false in E. apply E.
      apply existsb_exists. eexists; split; [eassumption | apply Z.eqb_refl]. }
    destruct (Z.eq_dec (key x) i) as [<- | Hne]; [tauto |].
    tauto.
Qed.

Lemma distinctBy_NoDup {A : Type} (key : A -> Z) (l : list A) :
  forall seen, NoDup (map key (distinctBy key seen l)).
Proof.
  induction l as [| x l IH]; intros seen; cbn; [constructor |].
  destruct (existsb (Z.eqb (key x)) seen); [apply IH |].
  cbn. constructor; [| apply IH].
  rewrite distinctBy_keys. cbn. tauto.
Qed.

Lemma dedup_incl (seen : list Z) (l : list (Node * Path)) :
  incl (dedup seen l) l.
Proof. apply distinctBy_incl. Qed.

Lemma dedup_ids (l : list (Node * Path)) : forall (seen : list Z) (i : Z),
  In i (frontIds (dedup seen l)) <-> In i (frontIds l) /\ ~ In i seen.
Proof. apply distinctBy_keys. Qed.

Lemma layer_next (keep : Relationship -> bool) (a : Node) (d : nat)
  (front : list (Node * Path)) :
  layer G keep a d front ->
  layer G keep a (S d) (dedup [] (expand G keep front)).
Proof.
  intros H m q Hin. apply dedup_incl in Hin. apply in_expand in Hin.
  destruct Hin as (n & p & r & Hf & Hh & ->).
  destruct (H _ _ Hf) as [Hw Hl]. apply in_hops in Hh.
  destruct Hh as (Hr & Hk & Hm & Hj). split.
  - apply walk_snoc; assumption.
  - rewrite length_app, Hl. cbn. lia.
Qed.

Lemma search_sound (keep : Relationship -> bool) (a : Node) (target : Z)
  (fuel : nat) : forall (d : nat) (front : list (Node * Path)) (p : Path),
  layer G keep a d front ->
  search G keep target fuel front = Some p ->
  exists b, walk G keep a p b /\ identity b = target
            /\ (d < List.length p <= d + fuel)%nat.
Proof.
  induction fuel as [| fuel IH]; intros d front p Hl Hs; cbn in Hs;
    [discriminate |].
  pose proof (layer_next _ _ _ _ Hl) as Hn.
  destruct (find _ _) as [[b q] |] eqn:Hf.
  - injection Hs as <-. apply find_some in Hf. destruct Hf as [Hin Hid].
    cbn in Hid. apply Z.eqb_eq in Hid. destruct (Hn _ _ Hin) as [Hw Hlen].
    exists b. cbn. repeat split; try assumption; lia.
  - destruct (IH _ _ _ Hn Hs) as (b & Hw & Hid & Hlen).
    exists b. repeat split; try assumption; lia.
Qed.

(** Admitting more relationships reaches at least the same nodes. *)
Lemma expand_ids_mono (keep1 keep2 : Relationship -> bool)
  (front1 front2 : list (Node * Path)) :
  (forall r, keep1 r = true -> keep2 r = true) ->
  incl (frontIds front1) (frontIds front2) ->
  incl (frontIds (dedup [] (expand G keep1 front1)))
       (frontIds (dedup [] (expand G keep2 front2))).
Proof.
  intros Hk Hf i Hi. apply dedup_ids in Hi. destruct Hi as [Hi _].
  apply dedup_ids. split; [| intros []].
  unfold frontIds in Hi. apply in_map_iff in Hi.
  destruct Hi as ([m q] & <- & Hin). apply in_expand in Hin.
  destruct Hin as (n & p & r & Hfr & Hh & ->).
  assert (Hn : In (identity n) (frontIds front2)).
  { apply Hf. unfold frontIds. apply in_map_iff. exists (n, p). auto. }
  unfold frontIds in Hn. apply in_map_iff in Hn.
  destruct Hn as ([n' p'] & Hid & Hin'). cbn in Hid.
  apply in_hops in Hh. destruct Hh as (Hr & Hk1 & Hm & Hj).
  unfold frontIds. apply in_map_iff.
  exists (m, p' ++ [mkSegment n' r m]). split; [reflexivity |].
  apply in_expand. exists n', p', r. repeat split; try assumption.
  apply in_hops. repeat split; auto.
  unfold joins in *. rewrite Hid. assumption.
Qed.

Lemma find_target (target : Z) (front : list (Node * Path)) :
  In target (frontIds front) ->
  exists np, find (fun np => (identity (fst np) =? target)%Z) front = Some np.
Proof.
  intro H. destruct (find _ front) as [np |] eqn:E; [eauto |].
  unfold frontIds in H. apply in_map_iff in H. destruct H as (x & Hx & Hin).
  pose proof (find_none _ _ E _ Hin) as Hf. cbn in Hf.
  rewrite Hx, Z.eqb_refl in Hf. discriminate.
Qed.

Lemma search_mono (keep1 keep2 : Relationship -> bool) (a : Node)
  (target : Z) (fuel : nat) :
  (forall r, keep1 r = true -> keep2 r = true) ->
  forall (d : nat) (front1 front2 : list (Node * Path)) (p1 : Path),
  layer G keep1 a d front1 -> layer G keep2 a d front2 ->
  incl (frontIds front1) (frontIds front2) ->
  search G keep1 target fuel front1 = Some p1 ->
  exists p2, search G keep2 target fuel front2 = Some p2
             /\ (List.length p2 <= List.length p1)%nat.
Proof.
  intro Hk. induction fuel as [| fuel IH]; intros d f1 f2 p1 H1 H2 Hi Hs;
    [discriminate |].
  pose proof (layer_next _ _ _ _ H1) as N1.
  pose proof (layer_next _ _ _ _ H2) as N2.
  pose proof (expand_ids_mono _ _ _ _ Hk Hi) as Hi'.
  pose proof (search_sound _ _ _ _ _ _ _ H1 Hs) as (_ & _ & _ & Hlen1).
  cbn in Hs |- *.
  destruct (find _ (dedup [] (expand G keep2 f2))) as [[b2 q2] |] eqn:F2.
  - exists q2. split; [reflexivity |].
    apply find_some in F2. destruct F2 as [Hin2 _].
    destruct (N2 _ _ Hin2) as [_ L2]. cbn. lia.
  - destruct (find _ (dedup [] (expand G keep1 f1))) as [[b1 q1] |] eqn:F1.
    + exfalso. apply find_some in F1. destruct F1 as [Hin1 Hid1].
      cbn in Hid1. apply Z.eqb_eq in Hid1.
      assert (Ht : In target (frontIds (dedup [] (expand G keep2 f2)))).
      { apply Hi'. unfold frontIds. apply in_map_iff.
        exists (b1, q1). auto. }
      destruct (find_target _ _ Ht) as [np Hnp]. congruence.
    + eapply IH; eassumption.
Qed.

Lemma layer_source (keep : Relationship -> bool) (a : Node) :
  layer G keep a 0 [(a, [])].
Proof.
  intros n p [H | []]. injection H as <- <-. split; [constructor | reflexivity].
Qed.

(** A path returned by [shortestPath] is a walk over admitted relationships
    from the first node to the second, and has at least one hop. *)
Lemma shortestPath_sound (keep : Relationship -> bool) (a b : Node) (p : Path) :
  shortestPath G keep a b = Rows (Some p) ->
  (exists b', walk G keep a p b' /\ identity b' = identity b)
  /\ (1 <= List.length p)%nat.
Proof.
  unfold shortestPath. destruct (identity a =? identity b)%Z.
  - destruct (forbid_shortestpath_common_nodes G); discriminate.
  - intro H. injection H as H.
    destruct (search_sound _ _ _ _ _ _ _ (layer_source keep a) H)
      as (b' & Hw & Hid & Hl).
    split; [eauto | lia].
Qed.

Lemma shortestPath_mono (keep1 keep2 : Relationship -> bool) (a b : Node)
  (p1 : Path) :
  (forall r, keep1 r = true -> keep2 r = true) ->
  shortestPath G keep1 a b = Rows (Some p1) ->
  exists p2, shortestPath G keep2 a b = Rows (Some p2)
             /\ (List.length p2 <= List.length p1)%nat.
Proof.
  intro Hk. unfold shortestPath. destruct (identity a =? identity b)%Z.
  - destruct (forbid_shortestpath_common_nodes G); discriminate.
  - intro H. injection H as H.
    destruct (search_mono _ _ _ _ _ Hk _ _ _ _ (layer_source keep1 a)
                (layer_source keep2 a) (incl_refl _) H) as (p2 & H2 & Hl).
    exists p2. rewrite H2. auto.
Qed.

Lemma walk_rels (keep : Relationship -> bool) (a b : Node) (p : Path) :
  walk G keep a p b ->
  forall s, In s p ->
    In (seg_relationship s) (rels G) /\ keep (seg_relationship s) = true
    /\ joins (seg_relationship s) (seg_start s) (seg_end s) = true.
Proof.
  induction 1 as [| a p b r c Hw IH Hr Hk Hc Hj]; intros s Hs; [destruct Hs |].
  apply in_app_or in Hs. destruct Hs as [Hs | [<- | []]]; [auto |].
  cbn. auto.
Qed.

End Search.

End SearchFacts.

(* ================================================================== *)
(** ** The search finds a shortest walk *)
(* ================================================================== *)

Module SearchComplete.

Import SearchFacts.

Section Search.

Variable G : Graph.
Variable keep : Relationship -> bool.

Lemma adjacent_next (front : list (Node * Path)) (i j : Z) :
  In i (frontIds front) -> adjacent G keep i j ->
  In j (frontIds (dedup [] (expand G keep front))).
Proof.
  intros Hi (r & n & Hr & Hk & Hn & Hid & Hj).
  apply dedup_ids. split; [| intros []].
  unfold frontIds in Hi. apply in_map_iff in Hi.
  destruct Hi as ([m p] & Hm & Hin). cbn in Hm.
  unfold frontIds. apply in_map_iff.
  exists (n, p ++ [mkSegment m r n]). split; [exact Hid |].
  apply in_expand. exists m, p, r.
  split; [assumption | split; [| reflexivity]].
  apply in_hops. repeat split; try assumption.
  unfold joins. rewrite Hm, Hid.
  destruct Hj as [[-> ->] | [-> ->]]; rewrite !Z.eqb_refl; cbn;
    rewrite ?orb_true_r; reflexivity.
Qed.

Lemma last_cons (l : list Z) : forall x d, last (x :: l) d = last l x.
Proof.
  induction l as [| y l IH]; intros x d; [reflexivity |].
  change (last (x :: y :: l) d) with (last (y :: l) d).
  rewrite (IH y d), (IH y x). reflexivity.
Qed.

Lemma last_app_cons (l1 l2 : list Z) (j d : Z) :
  last (l1 ++ j :: l2) d = last l2 j.
Proof.
  revert d. induction l1 as [| x l1 IH]; intro d; cbn [app].
  - apply last_cons.
  - rewrite last_cons. apply IH.
Qed.

Lemma hopsTo_layers (i : Z) (l : list Z) :
  hopsTo G keep i l ->
  forall front, In i (frontIds front) ->
  In (last l i) (frontIds (layers G keep (List.length l) front)).
Proof.
  induction 1 as [i | i j l Hadj Hh IH]; intros front Hi; [exact Hi |].
  cbn [List.length layers]. rewrite last_cons.
  apply IH. eapply adjacent_next; eassumption.
Qed.

Lemma hopsTo_suffix (i j : Z) (l1 l2 : list Z) :
  hopsTo G keep i (l1 ++ j :: l2) -> hopsTo G keep j l2.
Proof.
  revert i. induction l1 as [| x l1 IH]; intros i H; inversion H; subst;
    [assumption | eapply IH; eassumption].
Qed.

(** Loops can be cut out of a walk. *)
Lemma hopsTo_simple (i : Z) (l : list Z) :
  hopsTo G keep i l ->
  exists l', hopsTo G keep i l' /\ last l' i = last l i /\ NoDup l'
             /\ (List.length l' <= List.length l)%nat.
Proof.
  induction 1 as [i | i j l Hadj Hh IH].
  - exists []. repeat split; [constructor | constructor | lia].
  - destruct IH as (l' & Hh' & Hlast & Hnd & Hlen).
    assert (Hl : last (j :: l) i = last l j)
      by (apply (last_app_cons [] l j i)).
    destruct (in_dec Z.eq_dec j l') as [Hin | Hnin].
    + apply in_split in Hin. destruct Hin as (l1 & l2 & ->).
      exists (j :: l2). split; [| split; [| split]].
      * constructor; [assumption | eapply hopsTo_suffix; eassumption].
      * rewrite Hl, <- Hlast, last_app_cons.
        apply (last_app_cons [] l2 j i).
      * apply NoDup_remove in Hnd. destruct Hnd as [Hnd Hnin].
        constructor.
        -- intro H. apply Hnin. apply in_or_app. right. assumption.
        -- apply NoDup_app_remove_l in Hnd. assumption.
      * rewrite length_app in Hlen. cbn in *. lia.
    + exists (j :: l'). split; [| split; [| split]].
      * constructor; assumption.
      * rewrite Hl, <- Hlast. apply (last_app_cons [] l' j i).
      * constructor; assumption.
      * cbn. lia.
Qed.

Lemma hopsTo_nodes (i : Z) (l : list Z) :
  hopsTo G keep i l -> incl l (map identity (nodes G)).
Proof.
  induction 1 as [i | i j l Hadj Hh IH]; intros x Hx; [destruct Hx |].
  destruct Hx as [<- | Hx]; [| auto].
  destruct Hadj as (r & n & _ & _ & Hn & <- & _). apply in_map. assumption.
Qed.

Lemma hopsTo_snoc (i j : Z) (l : list Z) :
  hopsTo G keep i l -> adjacent G keep (last l i) j ->
  hopsTo G keep i (l ++ [j]).
Proof.
  induction 1 as [i | i k l Hadj Hh IH]; intro Ha; cbn [app].
  - constructor; [assumption | constructor].
  - constructor; [assumption |]. apply IH.
    rewrite <- (last_app_cons [] l k i). exact Ha.
Qed.

Lemma walk_hopsTo (a b : Node) (p : Path) :
  walk G keep a p b ->
  exists l, hopsTo G keep (identity a) l /\ last l (identity a) = identity b
            /\ List.length l = List.length p.
Proof.
  induction 1 as [a | a p b r c Hw IH Hr Hk Hc Hj].
  - exists []. repeat split. constructor.
  - destruct IH as (l & Hh & Hlast & Hlen). exists (l ++ [identity c]).
    split; [| split].
    + apply hopsTo_snoc; [assumption |]. rewrite Hlast.
      exists r, c. repeat split; try assumption.
      unfold joins in Hj. apply orb_true_iff in Hj.
      destruct Hj as [Hj | Hj]; apply andb_true_iff in Hj;
        destruct Hj as [H1 H2]; apply Z.eqb_eq in H1, H2; auto.
    + apply (last_app_cons l [] (identity c) (identity a)).
    + rewrite !length_app, Hlen. reflexivity.
Qed.

Lemma search_complete (a : Node) (target : Z) (fuel : nat) :
  forall (k d : nat) (front : list (Node * Path)),
  layer G keep a d front ->
  (1 <= k <= fuel)%nat ->
  In target (frontIds (layers G keep k front)) ->
  exists p, search G keep target fuel front = Some p
            /\ (List.length p <= d + k)%nat.
Proof.
  induction fuel as [| fuel IH]; intros k d front Hl Hk Hin; [lia |].
  cbn [search]. pose proof (layer_next _ _ _ _ _ Hl) as Hn.
  destruct (find _ (dedup [] (expand G keep front))) as [[b q] |] eqn:F.
  - exists q. split; [reflexivity |]. apply find_some in F.
    destruct F as [Hq _]. destruct (Hn _ _ Hq) as [_ Hlen]. cbn. lia.
  - destruct k as [| [| k]]; [lia | |].
    + exfalso. cbn [layers] in Hin.
      destruct (find_target _ _ Hin) as [np Hnp]. congruence.
    + cbn [layers] in Hin. change (layers G keep k (dedup [] (expand G keep
          (dedup [] (expand G keep front))))) with
        (layers G keep (S k) (dedup [] (expand G keep front))) in Hin.
      destruct (IH (S k) (S d) _ Hn ltac:(lia) Hin) as (p & Hp & Hlen).
      exists p. split; [assumption | lia].
Qed.

(** Whenever some walk over admitted relationships joins two distinct
    nodes, [shortestPath] returns a path, and no walk is shorter than it:
    the layers explored suffice. *)
Lemma shortestPath_complete (a b : Node) (p : Path) :
  walk G keep a p b ->
  identity a <> identity b ->
  exists q, shortestPath G keep a b = Rows (Some q)
            /\ (List.length q <= List.length p)%nat.
Proof.
  intros Hw Hne. unfold shortestPath.
  destruct (Z.eqb_spec (identity a) (identity b)) as [| _]; [congruence |].
  destruct (walk_hopsTo _ _ _ Hw) as (l & Hh & Hlast & Hlen).
  destruct (hopsTo_simple _ _ Hh) as (l' & Hh' & Hlast' & Hnd & Hlen').
  assert (Hpos : (1 <= List.length l')%nat).
  { destruct l'; [cbn in Hlast'; congruence | cbn; lia]. }
  assert (Hbound : (List.length l' <= List.length (nodes G))%nat).
  { rewrite <- (length_map identity (nodes G)).
    apply NoDup_incl_length; [assumption | eapply hopsTo_nodes; eassumption]. }
  assert (Hin : In (identity b)
                   (frontIds (layers G keep (List.length l') [(a, [])]))).
  { rewrite <- Hlast, <- Hlast'. apply (hopsTo_layers _ _ Hh').
    left. reflexivity. }
  destruct (search_complete a (identity b) (List.length (nodes G))
              (List.length l') 0 [(a, [])] (layer_source G keep a)
              ltac:(lia) Hin) as (q & Hq & Hlq).
  exists q. rewrite Hq. split; [reflexivity | lia].
Qed.

End Search.

End SearchComplete.

(* ================================================================== *)
(** ** Path engine: findShortestPath and the scoring searches *)
(* ================================================================== *)

Module PathFacts.

Import SearchFacts.

Lemma forRows_in {A B : Type} (f : A -> outcome (list B)) (rows : list A) :
  forall ys y, forRows f rows = Rows ys -> In y ys ->
  exists x l, In x rows /\ f x = Rows l /\ In y l.
Proof.
  induction rows as [| x rows IH]; intros ys y H Hy; cbn in H.
  - injection H as <-. destruct Hy.
  - destruct (f x) as [l |] eqn:Ef; [| discriminate].
    destruct (forRows f rows) as [zs |] eqn:Er; [| discriminate].
    injection H as <-. apply in_app_or in Hy. destruct Hy as [Hy | Hy].
    + exists x, l. cbn. auto.
    + destruct (IH _ _ eq_refl Hy) as (x' & l' & Hin & Hf & Hl).
      exists x', l'. cbn. auto.
Qed.

Lemma socialEdge_types (r : Relationship) :
  StoryController.socialEdge r = true ->
  rel_type r = "KNOWS" \/ rel_type r = "SHARED_WITH".
Proof.
  unfold StoryController.socialEdge, typeMatches. cbn [existsb].
  rewrite orb_false_r. intro H. apply orb_true_iff in H.
  destruct H as [H | H]; apply String.eqb_eq in H; auto.
Qed.

(** The path condition of the "before" query holds exactly when every
    relationship passes it on its own, so filtering relationships during
    the search is the same as filtering paths. *)
Lemma whereNone_forall (storyId : value) (p : list Relationship) :
  StoryController.whereNone storyId p
  = forallb (StoryController.untagged storyId) p.
Proof.
  unfold StoryController.untagged, StoryController.whereNone.
  induction p as [| r p IH]; [reflexivity |].
  cbn [map cy_none forallb] in *.
  destruct (cy_eq (prop (rel_properties r) "storyId") storyId) as [[|] |];
    cbn [is_true andb]; [reflexivity | exact IH |].
  destruct (cy_none (map _ p)) as [[|] |]; reflexivity.
Qed.

(** findShortestPath on the store where the users are joined through a
    story only: the path returned runs over an AUTHORED and a SHARED edge. *)
Lemma C4_counterexample :
  Neo4jService.findShortestPath_rows storyOnlyGraph (VStr "a") (VStr "b")
  = Rows [[mkSegment alice (mkRel 10 "AUTHORED" 1 3 []) tale;
           mkSegment tale (mkRel 11 "SHARED" 2 3 [("timestamp", VStr "t0")]) bob]]
  /\ (exists record,
        fst (Neo4jService.findShortestPath noRandom storyOnlyGraph
               (VStr "a") (VStr "b") 0%nat) = Ok record
        /\ get record "pathLength" = VNum 2
        /\ map (fun s => get (get s "relationship") "type")
               (DataService.arrayItems (get (get record "path") "segments"))
           = [VStr "AUTHORED"; VStr "SHARED"]).
Proof.
  split; [reflexivity |]. eexists. split; [reflexivity |].
  split; reflexivity.
Qed.

(** C4 (amended).  The shortest-path searches of recordShare (pattern
    [[r:KNOWS|SHARED_WITH*]], with or without the story-tag exclusion)
    follow only KNOWS and SHARED_WITH relationships, in either direction.
    findShortestPath (pattern [[*]]) follows relationships of every type:
    each segment of a path it returns is some relationship of the store that
    joins the segment's two nodes, in either direction. *)
Theorem C4_path_relationships (G : Graph) (storyId : value) (a b : Node)
  (p : Path) :
  (shortestPath G StoryController.socialEdge a b = Rows (Some p)
   \/ shortestPath G (fun r => StoryController.socialEdge r
                               && StoryController.untagged storyId r) a b
      = Rows (Some p) ->
   forall s, In s p ->
     (rel_type (seg_relationship s) = "KNOWS"
      \/ rel_type (seg_relationship s) = "SHARED_WITH")
     /\ In (seg_relationship s) (rels G)
     /\ joins (seg_relationship s) (seg_start s) (seg_end s) = true)
  /\ (shortestPath G Neo4jService.anyRelationship a b = Rows (Some p) ->
      forall s, In s p ->
        In (seg_relationship s) (rels G)
        /\ joins (seg_relationship s) (seg_start s) (seg_end s) = true).
Proof.
  split.
  - intros [H | H] s Hs;
      apply shortestPath_sound in H; destruct H as [(b' & Hw & _) _];
      destruct (walk_rels _ _ _ _ _ Hw s Hs) as (Hr & Hk & Hj).
    + split; [apply socialEdge_types; assumption | auto].
    + apply andb_true_iff in Hk. destruct Hk as [Hk _].
      split; [apply socialEdge_types; assumption | auto].
  - intros H s Hs.
    apply shortestPath_sound in H; destruct H as [(b' & Hw & _) _].
    destruct (walk_rels _ _ _ _ _ Hw s Hs) as (Hr & Hk & Hj). auto.
Qed.

(** The scoring search from Alice to Bob over the reshare store. *)
Lemma C4_path_relationships_witness :
  exists p,
    shortestPath reshareGraph StoryController.socialEdge alice bob = Rows (Some p)
    /\ forall s, In s p ->
         (rel_type (seg_relationship s) = "KNOWS"
          \/ rel_type (seg_relationship s) = "SHARED_WITH")
         /\ In (seg_relationship s) (rels reshareGraph)
         /\ joins (seg_relationship s) (seg_start s) (seg_end s) = true.
Proof.
  eexists. split; [reflexivity |].
  apply (C4_path_relationships reshareGraph (VStr "s") alice bob).
  left. reflexivity.
Defined.

(** With the default store setting, findShortestPath from a user to itself
    fails with a database error instead of returning a path of length 0. *)
Lemma C5_counterexample :
  fst (Neo4jService.findShortestPath noRandom (loneGraph true)
         (VStr "a") (VStr "a") 0%nat)
  = Err (mkApiError
           "Database query failed: The shortest path algorithm does not work when the start and end nodes are the same."
           500).
Proof. reflexivity. Qed.

(** C5 (amended).  For a user A, findShortestPath(A, A) never returns a
    path of length 0: the pattern [[*]] needs at least one hop and the store
    rejects identical end nodes.  With the default store setting the call
    fails with a database error (status 500); with
    [cypher.forbid_shortestpath_common_nodes] off it returns no record.
    Every path findShortestPath does return has at least one hop. *)
Theorem C5_self_path (random36 : nat -> string) (G : Graph) (A : value)
  (u : Node) (k : nat) :
  matchNodes G "User" A = [u] ->
  fst (Neo4jService.findShortestPath random36 G A A k)
  = (if forbid_shortestpath_common_nodes G
     then Err (Neo4jService.databaseError
                 "The shortest path algorithm does not work when the start and end nodes are the same.")
     else Ok VUndef)
  /\ forall s t ps p,
       Neo4jService.findShortestPath_rows G s t = Rows ps -> In p ps ->
       (1 <= List.length p)%nat.
Proof.
  intro Hu. split.
  - unfold Neo4jService.findShortestPath, Neo4jService.findShortestPath_rows.
    rewrite Hu. cbn [list_prod map app forRows fst snd].
    unfold shortestPath. rewrite Z.eqb_refl.
    destruct (forbid_shortestpath_common_nodes G); reflexivity.
  - intros s t ps p H Hp.
    destruct (forRows_in _ _ _ _ H Hp) as ([a b] & l & _ & Hf & Hl).
    cbn [fst snd] in Hf.
    destruct (shortestPath G Neo4jService.anyRelationship a b) as [o |] eqn:E;
      [| discriminate].
    injection Hf as <-. destruct o as [q |]; [| destruct Hl].
    destruct Hl as [<- | []]. apply (shortestPath_sound _ _ _ _ _ E).
Qed.

Lemma C5_self_path_witness :
  fst (Neo4jService.findShortestPath noRandom (loneGraph false)
         (VStr "a") (VStr "a") 0%nat) = Ok VUndef.
Proof.
  exact (proj1 (C5_self_path noRandom (loneGraph false) (VStr "a") alice 0%nat
                  eq_refl)).
Defined.

(** C6.  For every store, every pair of nodes and every story tag: when the
    search that leaves out the SHARED_WITH edges tagged with the story finds
    a path, the unrestricted search finds one too, and the restricted path
    is at least as long. *)
Theorem C6_exclusion_not_shorter (G : Graph) (storyId : value) (a b : Node)
  (pBefore : Path) :
  shortestPath G (fun r => StoryController.socialEdge r
                           && StoryController.untagged storyId r) a b
  = Rows (Some pBefore) ->
  exists pAfter,
    shortestPath G StoryController.socialEdge a b = Rows (Some pAfter)
    /\ (List.length pAfter <= List.length pBefore)%nat.
Proof.
  apply shortestPath_mono. intros r H.
  apply andb_true_iff in H. tauto.
Qed.

Lemma C6_exclusion_not_shorter_witness :
  exists pBefore pAfter,
    shortestPath reshareGraph
      (fun r => StoryController.socialEdge r
                && StoryController.untagged (VStr "s") r) alice bob
    = Rows (Some pBefore)
    /\ shortestPath reshareGraph StoryController.socialEdge alice bob
       = Rows (Some pAfter)
    /\ List.length pBefore = 2%nat
    /\ (List.length pAfter <= List.length pBefore)%nat.
Proof.
  eexists.
  destruct (C6_exclusion_not_shorter reshareGraph (VStr "s") alice bob _ eq_refl)
    as (pAfter & H & Hl).
  exists pAfter. repeat split; [exact H | exact Hl].
Defined.

End PathFacts.

(* ================================================================== *)
(** ** Share scoring: recordShare *)
(* ================================================================== *)

Module ShareFacts.

Import SearchFacts PathFacts StoryController.

Lemma pathQuery_positive (G : Graph) (keep : Relationship -> bool)
  (storyId receiverId : value) (ls : list Z) :
  pathQuery G keep storyId receiverId = Rows ls ->
  forall n, In n ls -> (1 <= n)%Z.
Proof.
  intros H n Hn. unfold pathQuery in H.
  destruct (forRows_in _ _ _ _ H Hn) as ([a b] & l & _ & Hf & Hl).
  cbn [fst snd] in Hf.
  destruct (shortestPath G keep a b) as [o |] eqn:E; [| discriminate].
  injection Hf as <-. destruct o as [q |]; [| destruct Hl].
  destruct Hl as [<- | []].
  pose proof (proj2 (shortestPath_sound _ _ _ _ _ E)). lia.
Qed.

Lemma hd_positive (ls : list Z) (n : Z) :
  (forall m, In m ls -> (1 <= m)%Z) -> hd_error ls = Some n -> (1 <= n)%Z.
Proof.
  destruct ls as [| m ls]; cbn; [discriminate |].
  intros H E. injection E as <-. apply H. left. reflexivity.
Qed.

(** The scoring arithmetic on path lengths of at least one hop. *)
Lemma score_spec (before after : option Z) :
  (forall b, before = Some b -> (1 <= b)%Z) ->
  (forall a, after = Some a -> (1 <= a)%Z) ->
  (0 <= snd (score before after))%Z
  /\ match before, after with
     | Some b, Some a =>
         fst (score before after) = (b - a)%Z
         /\ snd (score before after) = (10 * Z.max 0 (b - a))%Z
     | _, _ => fst (score before after) = 0%Z /\ snd (score before after) = 0%Z
     end.
Proof.
  intros Hb Ha. destruct before as [b |], after as [a |]; cbn [score];
    try (cbn; split; [lia | split; reflexivity]).
  specialize (Hb b eq_refl). specialize (Ha a eq_refl).
  cbn [truthy]. destruct (Z.eqb_spec b 0); [lia |].
  destruct (Z.eqb_spec a 0); [lia |]. cbn [negb andb].
  destruct (Z.gtb_spec (b - a) 0); cbn [fst snd]; lia.
Qed.

(** C2.  When recordShare succeeds, with [before] and [after] the results of
    the two path queries on the store as the write left it:
    rewardPoints is 10 x max(0, before - after), hence never negative, and
    pathReduction is before - after when both paths exist; when either path
    is absent both are 0. *)
Theorem C2_reward (G G' : Graph) (now stamp : value) (body : ShareBody)
  (resp : ShareResponse) :
  shareStory G now stamp body = (G', Ok resp) ->
  exists before after,
    pathBeforeShare G' (storyId body) (receiverId body) = Rows before
    /\ pathAfterShare G' (storyId body) (receiverId body) = Rows after
    /\ (0 <= rewardPoints resp)%Z
    /\ match hd_error before, hd_error after with
       | Some b, Some a =>
           pathReduction resp = (b - a)%Z
           /\ rewardPoints resp = (10 * Z.max 0 (b - a))%Z
       | _, _ => pathReduction resp = 0%Z /\ rewardPoints resp = 0%Z
       end.
Proof.
  unfold shareStory.
  destruct (negb (truthy (storyId body)) || negb (truthy (senderId body))
            || negb (truthy (receiverId body))); [discriminate |].
  destruct (negb (found G "Story" (storyId body))); [discriminate |].
  destruct (negb (found G "User" (senderId body))); [discriminate |].
  destruct (negb (found G "User" (receiverId body))); [discriminate |].
  set (G1 := Neo4jService.shareStory G now (storyId body) (senderId body)
               (receiverId body)).
  destruct (pathBeforeShare G1 (storyId body) (receiverId body))
    as [before |] eqn:Eb; [| discriminate].
  destruct (pathAfterShare G1 (storyId body) (receiverId body))
    as [after |] eqn:Ea; [| discriminate].
  intro H. injection H as <- <-. exists before, after.
  rewrite Eb, Ea. split; [reflexivity |]. split; [reflexivity |].
  cbn [rewardPoints pathReduction].
  apply score_spec; intros n Hn; eapply hd_positive; try eassumption;
    eapply pathQuery_positive; eassumption.
Qed.

(** Alice shares the tale with Bob on the reshare store: two hops before,
    one hop after, ten points. *)
Lemma C2_reward_witness :
  exists G' resp,
    shareStory reshareGraph (VStr "t2") (VStr "2024-01-01T00:00:00.000Z")
      (mkShareBody (VStr "s") (VStr "a") (VStr "b")) = (G', Ok resp)
    /\ pathReduction resp = 1%Z /\ rewardPoints resp = 10%Z
    /\ (0 <= rewardPoints resp)%Z.
Proof.
  eexists. eexists. split; [reflexivity |].
  destruct (C2_reward reshareGraph _ (VStr "t2") (VStr "2024-01-01T00:00:00.000Z")
              (mkShareBody (VStr "s") (VStr "a") (VStr "b")) _ eq_refl)
    as (before & after & Hb & Ha & Hpos & _).
  repeat split. exact Hpos.
Defined.

(** *** Sharing with oneself *)

Lemma self_share_rows (G : Graph) (storyId uid : value) (u : Node) :
  matchNodes G "User" uid = [u] ->
  Neo4jService.shareRows G storyId uid uid = [].
Proof.
  intro Hu. unfold Neo4jService.shareRows. rewrite Hu.
  induction (matchNodes G "Story" storyId) as [| s l IH]; [reflexivity |].
  cbn [list_prod map app filter fst snd] in *.
  rewrite Z.eqb_refl. cbn [negb]. exact IH.
Qed.

(** Bob shares the tale with himself: the request is answered as a
    successful share and no error is raised. *)
Lemma C1_counterexample :
  shareStory strangersGraph (VStr "t2") (VStr "2024-01-01T00:00:00.000Z")
    (mkShareBody (VStr "s") (VStr "b") (VStr "b"))
  = (strangersGraph,
     Ok (mkShareResponse "Story shared successfully"
           (VStr "s") (VStr "b") (VStr "b") (VStr "2024-01-01T00:00:00.000Z")
           0 0)).
Proof. reflexivity. Qed.

(** C1 (amended).  For a recordShare call in which the story and the user
    exist and senderId equals receiverId, no SHARED or SHARED_WITH edge is
    created: the guard [WHERE sender <> receiver] of the write query leaves
    no row, so the store is unchanged.  No ValidationError is raised: the
    call goes on to the path queries and is answered as a successful share,
    unless a path query fails in the store (status 500). *)
Theorem C1_self_share (G : Graph) (now stamp storyId uid : value) (u : Node) :
  truthy storyId = true -> truthy uid = true ->
  found G "Story" storyId = true ->
  matchNodes G "User" uid = [u] ->
  let r := shareStory G now stamp (mkShareBody storyId uid uid) in
  Neo4jService.shareStory G now storyId uid uid = G
  /\ fst r = G
  /\ match snd r with
     | Ok resp => message resp = "Story shared successfully"
     | Err e => statusCode e = 500%Z
     end.
Proof.
  intros Hs Hu Hst Hm r.
  assert (HG : Neo4jService.shareStory G now storyId uid uid = G).
  { unfold Neo4jService.shareStory. rewrite (self_share_rows _ _ _ _ Hm).
    reflexivity. }
  split; [exact HG |]. subst r. unfold shareStory.
  cbn [StoryController.storyId senderId receiverId].
  assert (Hf : found G "User" uid = true) by (unfold found; rewrite Hm; reflexivity).
  rewrite Hs, Hu, Hst, Hf. cbn [negb orb]. rewrite HG.
  destruct (pathBeforeShare G storyId uid); [| split; cbn; reflexivity].
  destruct (pathAfterShare G storyId uid); split; cbn; reflexivity.
Qed.

Lemma C1_self_share_witness :
  Neo4jService.shareStory strangersGraph (VStr "t2") (VStr "s") (VStr "b") (VStr "b")
  = strangersGraph
  /\ fst (shareStory strangersGraph (VStr "t2") (VStr "2024-01-01T00:00:00.000Z")
            (mkShareBody (VStr "s") (VStr "b") (VStr "b"))) = strangersGraph.
Proof.
  destruct (C1_self_share strangersGraph (VStr "t2")
              (VStr "2024-01-01T00:00:00.000Z") (VStr "s") (VStr "b") bob
              eq_refl eq_refl eq_refl eq_refl) as (H1 & H2 & _).
  split; assumption.
Defined.

(** *** When recordShare answers *)

Lemma forRows_ok {A B : Type} (f : A -> outcome (list B)) (rows : list A) :
  (forall x, In x rows -> exists l, f x = Rows l) ->
  exists ys, forRows f rows = Rows ys.
Proof.
  induction rows as [| x rows IH]; intro H; cbn [forRows]; [eauto |].
  destruct (H x (or_introl eq_refl)) as [l ->].
  destruct IH as [zs ->]; [intros y Hy; apply H; right; assumption |].
  eauto.
Qed.

(** A path query fails only when the store refuses a search between a
    node and itself. *)
Lemma pathQuery_ok (G : Graph) (keep : Relationship -> bool)
  (storyId receiverId : value) :
  (forbid_shortestpath_common_nodes G = false
   \/ forall a r, In a (authorsOf G storyId) ->
                  In r (matchNodes G "User" receiverId) ->
                  identity a <> identity r) ->
  exists ls, pathQuery G keep storyId receiverId = Rows ls.
Proof.
  intro H. unfold pathQuery. apply forRows_ok. intros [a r] Hin.
  apply in_prod_iff in Hin. destruct Hin as [Ha Hr]. cbn [fst snd].
  unfold shortestPath.
  destruct (Z.eqb_spec (identity a) (identity r)) as [E | _]; [| eauto].
  destruct H as [-> | H]; [eauto |]. exfalso. exact (H a r Ha Hr E).
Qed.

(** A request that passes the checks is answered with a score unless the
    receiver is an author of the story (and the store refuses such a
    search). *)
Lemma shareStory_responds (G : Graph) (now stamp : value) (body : ShareBody) :
  truthy (storyId body) = true -> truthy (senderId body) = true ->
  truthy (receiverId body) = true ->
  found G "Story" (storyId body) = true ->
  found G "User" (senderId body) = true ->
  found G "User" (receiverId body) = true ->
  let G' := Neo4jService.shareStory G now (storyId body) (senderId body)
              (receiverId body) in
  (forbid_shortestpath_common_nodes G' = false
   \/ forall a r, In a (authorsOf G' (storyId body)) ->
                  In r (matchNodes G' "User" (receiverId body)) ->
                  identity a <> identity r) ->
  exists resp, shareStory G now stamp body = (G', Ok resp).
Proof.
  intros H1 H2 H3 H4 H5 H6 G' H. unfold shareStory.
  rewrite H1, H2, H3, H4, H5, H6. cbn [negb orb]. fold G'.
  destruct (pathQuery_ok G' (fun r => socialEdge r && untagged (storyId body) r)
              (storyId body) (receiverId body) H) as [before Hb].
  destruct (pathQuery_ok G' socialEdge (storyId body) (receiverId body) H)
    as [after Ha].
  unfold pathBeforeShare, pathAfterShare. rewrite Hb, Ha. eauto.
Qed.

(** Bob shares the tale with its author: the two edges are written, then
    the path query fails in the store and the request ends in a 500. *)
Example share_with_author :
  exists G',
    shareStory strangersGraph (VStr "t2") (VStr "2024-01-01T00:00:00.000Z")
      (mkShareBody (VStr "s") (VStr "b") (VStr "a"))
    = (G', Err (mkApiError
                  "Database query failed: The shortest path algorithm does not work when the start and end nodes are the same."
                  500))
    /\ map rel_type (rels G') = ["AUTHORED"; "SHARED"; "SHARED_WITH"].
Proof. eexists. split; reflexivity. Qed.

End ShareFacts.

(* ================================================================== *)
(** ** getNetwork *)
(* ================================================================== *)

Module NetworkFacts.

Import SearchFacts ParseIntFacts PaginationFacts.

Lemma mapM_Forall2 {A B : Type} (f : A -> Rand B) (l : list A) :
  forall k, Forall2 (fun x y => exists j, y = fst (f x j)) l (fst (mapM f l k)).
Proof.
  induction l as [| x l IH]; intro k; cbn [mapM]; [constructor |].
  unfold bind, ret. destruct (f x k) as [y k1] eqn:E.
  specialize (IH k1). destruct (mapM f l k1) as [ys k2]. cbn [fst] in *.
  constructor; [exists k; rewrite E; reflexivity | exact IH].
Qed.




Lemma joins_identity_r (r : Relationship) (u v v' : Node) :
  identity v = identity v' -> joins r u v = joins r u v'.
Proof. unfold joins. intros ->. reflexivity. Qed.




(** On a fresh store the user with identity 0 is reported under a random
    placeholder id while the link names its endpoint "unknown". *)
Lemma zero_identity_link :
  exists n0 n1 l1,
    fst (Neo4jService.getNetworkData noRandom freshGraph (VNum 2) 0%nat)
    = Ok (VObj [("nodes", VArr [n0; n1]); ("links", VArr [l1])])
    /\ get n0 "id" = VStr "node-x" /\ get n1 "id" = VStr "1"
    /\ get l1 "source" = VStr "1" /\ get l1 "target" = VStr "unknown".
Proof.
  eexists. eexists. eexists. split; [reflexivity |].
  repeat split.
Qed.



End NetworkFacts.

(* ================================================================== *)
(** ** Objects: reading what an object literal wrote *)
(* ================================================================== *)

Module ObjectFacts.

Lemma lookup_set (k k' : string) (v : value) (fs : list (string * value)) :
  lookup k (set k' v fs) = if k' =? k then Some v else lookup k fs.
Proof.
  induction fs as [| [k1 v1] fs IH]; cbn [set lookup].
  - reflexivity.
  - destruct (String.eqb_spec k1 k') as [-> | Hne]; cbn [lookup].
    + destruct (k' =? k); reflexivity.
    + destruct (String.eqb_spec k1 k) as [-> | Hne1].
      * destruct (String.eqb_spec k' k) as [-> | _]; [congruence | reflexivity].
      * exact IH.
Qed.

Lemma lookup_none_notin (k : string) (fs : list (string * value)) :
  lookup k fs = None <-> ~ In k (map fst fs).
Proof.
  induction fs as [| [k1 v1] fs IH]; cbn [lookup map fst In]; [tauto |].
  destruct (String.eqb_spec k1 k) as [-> | Hne].
  - split; [discriminate | tauto].
  - rewrite IH. tauto.
Qed.

(** After a sequence of writes under distinct keys, a key reads as the
    sequence bound it, or as it read before. *)
Lemma lookup_assign (k : string) (extra : list (string * value)) :
  NoDup (map fst extra) ->
  forall base,
  lookup k (assign base extra)
  = match lookup k extra with Some v => Some v | None => lookup k base end.
Proof.
  unfold assign. induction extra as [| [k1 v1] extra IH]; intros Hnd base;
    cbn [fold_left lookup fst snd]; [reflexivity |].
  cbn [map fst] in Hnd. apply NoDup_cons_iff in Hnd. destruct Hnd as [Hnin Hnd].
  rewrite (IH Hnd), lookup_set.
  destruct (String.eqb_spec k1 k) as [-> | Hne]; [| reflexivity].
  apply lookup_none_notin in Hnin. rewrite Hnin. reflexivity.
Qed.

Lemma assign_app (base xs ys : list (string * value)) :
  assign base (xs ++ ys) = assign (assign base xs) ys.
Proof. unfold assign. apply fold_left_app. Qed.

Lemma firstBindings_keys (fs : list (string * value)) :
  forall seen k, In k (map fst (firstBindings seen fs)) -> ~ In k seen.
Proof.
  induction fs as [| [k1 v1] fs IH]; intros seen k H; cbn in H; [destruct H |].
  destruct (existsb (String.eqb k1) seen) eqn:E; [eapply IH; eassumption |].
  cbn in H. destruct H as [<- | H].
  - intro Hin. apply Bool.not_true_iff_false in E. apply E.
    apply existsb_exists. exists k1. split; [assumption | apply String.eqb_refl].
  - intro Hin. apply (IH _ _ H). right. assumption.
Qed.

Lemma firstBindings_NoDup (fs : list (string * value)) :
  forall seen, NoDup (map fst (firstBindings seen fs)).
Proof.
  induction fs as [| [k1 v1] fs IH]; intro seen; cbn; [constructor |].
  destruct (existsb (String.eqb k1) seen); [apply IH |].
  cbn. constructor; [| apply IH].
  intro H. apply firstBindings_keys in H. apply H. left. reflexivity.
Qed.

Lemma lookup_firstBindings (k : string) (fs : list (string * value)) :
  forall seen,
  lookup k (firstBindings seen fs)
  = if existsb (String.eqb k) seen then None else lookup k fs.
Proof.
  induction fs as [| [k1 v1] fs IH]; intro seen; cbn [firstBindings lookup].
  - destruct (existsb _ seen); reflexivity.
  - destruct (existsb (String.eqb k1) seen) eqn:E1.
    + rewrite IH. destruct (existsb (String.eqb k) seen) eqn:E; [reflexivity |].
      destruct (String.eqb_spec k1 k) as [-> | Hne]; [congruence | reflexivity].
    + cbn [lookup]. rewrite IH. cbn [existsb].
      destruct (String.eqb_spec k1 k) as [-> | Hne].
      * rewrite E1. reflexivity.
      * destruct (String.eqb_spec k k1) as [-> | _]; [congruence |].
        reflexivity.
Qed.

(** Reading [k] from [{ ...entries, ...o }] for an object [o]. *)
Lemma get_objLit_spread (k : string) (entries fs : list (string * value)) :
  get (objLit (entries ++ spread (VObj fs))) k
  = match lookup k fs with
    | Some v => v
    | None => get (objLit entries) k
    end.
Proof.
  unfold objLit, get. rewrite assign_app.
  cbn [spread]. rewrite lookup_assign by apply firstBindings_NoDup.
  rewrite lookup_firstBindings. cbn [existsb].
  destruct (lookup k fs); reflexivity.
Qed.

(** Reading a key written after the spread of [o]. *)
Lemma get_objLit_after (k : string) (v : value)
  (fs before after : list (string * value)) :
  NoDup (map fst (before ++ (k, v) :: after)) ->
  get (objLit (spread (VObj fs) ++ before ++ (k, v) :: after)) k = v.
Proof.
  intro Hnd. unfold objLit, get. rewrite assign_app.
  rewrite lookup_assign by assumption.
  assert (H : lookup k (before ++ (k, v) :: after) = Some v).
  { clear fs. induction before as [| [k1 v1] before IH]; cbn [app lookup].
    - rewrite String.eqb_refl. reflexivity.
    - cbn [app map fst] in Hnd. apply NoDup_cons_iff in Hnd.
      destruct Hnd as [Hnin Hnd].
      destruct (String.eqb_spec k1 k) as [-> | Hne]; [| auto].
      exfalso. apply Hnin. rewrite map_app. apply in_or_app. right.
      left. reflexivity. }
  rewrite H. reflexivity.
Qed.

Lemma sameValueZero_eq (a b : value) :
  sameValueZero a b = true -> a = b.
Proof.
  destruct a, b; cbn; try discriminate; try reflexivity; intro H.
  - apply Bool.eqb_prop in H. congruence.
  - apply Z.eqb_eq in H. congruence.
  - apply String.eqb_eq in H. congruence.
Qed.

Lemma sameValueZero_refl (a : value) :
  isPrimitive a = true -> sameValueZero a a = true.
Proof.
  destruct a; cbn; try discriminate; intros _; try reflexivity.
  - apply Bool.eqb_reflx.
  - apply Z.eqb_refl.
  - apply String.eqb_refl.
Qed.

End ObjectFacts.

(* ================================================================== *)
(** ** The formatters as a registration of node occurrences *)
(* ================================================================== *)

Module FormatFacts.

Import ObjectFacts DataService.

Section WithRandom.

Variable random36 : nat -> string.

Lemma mapSet_fresh (m : NodeMap) (k v : value) :
  mapHas m k = false -> mapSet m k v = m ++ [(k, v)].
Proof.
  induction m as [| [k1 v1] m IH]; cbn [mapHas existsb mapSet app fst];
    [reflexivity |].
  intro H. apply orb_false_iff in H. destruct H as [H1 H2].
  rewrite H1, (IH H2). reflexivity.
Qed.

Lemma foldM_app {S A : Type} (f : S -> A -> Rand S) (xs ys : list A) :
  forall s k,
  foldM f (xs ++ ys) s k
  = let (s', k') := foldM f xs s k in foldM f ys s' k'.
Proof.
  induction xs as [| x xs IH]; intros s k; cbn [app foldM]; [reflexivity |].
  unfold bind. destruct (f s x k) as [s1 k1]. apply IH.
Qed.

Lemma register_app (m : NodeMap) (xs ys : list (value * value)) :
  register m (xs ++ ys) = register (register m xs) ys.
Proof. unfold register. apply fold_left_app. Qed.

Lemma occurrencesOf_app (xs ys : list Resolved) :
  occurrencesOf (xs ++ ys) = occurrencesOf xs ++ occurrencesOf ys.
Proof. unfold occurrencesOf. apply flat_map_app. Qed.

Lemma linksOf_app (xs ys : list Resolved) :
  linksOf (xs ++ ys) = linksOf xs ++ linksOf ys.
Proof. unfold linksOf. apply map_app. Qed.

(** One step of formatNetworkForD3's loop registers the two nodes of the
    segment and appends its link. *)
Lemma addSegment_resolve (m : NodeMap) (links : list value) (segment : value)
  (k : nat) :
  addSegment random36 (m, links) segment k
  = (let (rs, k') := resolveSegment random36 segment k in
     ((register m (occurrencesOf rs), links ++ linksOf rs), k')).
Proof.
  unfold addSegment, resolveSegment.
  destruct (validSegment segment); cbn [negb].
  - unfold bind, ret.
    destruct (orPlaceholder random36 (get (get segment "start") "id") "node-" k)
      as [startId k1].
    destruct (orPlaceholder random36 (get (get segment "end") "id") "node-" k1)
      as [endId k2].
    destruct (orPlaceholder random36 (get (get segment "relationship") "id")
                "rel-" k2) as [relId k3].
    cbn [occurrencesOf flat_map app linksOf map register fold_left registerOne
         fst snd r_startId r_start r_endId r_end r_relId r_rel].
    reflexivity.
  - unfold ret. cbn. rewrite app_nil_r. reflexivity.
Qed.

Lemma foldM_addSegment (segments : list value) :
  forall (m : NodeMap) (links : list value) (k : nat),
  foldM (addSegment random36) segments (m, links) k
  = (let (rs, k') := resolve random36 segments k in
     ((register m (occurrencesOf rs), links ++ linksOf rs), k')).
Proof.
  induction segments as [| s segments IH]; intros m links k;
    cbn [foldM resolve].
  - unfold ret. cbn. rewrite app_nil_r. reflexivity.
  - unfold bind. rewrite addSegment_resolve.
    destruct (resolveSegment random36 s k) as [a k1].
    rewrite IH. destruct (resolve random36 segments k1) as [b k2].
    unfold ret. rewrite occurrencesOf_app, register_app, linksOf_app, app_assoc.
    reflexivity.
Qed.

(** The guards of [data.paths.forEach] skip exactly the paths that have no
    array of segments. *)
Lemma addPath_segments (st : NodeMap * list value) (path : value) (k : nat) :
  addPath random36 st path k
  = foldM (addSegment random36) (arrayItems (get path "segments")) st k.
Proof.
  unfold addPath.
  destruct (get path "segments") eqn:E; cbn [truthy isArray negb orb arrayItems foldM];
    rewrite ?orb_true_r; try reflexivity.
  destruct path; cbn in E; try discriminate. reflexivity.
Qed.

Lemma foldM_addPath (paths : list value) :
  forall (st : NodeMap * list value) (k : nat),
  foldM (addPath random36) paths st k
  = foldM (addSegment random36)
          (flat_map (fun path => arrayItems (get path "segments")) paths) st k.
Proof.
  induction paths as [| p paths IH]; intros st k; cbn [foldM flat_map];
    [reflexivity |].
  rewrite foldM_app. unfold bind. rewrite addPath_segments.
  destruct (foldM (addSegment random36) (arrayItems (get p "segments")) st k)
    as [s1 k1].
  apply IH.
Qed.

(** formatNetworkForD3 on input that is not already canonical. *)
Lemma formatNetworkForD3_paths (data : value) (k : nat) :
  truthy (and_then (get data "nodes") (get data "links")) = false ->
  formatNetworkForD3 random36 data k
  = (let (rs, k') := resolve random36 (networkSegments data) k in
     (VObj [("nodes", VArr (mapValues (register [] (occurrencesOf rs))));
            ("links", VArr (linksOf rs))], k')).
Proof.
  intro Hc. unfold formatNetworkForD3, networkSegments.
  destruct (truthy data) eqn:Ht; cbn [negb].
  - rewrite Hc.
    assert (Hp : (if truthy (and_then (get data "paths")
                                      (VBool (isArray (get data "paths"))))
                  then foldM (addPath random36) (arrayItems (get data "paths")) ([], [])
                  else ret ([], []))
                 = foldM (addPath random36) (arrayItems (get data "paths")) ([], [])).
    { destruct (get data "paths") as [| | b | n | | s | l | fs];
        unfold and_then; cbn [isArray arrayItems foldM truthy];
        try reflexivity.
      - destruct b; reflexivity.
      - destruct (negb (n =? 0)%Z) eqn:T; cbn [truthy]; rewrite ?T; reflexivity.
      - destruct (negb (s =? "")) eqn:T; cbn [truthy]; rewrite ?T; reflexivity. }
    rewrite Hp. unfold bind. rewrite foldM_addPath, foldM_addSegment.
    destruct (resolve random36 _ k) as [rs k']. reflexivity.
  - destruct data; cbn in Ht; try discriminate; reflexivity.
Qed.

(** formatPathData keeps its [nodes] array equal to the values of its map. *)
Lemma addPathSegment_resolve (m : NodeMap) (links : list value)
  (segment : value) (k : nat) :
  addPathSegment random36 (mapValues m, m, links) segment k
  = (let (rs, k') := resolveSegment random36 segment k in
     ((mapValues (register m (occurrencesOf rs)),
       register m (occurrencesOf rs), links ++ linksOf rs), k')).
Proof.
  unfold addPathSegment, resolveSegment.
  destruct (validSegment segment); cbn [negb].
  - unfold bind, ret.
    destruct (orPlaceholder random36 (get (get segment "start") "id") "node-" k)
      as [startId k1].
    destruct (orPlaceholder random36 (get (get segment "end") "id") "node-" k1)
      as [endId k2].
    cbn [occurrencesOf flat_map app linksOf map register fold_left
         r_startId r_start r_endId r_end r_relId r_rel].
    unfold registerOne. cbn [fst snd].
    destruct (mapHas m startId) eqn:H1.
    + destruct (mapHas m endId) eqn:H2;
        destruct (orPlaceholder random36 (get (get segment "relationship") "id")
                    "rel-" k2) as [relId k3];
        cbn [occurrencesOf flat_map app linksOf map register fold_left
             r_startId r_start r_endId r_end r_relId r_rel];
        unfold registerOne; cbn [fst snd]; rewrite H1, H2; [reflexivity |].
      rewrite (mapSet_fresh _ _ _ H2). unfold mapValues. rewrite map_app.
      reflexivity.
    + rewrite (mapSet_fresh _ _ _ H1).
      destruct (mapHas (m ++ [(startId, nodeEntry startId (get segment "start"))])
                  endId) eqn:H2;
        destruct (orPlaceholder random36 (get (get segment "relationship") "id")
                    "rel-" k2) as [relId k3];
        cbn [occurrencesOf flat_map app linksOf map register fold_left
             r_startId r_start r_endId r_end r_relId r_rel];
        unfold registerOne; cbn [fst snd];
        rewrite H1, (mapSet_fresh _ _ _ H1), H2;
        [unfold mapValues; rewrite map_app; reflexivity |].
      rewrite (mapSet_fresh _ _ _ H2). unfold mapValues. rewrite !map_app.
      reflexivity.
  - unfold ret. cbn. rewrite app_nil_r. reflexivity.
Qed.

Lemma foldM_addPathSegment (segments : list value) :
  forall (m : NodeMap) (links : list value) (k : nat),
  foldM (addPathSegment random36) segments (mapValues m, m, links) k
  = (let (rs, k') := resolve random36 segments k in
     ((mapValues (register m (occurrencesOf rs)),
       register m (occurrencesOf rs), links ++ linksOf rs), k')).
Proof.
  induction segments as [| s segments IH]; intros m links k;
    cbn [foldM resolve].
  - unfold ret. cbn. rewrite app_nil_r. reflexivity.
  - unfold bind. rewrite addPathSegment_resolve.
    destruct (resolveSegment random36 s k) as [a k1].
    rewrite IH. destruct (resolve random36 segments k1) as [b k2].
    unfold ret. rewrite occurrencesOf_app, register_app, linksOf_app, app_assoc.
    reflexivity.
Qed.

(** formatPathData, when it returns. *)
Lemma formatPathData_segments (pathData out : value) (k : nat) :
  fst (formatPathData random36 pathData k) = Some out ->
  let rs := fst (resolve random36 (pathSegments pathData) k) in
  DataService.arrayItems (get out "nodes")
  = mapValues (register [] (occurrencesOf rs))
  /\ DataService.arrayItems (get out "links") = linksOf rs.
Proof.
  unfold formatPathData, pathSegments.
  destruct (negb (truthy pathData) || negb (truthy (get pathData "path"))) eqn:G.
  - intro H. cbn in H. injection H as <-.
    assert (Hs : arrayItems (get (get pathData "path") "segments") = []).
    { apply orb_true_iff in G. destruct G as [G | G];
        apply negb_true_iff in G.
      - destruct pathData; cbn in G; try discriminate; reflexivity.
      - destruct (get pathData "path"); cbn in G; try discriminate; reflexivity. }
    rewrite Hs. cbn. split; reflexivity.
  - destruct (get (get pathData "path") "segments")
      as [| | b | n | | s | items | fs] eqn:E;
      unfold or_else; cbn [truthy arrayItems].
    + intro H. cbn in H. injection H as <-. cbn. split; reflexivity.
    + intro H. cbn in H. injection H as <-. cbn. split; reflexivity.
    + destruct b; intro H; cbn in H; [discriminate H |].
      injection H as <-. cbn. split; reflexivity.
    + destruct (negb (n =? 0)%Z); intro H; cbn in H; [discriminate H |].
      injection H as <-. cbn. split; reflexivity.
    + intro H. cbn in H. injection H as <-. cbn. split; reflexivity.
    + destruct (negb (s =? "")); intro H; cbn in H; [discriminate H |].
      injection H as <-. cbn. split; reflexivity.
    + unfold bind.
      change (@nil value, @nil (value * value), @nil value)
        with (mapValues [], @nil (value * value), @nil value).
      rewrite foldM_addPathSegment.
      destruct (resolve random36 items k) as [rs k']. unfold ret. cbn [fst].
      intro H. injection H as <-. cbn. split; reflexivity.
    + intro H; discriminate H.
Qed.

End WithRandom.

End FormatFacts.

(* ================================================================== *)
(** ** NetworkFormatter: idempotence *)
(* ================================================================== *)

Module IdempotenceFacts.

Import ObjectFacts DataService FormatFacts.

Lemma truthy_get_object (x : value) (k : string) :
  truthy (get x k) = true -> truthy x = true.
Proof. destruct x; cbn; try discriminate. reflexivity. Qed.

(** C8.  formatNetworkForD3 is idempotent: formatting its own output
    returns that output (and draws no random number); and an input whose
    [nodes] and [links] fields are both set (truthy) is returned as it
    is. *)
Theorem C8_idempotent (random36 : nat -> string) (x : value) (k : nat) :
  (forall y k1,
     formatNetworkForD3 random36 x k = (y, k1) ->
     formatNetworkForD3 random36 y k1 = (y, k1))
  /\ (truthy (get x "nodes") = true -> truthy (get x "links") = true ->
      formatNetworkForD3 random36 x k = (x, k)).
Proof.
  assert (Hfast : truthy (get x "nodes") = true -> truthy (get x "links") = true ->
                  formatNetworkForD3 random36 x k = (x, k)).
  { intros Hn Hl. unfold formatNetworkForD3.
    rewrite (truthy_get_object _ _ Hn). cbn [negb].
    unfold and_then. rewrite Hn, Hl. reflexivity. }
  split; [| exact Hfast].
  intros y k1 H.
  destruct (truthy (and_then (get x "nodes") (get x "links"))) eqn:Hc.
  - unfold and_then in Hc. destruct (truthy (get x "nodes")) eqn:Hn;
      [| congruence].
    rewrite (Hfast eq_refl Hc) in H. injection H as <- <-.
    apply Hfast; [reflexivity | assumption].
  - rewrite (formatNetworkForD3_paths random36 _ _ Hc) in H.
    destruct (resolve random36 (networkSegments x) k) as [rs k'].
    injection H as <- <-. reflexivity.
Qed.

Lemma C8_idempotent_witness :
  formatNetworkForD3 noRandom canonicalSample 0%nat = (canonicalSample, 0%nat)
  /\ formatNetworkForD3 noRandom
       (fst (formatNetworkForD3 noRandom samplePaths 0%nat))
       (snd (formatNetworkForD3 noRandom samplePaths 0%nat))
     = formatNetworkForD3 noRandom samplePaths 0%nat.
Proof.
  split.
  - apply (proj2 (C8_idempotent noRandom canonicalSample 0%nat)); reflexivity.
  - apply (proj1 (C8_idempotent noRandom samplePaths 0%nat)).
    destruct (formatNetworkForD3 noRandom samplePaths 0%nat). reflexivity.
Defined.

End IdempotenceFacts.

(* ================================================================== *)
(** ** NetworkFormatter: registration keeps the first occurrence *)
(* ================================================================== *)

Module RegisterFacts.

Import ObjectFacts DataService FormatFacts.

Lemma mapHas_false_notin (m : NodeMap) (k : value) :
  isPrimitive k = true -> mapHas m k = false -> ~ In k (map fst m).
Proof.
  intros Hp Hh Hin. apply in_map_iff in Hin. destruct Hin as ([k' v] & <- & Hin).
  unfold mapHas in Hh. apply Bool.not_true_iff_false in Hh. apply Hh.
  apply existsb_exists. exists (k', v). split; [assumption |].
  apply sameValueZero_refl. assumption.
Qed.

Lemma mapHas_true_in (m : NodeMap) (k : value) :
  mapHas m k = true -> In k (map fst m).
Proof.
  unfold mapHas. intro H. apply existsb_exists in H.
  destruct H as ([k' v] & Hin & Hs). cbn in Hs.
  apply sameValueZero_eq in Hs. subst k'.
  apply in_map_iff. exists (k, v). auto.
Qed.

Lemma registerOne_cases (m : NodeMap) (ko : value * value) :
  (mapHas m (fst ko) = true /\ registerOne m ko = m)
  \/ (mapHas m (fst ko) = false
      /\ registerOne m ko = m ++ [(fst ko, nodeEntry (fst ko) (snd ko))]).
Proof.
  unfold registerOne. destruct (mapHas m (fst ko)) eqn:E; [left; auto |].
  right. split; [reflexivity | apply mapSet_fresh; assumption].
Qed.

Lemma registerOne_incl (m : NodeMap) (ko : value * value) :
  incl m (registerOne m ko).
Proof.
  destruct (registerOne_cases m ko) as [[_ ->] | [_ ->]];
    [apply incl_refl | apply incl_appl, incl_refl].
Qed.

Lemma register_incl (occs : list (value * value)) :
  forall m, incl m (register m occs).
Proof.
  unfold register. induction occs as [| ko occs IH]; intro m; cbn [fold_left];
    [apply incl_refl |].
  eapply incl_tran; [apply registerOne_incl | apply IH].
Qed.

(** The identifiers of the map stay pairwise distinct. *)
Lemma register_NoDup (occs : list (value * value)) :
  (forall ko, In ko occs -> isPrimitive (fst ko) = true) ->
  forall m, NoDup (map fst m) -> NoDup (map fst (register m occs)).
Proof.
  unfold register. induction occs as [| ko occs IH]; intros Hp m Hm;
    cbn [fold_left]; [assumption |].
  apply IH; [intros x Hx; apply Hp; right; assumption |].
  destruct (registerOne_cases m ko) as [[_ ->] | [Hh ->]]; [assumption |].
  rewrite map_app. cbn [map fst].
  apply NoDup_app; [assumption | repeat constructor; intros [] |].
  intros a Ha [<- | []].
  apply (mapHas_false_notin m (fst ko)); [apply Hp; left; reflexivity | |];
    assumption.
Qed.

(** Every identifier met is in the map afterwards. *)
Lemma register_covers (occs : list (value * value)) :
  forall m ko, In ko occs -> In (fst ko) (map fst (register m occs)).
Proof.
  unfold register. induction occs as [| ko1 occs IH]; intros m ko Hin;
    [destruct Hin |].
  cbn [fold_left]. destruct Hin as [-> | Hin]; [| apply IH; assumption].
  assert (H : In (fst ko) (map fst (registerOne m ko))).
  { destruct (registerOne_cases m ko) as [[Hh ->] | [_ ->]].
    - apply mapHas_true_in. assumption.
    - rewrite map_app. apply in_or_app. right. left. reflexivity. }
  apply in_map_iff in H. destruct H as (kv & Hk & Hkv).
  apply in_map_iff. exists kv. split; [assumption |].
  apply (register_incl occs). assumption.
Qed.

Lemma firstOccurrence_cons (i : value) (ko : value * value)
  (occs : list (value * value)) :
  firstOccurrence i (ko :: occs)
  = if sameValueZero (fst ko) i then Some (snd ko) else firstOccurrence i occs.
Proof.
  unfold firstOccurrence. cbn [find].
  destruct (sameValueZero (fst ko) i); reflexivity.
Qed.

Lemma mapHas_app (m1 m2 : NodeMap) (k : value) :
  mapHas (m1 ++ m2) k = mapHas m1 k || mapHas m2 k.
Proof. unfold mapHas. apply existsb_app. Qed.

(** Every entry of the map was there before, or is the node entry of the
    first occurrence of its identifier. *)
Lemma register_entries (occs : list (value * value)) :
  (forall ko, In ko occs -> isPrimitive (fst ko) = true) ->
  forall m k v, In (k, v) (register m occs) ->
  In (k, v) m
  \/ (mapHas m k = false
      /\ exists o, firstOccurrence k occs = Some o /\ v = nodeEntry k o).
Proof.
  unfold register. induction occs as [| ko occs IH]; intros Hp m k v Hin;
    cbn [fold_left] in Hin; [left; assumption |].
  apply IH in Hin; [| intros x Hx; apply Hp; right; assumption].
  rewrite firstOccurrence_cons.
  destruct (registerOne_cases m ko) as [[Hh E] | [Hh E]]; rewrite E in Hin.
  - destruct Hin as [Hin | (Hk & o & Ho & ->)]; [left; assumption |].
    right. split; [assumption |].
    destruct (sameValueZero (fst ko) k) eqn:Es; [| eauto].
    apply sameValueZero_eq in Es. congruence.
  - destruct Hin as [Hin | (Hk & o & Ho & ->)].
    + apply in_app_or in Hin. destruct Hin as [Hin | [Heq | []]];
        [left; assumption |].
      injection Heq as <- <-. right. split; [assumption |].
      rewrite sameValueZero_refl by (apply Hp; left; reflexivity). eauto.
    + rewrite mapHas_app in Hk. apply orb_false_iff in Hk.
      destruct Hk as [Hk1 Hk2]. right. split; [assumption |].
      cbn [mapHas existsb fst] in Hk2. rewrite orb_false_r in Hk2.
      rewrite Hk2. eauto.
Qed.

(** The first occurrence of an identifier not yet in the map is the one
    that is registered. *)
Lemma register_first (occs : list (value * value)) :
  forall m i o,
  firstOccurrence i occs = Some o -> mapHas m i = false ->
  In (i, nodeEntry i o) (register m occs).
Proof.
  unfold register. induction occs as [| ko occs IH]; intros m i o Ho Hm.
  - discriminate.
  - rewrite firstOccurrence_cons in Ho. cbn [fold_left].
    destruct (sameValueZero (fst ko) i) eqn:Es.
    + injection Ho as <-. apply sameValueZero_eq in Es. subst i.
      apply (register_incl occs).
      destruct (registerOne_cases m ko) as [[Hh _] | [_ ->]]; [congruence |].
      apply in_or_app. right. left. reflexivity.
    + apply IH; [assumption |].
      destruct (registerOne_cases m ko) as [[_ ->] | [_ ->]]; [assumption |].
      rewrite mapHas_app, Hm. cbn [mapHas existsb fst orb]. rewrite Es.
      reflexivity.
Qed.

(** With well-keyed occurrences the [id] fields of the listed nodes are the
    keys of the map. *)
Lemma register_ids (occs : list (value * value)) :
  (forall ko, In ko occs -> wellKeyed ko) ->
  map nodeId (mapValues (register [] occs)) = map fst (register [] occs).
Proof.
  intro Hw. unfold mapValues. rewrite map_map. apply map_ext_in.
  intros [k v] Hin. cbn [fst snd].
  apply register_entries in Hin; [| intros ko Hko; apply (Hw ko Hko)].
  destruct Hin as [[] | (_ & o & Ho & ->)].
  unfold firstOccurrence in Ho.
  destruct (find _ occs) as [[k' o'] |] eqn:Ef; [| discriminate].
  injection Ho as <-. apply find_some in Ef. destruct Ef as [Hin Hs].
  cbn in Hs. apply sameValueZero_eq in Hs. subst k'.
  apply (Hw _ Hin).
Qed.

End RegisterFacts.

(* ================================================================== *)
(** ** NetworkFormatter: deduplication and closed links *)
(* ================================================================== *)

Module NetworkFormatterFacts.

Import ObjectFacts DataService FormatFacts RegisterFacts.

Section WithRandom.

Variable random36 : nat -> string.

Lemma resolveSegment_in (segment : value) (k : nat) (r : Resolved) :
  In r (fst (resolveSegment random36 segment k)) ->
  validSegment segment = true
  /\ r_start r = get segment "start" /\ r_end r = get segment "end"
  /\ r_rel r = get segment "relationship"
  /\ (exists j, r_startId r
                = fst (orPlaceholder random36 (get (r_start r) "id") "node-" j))
  /\ (exists j, r_endId r
                = fst (orPlaceholder random36 (get (r_end r) "id") "node-" j)).
Proof.
  unfold resolveSegment. destruct (validSegment segment); cbn [negb];
    [| intros []].
  unfold bind, ret.
  destruct (orPlaceholder random36 (get (get segment "start") "id") "node-" k)
    as [startId k1] eqn:E1.
  destruct (orPlaceholder random36 (get (get segment "end") "id") "node-" k1)
    as [endId k2] eqn:E2.
  destruct (orPlaceholder random36 (get (get segment "relationship") "id")
              "rel-" k2) as [relId k3].
  cbn [fst]. intros [<- | []]. cbn.
  repeat split; [exists k; rewrite E1 | exists k1; rewrite E2]; reflexivity.
Qed.

Lemma resolve_in (segments : list value) :
  forall (k : nat) (r : Resolved),
  In r (fst (resolve random36 segments k)) ->
  exists segment j, In segment segments
                    /\ In r (fst (resolveSegment random36 segment j)).
Proof.
  induction segments as [| s segments IH]; intros k r Hin; cbn [resolve] in Hin.
  - destruct Hin.
  - unfold bind, ret in Hin.
    destruct (resolveSegment random36 s k) as [a k1] eqn:E1.
    destruct (resolve random36 segments k1) as [b k2] eqn:E2.
    cbn [fst] in Hin. apply in_app_or in Hin. destruct Hin as [Hin | Hin].
    + exists s, k. rewrite E1. cbn. auto.
    + destruct (IH k1 r) as (seg & j & Hs & Hr); [rewrite E2; assumption |].
      exists seg, j. cbn. auto.
Qed.

Lemma entry_id (K a b : value) :
  get (objLit [("id", K); ("name", a); ("group", b)]) "id" = K.
Proof. reflexivity. Qed.

(** A keyed node is registered under a primitive identifier, which its
    entry carries as [id]. *)
Lemma keyed_wellKeyed (n : value) (j : nat) :
  keyed n = true ->
  wellKeyed (fst (orPlaceholder random36 (get n "id") "node-" j), n).
Proof.
  unfold keyed, wellKeyed, nodeId, nodeEntry. cbn [fst snd].
  destruct n as [| | | | | | | fs]; try discriminate.
  rewrite get_objLit_spread, entry_id. cbn [get].
  destruct (lookup "id" fs) as [v |] eqn:E.
  - intro H. apply andb_true_iff in H. destruct H as [Ht Hp].
    unfold orPlaceholder. rewrite Ht. cbn. auto.
  - intros _. cbn. auto.
Qed.

Lemma link_ends (s e i a : value) (fs : list (string * value)) :
  plainRel (VObj fs) = true ->
  get (linkEntry s e i (VObj fs)) "source" = s
  /\ get (linkEntry s e i (VObj fs)) "target" = e.
Proof.
  unfold plainRel, linkEntry. intro H.
  destruct (lookup "source" fs) eqn:E1; [discriminate |].
  destruct (lookup "target" fs) eqn:E2; [discriminate |].
  rewrite !get_objLit_spread, E1, E2. split; reflexivity.
Qed.

Lemma occurrences_keyed (segments : list value) (k : nat) :
  nodesKeyed segments = true ->
  forall ko, In ko (occurrencesOf (fst (resolve random36 segments k))) ->
  wellKeyed ko.
Proof.
  intros Hk ko Hin. unfold occurrencesOf in Hin. apply in_flat_map in Hin.
  destruct Hin as (r & Hr & Hko).
  destruct (resolve_in _ _ _ Hr) as (seg & j & Hseg & Hrs).
  destruct (resolveSegment_in _ _ _ Hrs) as (Hv & Hs & He & _ & [j1 H1] & [j2 H2]).
  unfold nodesKeyed in Hk. rewrite forallb_forall in Hk.
  specialize (Hk _ Hseg). unfold segmentKeyed in Hk. rewrite Hv in Hk.
  apply andb_true_iff in Hk. destruct Hk as [Ks Ke].
  rewrite <- Hs in Ks. rewrite <- He in Ke.
  destruct Hko as [<- | [<- | []]]; [rewrite H1 | rewrite H2];
    apply keyed_wellKeyed; assumption.
Qed.

Lemma firstOccurrence_exists (occs : list (value * value)) (ko : value * value) :
  isPrimitive (fst ko) = true -> In ko occs ->
  exists o1, firstOccurrence (fst ko) occs = Some o1.
Proof.
  intros Hp Hin. unfold firstOccurrence.
  destruct (find _ occs) as [x |] eqn:E; [eauto |].
  pose proof (find_none _ _ E _ Hin) as Hn. cbn in Hn.
  rewrite sameValueZero_refl in Hn by assumption. discriminate.
Qed.

(** The nodes listed after registering well-keyed occurrences. *)
Lemma register_firstOccurrenceWins (occs : list (value * value)) :
  (forall ko, In ko occs -> wellKeyed ko) ->
  firstOccurrenceWins occs (mapValues (register [] occs)).
Proof.
  intro Hw.
  assert (Hp : forall ko, In ko occs -> isPrimitive (fst ko) = true)
    by (intros ko Hko; apply (Hw ko Hko)).
  split; [| split].
  - rewrite register_ids by assumption.
    apply register_NoDup; [assumption | constructor].
  - intros ko Hko.
    destruct (firstOccurrence_exists occs ko (Hp _ Hko) Hko) as [o1 Ho].
    exists o1. split; [assumption |]. split.
    + unfold mapValues. apply in_map_iff.
      exists (fst ko, nodeEntry (fst ko) o1). split; [reflexivity |].
      apply register_first; [assumption | reflexivity].
    + unfold firstOccurrence in Ho.
      destruct (find _ occs) as [[k' o'] |] eqn:Ef; [| discriminate].
      injection Ho as <-. apply find_some in Ef. destruct Ef as [Hin Hs].
      cbn in Hs. apply sameValueZero_eq in Hs. subst k'.
      apply (Hw _ Hin).
  - intros n Hn. unfold mapValues in Hn. apply in_map_iff in Hn.
    destruct Hn as ([k v] & <- & Hin). cbn [snd].
    apply register_entries in Hin; [| assumption].
    destruct Hin as [[] | (_ & o & Ho & ->)]. eauto.
Qed.

(** No link dangles after registering the occurrences of path-shaped
    segments. *)
Lemma links_closed (segments : list value) (k : nat) :
  pathShaped segments = true ->
  let rs := fst (resolve random36 segments k) in
  linksClosed (mapValues (register [] (occurrencesOf rs))) (linksOf rs).
Proof.
  intros Hs rs l Hl.
  assert (Hk : nodesKeyed segments = true).
  { unfold nodesKeyed, pathShaped in *. rewrite forallb_forall in *.
    intros x Hx. specialize (Hs x Hx). apply andb_true_iff in Hs. tauto. }
  rewrite register_ids by (apply occurrences_keyed; assumption).
  unfold linksOf in Hl. apply in_map_iff in Hl. destruct Hl as (r & <- & Hr).
  destruct (resolve_in _ _ _ Hr) as (seg & j & Hseg & Hrs).
  destruct (resolveSegment_in _ _ _ Hrs) as (Hv & _ & _ & Hrel & _).
  unfold pathShaped in Hs. rewrite forallb_forall in Hs.
  specialize (Hs _ Hseg). apply andb_true_iff in Hs. destruct Hs as [_ Hp].
  unfold segmentPlain in Hp. rewrite Hv, <- Hrel in Hp.
  destruct (r_rel r) as [| | | | | | | fs] eqn:Er; try discriminate.
  destruct (link_ends (r_startId r) (r_endId r) (r_relId r) VUndef fs Hp)
    as [-> ->].
  split.
  - apply (register_covers _ [] (r_startId r, r_start r)).
    unfold occurrencesOf. apply in_flat_map. exists r. cbn. auto.
  - apply (register_covers _ [] (r_endId r, r_end r)).
    unfold occurrencesOf. apply in_flat_map. exists r. cbn. auto.
Qed.

End WithRandom.



End NetworkFormatterFacts.

(* ================================================================== *)
(** ** What executeQuery hands to the formatters is path-shaped *)
(* ================================================================== *)

Module PipelineFacts.

Import ObjectFacts DataService FormatFacts NetworkFacts NetworkFormatterFacts.

Section WithRandom.

Variable random36 : nat -> string.

Lemma numToString_nonempty (i : Z) : numToString i <> "".
Proof.
  unfold numToString. destruct (Z.to_int i) as [d | d]; cbn.
  - destruct d; discriminate.
  - discriminate.
Qed.

Lemma identityOrRandom_truthy (prefix : string) (i : Z) (j : nat) :
  prefix <> "" ->
  exists s, fst (Neo4jService.identityOrRandom random36 prefix i j) = VStr s
            /\ s <> "".
Proof.
  intro Hp. unfold Neo4jService.identityOrRandom.
  destruct (truthy (VNum i)).
  - exists (numToString i). split; [reflexivity | apply numToString_nonempty].
  - unfold Neo4jService.randomId. cbn [fst]. eexists. split; [reflexivity |].
    destruct prefix; [congruence | discriminate].
Qed.

Lemma truthy_nonempty (s : string) : s <> "" -> truthy (VStr s) = true.
Proof.
  intro H. cbn. destruct (String.eqb_spec s ""); [congruence | reflexivity].
Qed.

Lemma convertNode_keyed (n : Node) (j : nat) :
  keyed (fst (Neo4jService.convertNode random36 n j)) = true.
Proof.
  unfold Neo4jService.convertNode, bind, ret.
  destruct (identityOrRandom_truthy "node-" (identity n) j) as (s & Hs & Hne);
    [discriminate |].
  destruct (Neo4jService.identityOrRandom random36 "node-" (identity n) j)
    as [id j1].
  cbn [fst] in *. subst id. unfold objLit, keyed.
  rewrite assign_app, lookup_assign
    by (repeat constructor; cbn; intuition discriminate).
  cbn [lookup]. change ("id" =? "id") with true. cbv iota.
  rewrite truthy_nonempty by assumption. reflexivity.
Qed.

Lemma convertRel_plain (r : Relationship) (j : nat) :
  lookup "source" (rel_properties r) = None ->
  lookup "target" (rel_properties r) = None ->
  plainRel (fst (Neo4jService.convertRel random36 r j)) = true.
Proof.
  intros Hs Ht. unfold Neo4jService.convertRel, bind, ret.
  destruct (Neo4jService.identityOrRandom random36 "rel-" (rel_identity r) j)
    as [id j1].
  cbn [fst]. unfold objLit, plainRel.
  rewrite !assign_app.
  rewrite !(lookup_assign _ [("id", id); _; _; _])
    by (repeat constructor; cbn; intuition discriminate).
  cbn [lookup].
  change ("id" =? "source") with false. change ("type" =? "source") with false.
  change ("startNodeId" =? "source") with false.
  change ("endNodeId" =? "source") with false.
  change ("id" =? "target") with false. change ("type" =? "target") with false.
  change ("startNodeId" =? "target") with false.
  change ("endNodeId" =? "target") with false. cbv iota.
  cbn [spread].
  rewrite !lookup_assign by apply firstBindings_NoDup.
  rewrite !lookup_firstBindings. cbn [existsb lookup]. rewrite Hs, Ht.
  reflexivity.
Qed.

Lemma convertSegment_shaped (s : Segment) (j : nat) :
  lookup "source" (rel_properties (seg_relationship s)) = None ->
  lookup "target" (rel_properties (seg_relationship s)) = None ->
  let v := fst (Neo4jService.convertSegment random36 s j) in
  validSegment v = true /\ segmentKeyed v && segmentPlain v = true.
Proof.
  intros Hs Ht. unfold Neo4jService.convertSegment, bind, ret.
  pose proof (convertNode_keyed (seg_start s) j) as K1.
  destruct (Neo4jService.convertNode random36 (seg_start s) j) as [st j1].
  pose proof (convertRel_plain (seg_relationship s) j1 Hs Ht) as P.
  destruct (Neo4jService.convertRel random36 (seg_relationship s) j1)
    as [rl j2].
  pose proof (convertNode_keyed (seg_end s) j2) as K2.
  destruct (Neo4jService.convertNode random36 (seg_end s) j2) as [en j3].
  cbn [fst] in *.
  assert (Hv : validSegment (VObj [("start", st); ("relationship", rl); ("end", en)])
               = true).
  { unfold validSegment. cbn [truthy get lookup].
    change ("start" =? "start") with true.
    change ("start" =? "end") with false.
    change ("relationship" =? "end") with false.
    change ("end" =? "end") with true.
    change ("start" =? "relationship") with false.
    change ("relationship" =? "relationship") with true. cbv iota.
    destruct st; try discriminate K1. destruct en; try discriminate K2.
    destruct rl; try discriminate P. reflexivity. }
  split; [exact Hv |].
  unfold segmentKeyed, segmentPlain. rewrite Hv.
  cbn [get lookup].
  change ("start" =? "start") with true.
  change ("start" =? "end") with false.
  change ("relationship" =? "end") with false.
  change ("end" =? "end") with true.
  change ("start" =? "relationship") with false.
  change ("relationship" =? "relationship") with true. cbv iota.
  rewrite K1, K2, P. reflexivity.
Qed.

Lemma Forall2_in_r {A B : Type} (P : A -> B -> Prop) (l : list A) (ys : list B) :
  Forall2 P l ys -> forall y, In y ys -> exists x, In x l /\ P x y.
Proof.
  induction 1 as [| x y l ys Hxy F IH]; intros z Hz; [destruct Hz |].
  destruct Hz as [<- | Hz]; [exists x; cbn; auto |].
  destruct (IH z Hz) as (x' & Hin & Hp). exists x'. cbn. auto.
Qed.

(** The segments executeQuery builds from the paths of the store are
    path-shaped, provided no relationship property is named [source] or
    [target] (the application writes [createdAt], [timestamp] and
    [storyId] only). *)
Lemma convertPath_shaped (p : Path) (k : nat) :
  (forall s, In s p ->
     lookup "source" (rel_properties (seg_relationship s)) = None
     /\ lookup "target" (rel_properties (seg_relationship s)) = None) ->
  pathShaped (arrayItems (get (fst (Neo4jService.convertPath random36 p k))
                              "segments")) = true.
Proof.
  intro Hp. unfold Neo4jService.convertPath, bind, ret.
  pose proof (mapM_Forall2 (Neo4jService.convertSegment random36) p k) as F.
  destruct (mapM (Neo4jService.convertSegment random36) p k) as [segs k1].
  cbn [fst get lookup arrayItems] in *.
  change ("segments" =? "segments") with true. cbv iota. cbn [arrayItems].
  unfold pathShaped. apply forallb_forall. intros v Hv.
  destruct (Forall2_in_r _ _ _ F v Hv) as (s & Hs & j & ->).
  destruct (Hp s Hs) as [H1 H2].
  apply (convertSegment_shaped s j H1 H2).
Qed.

End WithRandom.

End PipelineFacts.

(* ================================================================== *)
(** ** The formatters on sample input *)
(* ================================================================== *)

Module FormatterExamples.

Import DataService NetworkFormatterFacts.

(** Node 2 is met as Bob, then as Robert: Bob is listed. *)
Example formatNetworkForD3_sample :
  map (fun n => (nodeId n, get n "name"))
      (arrayItems (get (fst (formatNetworkForD3 noRandom samplePaths 0%nat)) "nodes"))
  = [(VStr "1", VStr "Alice"); (VStr "2", VStr "Bob"); (VStr "4", VStr "Dana")].
Proof. reflexivity. Qed.

Example formatPathData_sample :
  exists out,
    fst (formatPathData noRandom samplePathData 0%nat) = Some out
    /\ map (fun n => (nodeId n, get n "name")) (arrayItems (get out "nodes"))
       = [(VStr "1", VStr "Alice"); (VStr "4", VStr "Dana")]
    /\ map (fun l => (get l "source", get l "target")) (arrayItems (get out "links"))
       = [(VStr "1", VStr "4"); (VStr "4", VStr "1")]
    /\ get out "length" = VNum 2.
Proof. eexists. split; [reflexivity |]. repeat split. Qed.



End FormatterExamples.

(* ================================================================== *)
(** ** Writes to the store *)
(* ================================================================== *)

Module WriteFacts.

Import SearchFacts PathFacts.

Lemma extendsBy_refl (G : Graph) : extendsBy G G [].
Proof. unfold extendsBy. rewrite app_nil_r. auto. Qed.

Lemma extendsBy_addRel (G G' : Graph) (new : list Relationship)
  (r : Relationship) :
  extendsBy G G' new -> extendsBy G (addRel G' r) (new ++ [r]).
Proof.
  intros (Hn & Hr & Hf). unfold extendsBy, addRel. cbn.
  rewrite Hr, app_assoc. auto.
Qed.

Lemma matchNodes_nodes (G G' : Graph) (label : string) (p : value) :
  nodes G' = nodes G -> matchNodes G' label p = matchNodes G label p.
Proof. unfold matchNodes. intros ->. reflexivity. Qed.

Lemma maxIdentity_ge (l : list Z) (x : Z) :
  In x l -> (x <= maxIdentity l)%Z.
Proof.
  unfold maxIdentity. induction l as [| y l IH]; intros Hx; [destruct Hx |].
  cbn [fold_right]. destruct Hx as [-> | Hx]; [lia |].
  specialize (IH Hx). lia.
Qed.

Lemma freshRel_new (G : Graph) : ~ In (freshRel G) (map rel_identity (rels G)).
Proof.
  intro H. apply maxIdentity_ge in H. unfold freshRel in H. lia.
Qed.

Lemma addRel_distinct (G : Graph) (r : Relationship) :
  rel_identity r = freshRel G ->
  NoDup (map rel_identity (rels G)) ->
  NoDup (map rel_identity (rels (addRel G r))).
Proof.
  intros Hr Hnd. unfold addRel. cbn [rels]. rewrite map_app. cbn [map].
  apply NoDup_app; [assumption | repeat constructor; intros [] |].
  intros x Hx [<- | []]. rewrite Hr in Hx. exact (freshRel_new G Hx).
Qed.

(** One row of shareStory. *)
Lemma createShare_step (G G0 : Graph) (new0 : list Relationship)
  (now storyId senderId receiverId : value) (row : Node * (Node * Node)) :
  In row (Neo4jService.shareRows G storyId senderId receiverId) ->
  extendsBy G G0 new0 ->
  exists r1 r2,
    extendsBy G (Neo4jService.createShare now storyId G0 row) (new0 ++ [r1; r2])
    /\ shareEdge G storyId senderId receiverId r1
    /\ shareEdge G storyId senderId receiverId r2
    /\ (NoDup (map rel_identity (rels G0)) ->
        NoDup (map rel_identity (rels (Neo4jService.createShare now storyId G0 row)))).
Proof.
  intros Hrow Hext. unfold Neo4jService.shareRows in Hrow.
  apply filter_In in Hrow. destruct Hrow as [Hin Hne].
  destruct row as [story [sender receiver]]. cbn [fst snd] in Hne.
  apply in_prod_iff in Hin. destruct Hin as [Hst Hin].
  apply in_prod_iff in Hin. destruct Hin as [Hs Hr].
  apply negb_true_iff in Hne. apply Z.eqb_neq in Hne.
  unfold Neo4jService.createShare. cbn [fst snd].
  eexists. eexists. split; [| split; [| split]].
  - pose proof (extendsBy_addRel _ _ _
                  (Neo4jService.sharedRel G0 now sender story) Hext) as H1.
    pose proof (extendsBy_addRel _ _ _
                  (Neo4jService.sharedWithRel
                     (addRel G0 (Neo4jService.sharedRel G0 now sender story))
                     now storyId sender receiver) H1) as H2.
    rewrite <- app_assoc in H2. exact H2.
  - left. cbn. split; [reflexivity |]. exists sender, story. auto.
  - right. cbn. split; [reflexivity |]. split; [reflexivity |].
    split; [assumption |]. exists sender, receiver. auto.
  - intro Hnd. apply addRel_distinct; [reflexivity |].
    apply addRel_distinct; [reflexivity | assumption].
Qed.

Lemma shareStory_fold (G : Graph) (now storyId senderId receiverId : value)
  (rows : list (Node * (Node * Node))) :
  incl rows (Neo4jService.shareRows G storyId senderId receiverId) ->
  forall G0 new0,
  extendsBy G G0 new0 ->
  exists new,
    extendsBy G (fold_left (Neo4jService.createShare now storyId) rows G0)
              (new0 ++ new)
    /\ List.length new = (2 * List.length rows)%nat
    /\ (forall r, In r new -> shareEdge G storyId senderId receiverId r)
    /\ (NoDup (map rel_identity (rels G0)) ->
        NoDup (map rel_identity
                 (rels (fold_left (Neo4jService.createShare now storyId) rows G0)))).
Proof.
  induction rows as [| row rows IH]; intros Hincl G0 new0 Hext.
  - exists []. rewrite app_nil_r. cbn [fold_left].
    split; [assumption | split; [reflexivity | split; [intros r [] | auto]]].
  - cbn [fold_left].
    destruct (createShare_step G G0 new0 now storyId senderId receiverId row
                (Hincl row (or_introl eq_refl)) Hext)
      as (r1 & r2 & Hext1 & He1 & He2 & Hnd1).
    destruct (IH (fun x Hx => Hincl x (or_intror Hx)) _ _ Hext1)
      as (new & Hext2 & Hlen & Hall & Hnd2).
    exists ([r1; r2] ++ new). rewrite app_assoc. split; [assumption |].
    split; [cbn; lia |]. split; [| auto].
    intros r [<- | [<- | Hr]]; auto.
Qed.

(** X1.  shareStory only appends relationships: the nodes, the existing
    relationships and the store setting are untouched; two relationships
    are written per matched row, each a SHARED edge from a matched sender
    to a matched story or a SHARED_WITH edge, tagged with the story,
    between a matched sender and a different receiver (never a self edge);
    and relationship identities stay pairwise distinct. *)
Theorem X1_shareStory_writes (G : Graph) (now storyId senderId receiverId : value) :
  exists new,
    extendsBy G (Neo4jService.shareStory G now storyId senderId receiverId) new
    /\ List.length new
       = (2 * List.length (Neo4jService.shareRows G storyId senderId receiverId))%nat
    /\ (forall r, In r new -> shareEdge G storyId senderId receiverId r)
    /\ (NoDup (map rel_identity (rels G)) ->
        NoDup (map rel_identity
                 (rels (Neo4jService.shareStory G now storyId senderId receiverId)))).
Proof.
  unfold Neo4jService.shareStory.
  destruct (shareStory_fold G now storyId senderId receiverId _ (incl_refl _)
              G [] (extendsBy_refl G)) as (new & H).
  exists new. exact H.
Qed.

Lemma X1_shareStory_writes_witness :
  NoDup (map rel_identity
           (rels (Neo4jService.shareStory strangersGraph (VStr "t2") (VStr "s")
                    (VStr "a") (VStr "b")))).
Proof.
  destruct (X1_shareStory_writes strangersGraph (VStr "t2") (VStr "s")
              (VStr "a") (VStr "b")) as (new & _ & _ & _ & H).
  apply H. constructor; [intros [] | constructor].
Defined.

(** *** createConnection *)




(** *** createUser and createStory *)

Lemma matchNodes_addNode (G : Graph) (n : Node) (label : string) (p : value) :
  matchNodes (GraphWrites.addNode G n) label p
  = matchNodes G label p
    ++ (if hasLabel label n && is_true (cy_eq (prop (properties n) "id") p)
        then [n] else []).
Proof.
  unfold matchNodes, GraphWrites.addNode. cbn [nodes].
  rewrite filter_app. cbn [filter].
  destruct (hasLabel label n && _); reflexivity.
Qed.

Lemma prop_id_first (v : value) (rest : list (string * value)) :
  prop (("id", v) :: rest) "id" = v.
Proof. reflexivity. Qed.

Lemma cy_eq_str (s : string) (p : value) :
  is_true (cy_eq (VStr s) p) = true -> p = VStr s.
Proof.
  destruct p; cbn; try discriminate.
  destruct (String.eqb_spec s s0); [congruence | discriminate].
Qed.

Lemma cy_eq_str_refl (s : string) : is_true (cy_eq (VStr s) (VStr s)) = true.
Proof. cbn. rewrite String.eqb_refl. reflexivity. Qed.

(** X3.  createUser either fails on the uniqueness constraint, leaving no
    trace, when a User with the id exists, or adds one User node: the new
    user is then the only User found under its id, every other lookup by id
    answers as before, relationships are untouched, and user ids stay
    unique if they were. *)
Theorem X3_createUser_roundtrip (G : Graph) (now : value)
  (user : GraphWrites.UserData) :
  (StoryController.found G "User" (VStr (GraphWrites.user_id user)) = true ->
   exists m, GraphWrites.createUser G now user = Failed m)
  /\ (StoryController.found G "User" (VStr (GraphWrites.user_id user)) = false ->
      exists G' n,
        GraphWrites.createUser G now user = Rows G'
        /\ nodes G' = nodes G ++ [n] /\ rels G' = rels G
        /\ matchNodes G' "User" (VStr (GraphWrites.user_id user)) = [n]
        /\ prop (properties n) "name" = VStr (GraphWrites.user_name user)
        /\ (forall label p,
              p <> VStr (GraphWrites.user_id user) ->
              matchNodes G' label p = matchNodes G label p)
        /\ (uniqueIds G "User" -> uniqueIds G' "User")).
Proof.
  unfold StoryController.found, GraphWrites.createUser.
  destruct (matchNodes G "User" (VStr (GraphWrites.user_id user))) as [| x l] eqn:E.
  - split; [discriminate |]. intros _. eexists. eexists.
    split; [reflexivity |]. split; [reflexivity |]. split; [reflexivity |].
    assert (Hother : forall label p, p <> VStr (GraphWrites.user_id user) ->
              matchNodes (GraphWrites.addNode G
                (mkNode (GraphWrites.freshNode G) ["User"]
                   [("id", VStr (GraphWrites.user_id user));
                    ("name", VStr (GraphWrites.user_name user));
                    ("bio", VStr (GraphWrites.user_bio user));
                    ("createdAt", now); ("isActive", VBool true)])) label p
              = matchNodes G label p).
    { intros label p Hp. rewrite matchNodes_addNode.
      cbn [properties]. rewrite prop_id_first.
      destruct (is_true (cy_eq (VStr (GraphWrites.user_id user)) p)) eqn:Ec.
      - apply cy_eq_str in Ec. congruence.
      - rewrite andb_false_r, app_nil_r. reflexivity. }
    split; [| split; [reflexivity | split; [exact Hother |]]].
    + rewrite matchNodes_addNode, E. cbn [properties app].
      rewrite prop_id_first, cy_eq_str_refl. reflexivity.
    + intros Hu p.
      destruct (is_true (cy_eq (VStr (GraphWrites.user_id user)) p)) eqn:Ec.
      * apply cy_eq_str in Ec. subst p.
        rewrite matchNodes_addNode, E. cbn [app].
        destruct (_ && _); cbn; lia.
      * rewrite Hother; [apply Hu |]. intros ->.
        rewrite cy_eq_str_refl in Ec. discriminate.
  - split; [eauto | discriminate].
Qed.

Lemma X3_createUser_roundtrip_witness :
  (exists m, GraphWrites.createUser strangersGraph (VStr "t2")
               (GraphWrites.mkUserData "a" "Alice again" "") = Failed m)
  /\ (exists G', GraphWrites.createUser strangersGraph (VStr "t2") carol = Rows G'
                /\ StoryController.found G' "User" (VStr "c") = true).
Proof.
  split.
  - apply (proj1 (X3_createUser_roundtrip strangersGraph (VStr "t2")
                    (GraphWrites.mkUserData "a" "Alice again" ""))).
    reflexivity.
  - destruct (proj2 (X3_createUser_roundtrip strangersGraph (VStr "t2") carol)
                eq_refl) as (G' & n & H & _ & _ & Hm & _).
    exists G'. split; [exact H |]. unfold StoryController.found.
    change (GraphWrites.user_id carol) with "c" in Hm. rewrite Hm. reflexivity.
Defined.

Lemma freshNode_nodes (G : Graph) (n : Node) :
  In n (nodes G) -> (identity n < GraphWrites.freshNode G)%Z.
Proof.
  intro H. unfold GraphWrites.freshNode.
  assert (identity n <= maxIdentity (map identity (nodes G)
            ++ map startNodeIdentity (rels G) ++ map endNodeIdentity (rels G)))%Z.
  { apply maxIdentity_ge. apply in_or_app. left. apply in_map. assumption. }
  lia.
Qed.

Lemma freshNode_ends (G : Graph) (r : Relationship) :
  In r (rels G) -> (endNodeIdentity r < GraphWrites.freshNode G)%Z.
Proof.
  intro H. unfold GraphWrites.freshNode.
  assert (endNodeIdentity r <= maxIdentity (map identity (nodes G)
            ++ map startNodeIdentity (rels G) ++ map endNodeIdentity (rels G)))%Z.
  { apply maxIdentity_ge. apply in_or_app. right. apply in_or_app. right.
    apply in_map. assumption. }
  lia.
Qed.

Lemma flat_map_nil {A B : Type} (f : A -> list B) (l : list A) :
  (forall x, In x l -> f x = []) -> flat_map f l = [].
Proof.
  induction l as [| x l IH]; intro H; [reflexivity |].
  cbn [flat_map]. rewrite (H x (or_introl eq_refl)), IH; [reflexivity |].
  intros y Hy. apply H. right. assumption.
Qed.

Lemma nodesWithIdentity_added (G : Graph) (s : Node) (r : Relationship) (i : Z) :
  nodesWithIdentity (addRel (GraphWrites.addNode G s) r) i
  = nodesWithIdentity G i ++ (if (identity s =? i)%Z then [s] else []).
Proof.
  unfold nodesWithIdentity, addRel, GraphWrites.addNode. cbn [nodes].
  rewrite filter_app. cbn [filter]. destruct (identity s =? i)%Z; reflexivity.
Qed.

(** The authors of the story that createStory has just written. *)
Lemma createStory_result (G : Graph) (now : value)
  (story : GraphWrites.StoryData) (a : Node) :
  matchNodes G "Story" (VStr (GraphWrites.story_id story)) = [] ->
  matchNodes G "User" (VStr (GraphWrites.story_authorId story)) = [a] ->
  nodesWithIdentity G (identity a) = [a] ->
  let s := GraphWrites.storyNode G now story in
  let G' := addRel (GraphWrites.addNode G s)
                   (GraphWrites.authoredRel (GraphWrites.addNode G s) a s) in
  GraphWrites.createStory G now story = Rows G'
  /\ matchNodes G' "Story" (VStr (GraphWrites.story_id story)) = [s]
  /\ StoryController.authorsOf G' (VStr (GraphWrites.story_id story)) = [a].
Proof.
  intros Hs Ha Hid s G'.
  assert (Hua : In a (nodes G) /\ hasLabel "User" a = true).
  { assert (H : In a (matchNodes G "User" (VStr (GraphWrites.story_authorId story))))
      by (rewrite Ha; left; reflexivity).
    unfold matchNodes in H. apply filter_In in H. destruct H as [H1 H2].
    apply andb_true_iff in H2. tauto. }
  destruct Hua as [Hain Hlab].
  assert (Hm : matchNodes G' "Story" (VStr (GraphWrites.story_id story)) = [s]).
  { subst G'. rewrite (matchNodes_nodes (GraphWrites.addNode G s)) by reflexivity.
    rewrite matchNodes_addNode, Hs. subst s. cbn [GraphWrites.storyNode properties app].
    rewrite prop_id_first, cy_eq_str_refl. reflexivity. }
  split; [| split; [exact Hm |]].
  - unfold GraphWrites.createStory. rewrite Hs.
    rewrite matchNodes_addNode, Ha.
    cbn [GraphWrites.storyNode hasLabel labels existsb andb app fold_left].
    change ("User" =? "Story") with false. cbn [orb]. reflexivity.
  - unfold StoryController.authorsOf. rewrite Hm.
    subst G'. cbn [addRel rels GraphWrites.addNode nodes].
    rewrite flat_map_app. rewrite flat_map_nil.
    + cbn [flat_map app GraphWrites.authoredRel rel_type startNodeIdentity
           endNodeIdentity filter].
      change ("AUTHORED" =? "AUTHORED") with true. cbv iota.
      rewrite app_nil_r.
      fold (GraphWrites.addNode G s).
      fold (addRel (GraphWrites.addNode G s)
                   (GraphWrites.authoredRel (GraphWrites.addNode G s) a s)).
      rewrite nodesWithIdentity_added, Hid.
      assert (Hfresh : (identity s =? identity a)%Z = false).
      { apply Z.eqb_neq. subst s. cbn [GraphWrites.storyNode identity].
        pose proof (freshNode_nodes G a Hain). lia. }
      rewrite Hfresh. cbn [app filter]. rewrite Hlab. cbn [flat_map app].
      rewrite Z.eqb_refl. reflexivity.
    + intros r Hr. destruct (rel_type r =? "AUTHORED"); [| reflexivity].
      apply flat_map_nil. intros author _. cbn [filter].
      subst s. cbn [GraphWrites.storyNode identity].
      destruct (Z.eqb_spec (GraphWrites.freshNode G) (endNodeIdentity r)) as [E | _];
        [pose proof (freshNode_ends G r Hr); lia | reflexivity].
Qed.

(** X4.  The story controller's createStory fails fast: a missing field is
    a 400, an unknown author a 404, a store failure a 500, and in each case
    the store is left as it was.  With a fresh identifier and an author
    known under one node it answers 201, and afterwards the story is found
    under its identifier with exactly that author (one AUTHORED edge). *)
Theorem X4_createStory (G : Graph) (now stamp : value) (uuid : string)
  (body : StoryCreation.StoryBody) :
  (forall e, snd (StoryCreation.createStory G now stamp uuid body) = Err e ->
     fst (StoryCreation.createStory G now stamp uuid body) = G
     /\ (statusCode e = 400 \/ statusCode e = 404 \/ statusCode e = 500)%Z)
  /\ (forall a,
       StoryCreation.title body <> "" -> StoryCreation.content body <> "" ->
       StoryCreation.authorId body <> "" ->
       matchNodes G "Story" (VStr uuid) = [] ->
       matchNodes G "User" (VStr (StoryCreation.authorId body)) = [a] ->
       nodesWithIdentity G (identity a) = [a] ->
       exists G' resp,
         StoryCreation.createStory G now stamp uuid body = (G', Ok resp)
         /\ StoryCreation.created_status resp = 201%Z
         /\ StoryCreation.created_id resp = uuid
         /\ StoryController.found G' "Story" (VStr uuid) = true
         /\ StoryController.authorsOf G' (VStr uuid) = [a]
         /\ nodes G' = nodes G ++ [GraphWrites.storyNode G now
                                      (GraphWrites.mkStoryData uuid
                                         (StoryCreation.title body)
                                         (StoryCreation.content body)
                                         (StoryCreation.authorId body))]).
Proof.
  split.
  - intros e. unfold StoryCreation.createStory.
    destruct (negb (truthy (VStr (StoryCreation.title body))) || _ || _);
      [cbn; intro H; injection H as <-; cbn; auto |].
    destruct (negb (StoryController.found G "User" _));
      [cbn; intro H; injection H as <-; cbn; auto |].
    destruct (GraphWrites.createStory G now _) as [G' | m];
      cbn; intro H; [discriminate |]. injection H as <-. cbn. auto.
  - intros a Ht Hc Hau Hs Ha Hid. unfold StoryCreation.createStory.
    rewrite !(PipelineFacts.truthy_nonempty _) by assumption. cbn [negb orb].
    unfold StoryController.found at 1. rewrite Ha. cbn [negb].
    destruct (createStory_result G now
                (GraphWrites.mkStoryData uuid (StoryCreation.title body)
                   (StoryCreation.content body) (StoryCreation.authorId body))
                a Hs Ha Hid) as (Hc1 & Hm & Hauth).
    rewrite Hc1. eexists. eexists. split; [reflexivity |].
    cbn [StoryCreation.created_status StoryCreation.created_id].
    split; [reflexivity |]. split; [reflexivity |].
    split; [unfold StoryController.found;
            cbn [GraphWrites.story_id] in Hm; rewrite Hm; reflexivity |].
    split; [exact Hauth | reflexivity].
Qed.

Lemma X4_createStory_witness :
  exists G' resp,
    StoryCreation.createStory strangersGraph (VStr "t2") (VStr "stamp") "s2"
      (StoryCreation.mkStoryBody "Second tale" "Once more" "a") = (G', Ok resp)
    /\ StoryController.found G' "Story" (VStr "s2") = true
    /\ StoryController.authorsOf G' (VStr "s2") = [alice]
    /\ fst (StoryCreation.createStory strangersGraph (VStr "t2") (VStr "stamp")
              "s3" (StoryCreation.mkStoryBody "Third" "" "a")) = strangersGraph.
Proof.
  destruct (proj2 (X4_createStory strangersGraph (VStr "t2") (VStr "stamp") "s2"
                     (StoryCreation.mkStoryBody "Second tale" "Once more" "a"))
              alice ltac:(discriminate) ltac:(discriminate) ltac:(discriminate)
              eq_refl eq_refl eq_refl)
    as (G' & resp & H & _ & _ & Hf & Ha & _).
  exists G', resp. split; [exact H |]. split; [exact Hf |].
  split; [exact Ha |].
  apply (proj1 (X4_createStory strangersGraph (VStr "t2") (VStr "stamp") "s3"
                  (StoryCreation.mkStoryBody "Third" "" "a"))
           (badRequest "Title, content, and authorId are required")).
  reflexivity.
Defined.

(** X5.  The service's createStory writes the Story node before it looks
    the author up: with an author identifier that matches no User it still
    adds the story, without any AUTHORED edge, so the story has no author
    (and the join of getStories and of the scoring queries does not see
    it). *)
Theorem X5_createStory_orphan (G : Graph) (now : value)
  (story : GraphWrites.StoryData) :
  matchNodes G "Story" (VStr (GraphWrites.story_id story)) = [] ->
  matchNodes G "User" (VStr (GraphWrites.story_authorId story)) = [] ->
  GraphWrites.createStory G now story
  = Rows (GraphWrites.addNode G (GraphWrites.storyNode G now story))
  /\ StoryController.found
       (GraphWrites.addNode G (GraphWrites.storyNode G now story))
       "Story" (VStr (GraphWrites.story_id story)) = true
  /\ StoryController.authorsOf
       (GraphWrites.addNode G (GraphWrites.storyNode G now story))
       (VStr (GraphWrites.story_id story)) = [].
Proof.
  intros Hs Ha.
  assert (Hm : matchNodes (GraphWrites.addNode G (GraphWrites.storyNode G now story))
                 "Story" (VStr (GraphWrites.story_id story))
               = [GraphWrites.storyNode G now story]).
  { rewrite matchNodes_addNode, Hs. cbn [GraphWrites.storyNode properties app].
    rewrite prop_id_first, cy_eq_str_refl. reflexivity. }
  split; [| split].
  - unfold GraphWrites.createStory. rewrite Hs, matchNodes_addNode, Ha.
    cbn [GraphWrites.storyNode hasLabel labels existsb andb app fold_left].
    change ("User" =? "Story") with false. reflexivity.
  - unfold StoryController.found. rewrite Hm. reflexivity.
  - unfold StoryController.authorsOf. rewrite Hm.
    cbn [GraphWrites.addNode rels]. apply flat_map_nil. intros r Hr.
    destruct (rel_type r =? "AUTHORED"); [| reflexivity].
    apply flat_map_nil. intros author _. cbn [filter].
    cbn [GraphWrites.storyNode identity].
    destruct (Z.eqb_spec (GraphWrites.freshNode G) (endNodeIdentity r)) as [E | _];
      [pose proof (freshNode_ends G r Hr); lia | reflexivity].
Qed.

Lemma X5_createStory_orphan_witness :
  StoryController.authorsOf
    (GraphWrites.addNode strangersGraph
       (GraphWrites.storyNode strangersGraph (VStr "t2")
          (GraphWrites.mkStoryData "s9" "Lost" "No author" "nobody")))
    (VStr "s9") = [].
Proof.
  apply (X5_createStory_orphan strangersGraph (VStr "t2")
           (GraphWrites.mkStoryData "s9" "Lost" "No author" "nobody"));
    reflexivity.
Defined.

End WriteFacts.

(* ================================================================== *)
(** ** recordShare: failing fast, failing late, and the author's share *)
(* ================================================================== *)

Module ShareMoreFacts.

Import SearchFacts SearchComplete PathFacts ShareFacts WriteFacts StoryController.

Lemma shareEdge_not_authored (G : Graph) (storyId senderId receiverId : value)
  (r : Relationship) :
  shareEdge G storyId senderId receiverId r -> (rel_type r =? "AUTHORED") = false.
Proof. intros [[-> _] | [-> _]]; reflexivity. Qed.

Lemma authorsOf_extends (G G' : Graph) (new : list Relationship)
  (storyId : value) :
  extendsBy G G' new ->
  (forall r, In r new -> (rel_type r =? "AUTHORED") = false) ->
  authorsOf G' storyId = authorsOf G storyId.
Proof.
  intros (Hn & Hr & _) Hnew. unfold authorsOf, matchNodes, nodesWithIdentity.
  rewrite Hn, Hr, flat_map_app.
  rewrite (flat_map_nil _ new); [apply app_nil_r |].
  intros r Hin. rewrite (Hnew r Hin). reflexivity.
Qed.

Lemma shareStory_extends (G : Graph) (now storyId senderId receiverId : value) :
  exists new,
    extendsBy G (Neo4jService.shareStory G now storyId senderId receiverId) new
    /\ (forall r, In r new -> shareEdge G storyId senderId receiverId r).
Proof.
  unfold Neo4jService.shareStory.
  destruct (shareStory_fold G now storyId senderId receiverId _ (incl_refl _)
              G [] (extendsBy_refl G)) as (new & H1 & _ & H2 & _).
  exists new. auto.
Qed.

Lemma shareStory_authors (G : Graph) (now storyId senderId receiverId : value) :
  authorsOf (Neo4jService.shareStory G now storyId senderId receiverId) storyId
  = authorsOf G storyId.
Proof.
  destruct (shareStory_extends G now storyId senderId receiverId)
    as (new & Hext & Hall).
  apply (authorsOf_extends _ _ new); [assumption |].
  intros r Hr. eapply shareEdge_not_authored. apply Hall. assumption.
Qed.

Lemma shareStory_nodes (G : Graph) (now storyId senderId receiverId : value) :
  nodes (Neo4jService.shareStory G now storyId senderId receiverId) = nodes G
  /\ forbid_shortestpath_common_nodes
       (Neo4jService.shareStory G now storyId senderId receiverId)
     = forbid_shortestpath_common_nodes G.
Proof.
  destruct (shareStory_extends G now storyId senderId receiverId)
    as (new & (Hn & _ & Hf) & _). auto.
Qed.


Lemma forRows_fails {A B : Type} (f : A -> outcome (list B)) (rows : list A)
  (x : A) (m : string) :
  In x rows -> f x = Failed m ->
  (forall y m', f y = Failed m' -> m' = m) ->
  forRows f rows = Failed m.
Proof.
  intros Hin Hx Hall. induction rows as [| y rows IH]; [destruct Hin |].
  cbn [forRows]. destruct (f y) as [ys | m'] eqn:Ey.
  - destruct Hin as [-> | Hin]; [congruence |].
    rewrite (IH Hin). reflexivity.
  - rewrite (Hall _ _ Ey). reflexivity.
Qed.

Lemma pathQuery_fails (G : Graph) (keep : Relationship -> bool)
  (storyId receiverId : value) (a r : Node) :
  forbid_shortestpath_common_nodes G = true ->
  In a (authorsOf G storyId) -> In r (matchNodes G "User" receiverId) ->
  identity a = identity r ->
  pathQuery G keep storyId receiverId = Failed sameNodeMessage.
Proof.
  intros Hf Ha Hr Hid. unfold pathQuery.
  apply (forRows_fails _ _ (a, r)).
  - apply in_prod; assumption.
  - cbn [fst snd]. unfold shortestPath. rewrite Hid, Z.eqb_refl, Hf.
    reflexivity.
  - intros [a' r'] m'. cbn [fst snd]. unfold shortestPath.
    destruct (identity a' =? identity r')%Z;
      [destruct (forbid_shortestpath_common_nodes G) |]; intro H;
      try discriminate. injection H as <-. reflexivity.
Qed.

(** X7.  Writes are not undone by a later failure: when the receiver is an
    author of the story and the store refuses a path search from a node to
    itself, recordShare answers 500 after the write, and the store keeps
    what shareStory wrote. *)
Theorem X7_share_not_rolled_back (G : Graph) (now stamp : value)
  (body : ShareBody) (a : Node) :
  truthy (storyId body) = true -> truthy (senderId body) = true ->
  truthy (receiverId body) = true ->
  found G "Story" (storyId body) = true ->
  found G "User" (senderId body) = true ->
  forbid_shortestpath_common_nodes G = true ->
  In a (authorsOf G (storyId body)) ->
  In a (matchNodes G "User" (receiverId body)) ->
  shareStory G now stamp body
  = (Neo4jService.shareStory G now (storyId body) (senderId body) (receiverId body),
     Err (Neo4jService.databaseError sameNodeMessage)).
Proof.
  intros H1 H2 H3 H4 H5 Hf Ha Hr. unfold shareStory.
  assert (H6 : found G "User" (receiverId body) = true).
  { unfold found. destruct (matchNodes G "User" (receiverId body));
      [destruct Hr | reflexivity]. }
  rewrite H1, H2, H3, H4, H5, H6. cbn [negb orb].
  set (G' := Neo4jService.shareStory G now (storyId body) (senderId body)
               (receiverId body)).
  destruct (shareStory_nodes G now (storyId body) (senderId body) (receiverId body))
    as [Hn Hfb].
  unfold pathBeforeShare.
  rewrite (pathQuery_fails G' _ (storyId body) (receiverId body) a a).
  - reflexivity.
  - subst G'. rewrite Hfb. assumption.
  - subst G'. rewrite shareStory_authors. assumption.
  - subst G'. rewrite (matchNodes_nodes G _ _ _ Hn). assumption.
  - reflexivity.
Qed.

Lemma X7_share_not_rolled_back_witness :
  exists G',
    shareStory strangersGraph (VStr "t2") (VStr "stamp")
      (mkShareBody (VStr "s") (VStr "b") (VStr "a"))
    = (G', Err (Neo4jService.databaseError sameNodeMessage))
    /\ map rel_type (rels G') = ["AUTHORED"; "SHARED"; "SHARED_WITH"].
Proof.
  eexists. split.
  - apply (X7_share_not_rolled_back strangersGraph (VStr "t2") (VStr "stamp")
             (mkShareBody (VStr "s") (VStr "b") (VStr "a")) alice);
      try reflexivity; left; reflexivity.
  - reflexivity.
Defined.

Lemma matchNodes_in (G : Graph) (label : string) (p : value) (n : Node) :
  In n (matchNodes G label p) -> In n (nodes G).
Proof. unfold matchNodes. intro H. apply filter_In in H. tauto. Qed.

(** X8.  When the author shares the story (single story, author and
    receiver nodes; author different from receiver), the path after the
    share is the new edge itself: pathAfter is 1, the request succeeds, and
    the score is pathReduction = before - 1 and rewardPoints =
    10 x (before - 1) when a path avoiding this story's edges exists, and
    0 and 0 when none does. *)
Theorem X8_author_share (G : Graph) (now stamp storyId senderId receiverId : value)
  (s a r : Node) :
  truthy storyId = true -> truthy senderId = true -> truthy receiverId = true ->
  matchNodes G "Story" storyId = [s] ->
  matchNodes G "User" senderId = [a] ->
  matchNodes G "User" receiverId = [r] ->
  authorsOf G storyId = [a] ->
  identity a <> identity r ->
  let G' := Neo4jService.shareStory G now storyId senderId receiverId in
  exists resp before,
    shareStory G now stamp (mkShareBody storyId senderId receiverId)
    = (G', Ok resp)
    /\ pathBeforeShare G' storyId receiverId = Rows before
    /\ pathAfterShare G' storyId receiverId = Rows [1%Z]
    /\ match hd_error before with
       | Some b => pathReduction resp = (b - 1)%Z
                   /\ rewardPoints resp = (10 * (b - 1))%Z
       | None => pathReduction resp = 0%Z /\ rewardPoints resp = 0%Z
       end.
Proof.
  intros Ht1 Ht2 Ht3 Hs Ha Hr Hauth Hne G'.
  assert (Hrows : Neo4jService.shareRows G storyId senderId receiverId
                  = [(s, (a, r))]).
  { unfold Neo4jService.shareRows. rewrite Hs, Ha, Hr.
    cbn [list_prod map app filter fst snd].
    apply Z.eqb_neq in Hne. rewrite Hne. reflexivity. }
  destruct (shareStory_nodes G now storyId senderId receiverId) as [Hn Hf].
  fold G' in Hn, Hf.
  assert (HA : authorsOf G' storyId = [a])
    by (subst G'; rewrite shareStory_authors; assumption).
  assert (HR : matchNodes G' "User" receiverId = [r])
    by (rewrite (matchNodes_nodes G _ _ _ Hn); assumption).
  set (G1 := addRel G (Neo4jService.sharedRel G now a s)).
  set (sw := Neo4jService.sharedWithRel G1 now storyId a r).
  assert (HG : G' = addRel G1 sw).
  { subst G'. unfold Neo4jService.shareStory. rewrite Hrows. reflexivity. }
  assert (Hw : walk G' socialEdge a ([] ++ [mkSegment a sw r]) r).
  { apply walk_snoc; [constructor | | reflexivity | |].
    - rewrite HG. cbn [addRel rels]. apply in_or_app. right. left. reflexivity.
    - rewrite Hn. apply (matchNodes_in G "User" receiverId).
      rewrite Hr. left. reflexivity.
    - unfold joins. subst sw. cbn. rewrite !Z.eqb_refl. reflexivity. }
  destruct (shortestPath_complete G' socialEdge a r _ Hw Hne) as (q & Hq & Hlq).
  pose proof (proj2 (shortestPath_sound _ _ _ _ _ Hq)) as Hq1.
  assert (Hlen : Z.of_nat (List.length q) = 1%Z) by (cbn in Hlq; lia).
  assert (Hafter : pathAfterShare G' storyId receiverId = Rows [1%Z]).
  { unfold pathAfterShare, pathQuery. rewrite HA, HR.
    cbn [list_prod map app forRows fst snd]. rewrite Hq.
    cbn [optList map app]. rewrite Hlen. reflexivity. }
  assert (Hbefore : exists before,
             pathBeforeShare G' storyId receiverId = Rows before).
  { apply pathQuery_ok. right. intros a' r' Ha' Hr'.
    rewrite HA in Ha'. rewrite HR in Hr'.
    destruct Ha' as [<- | []]. destruct Hr' as [<- | []]. assumption. }
  destruct Hbefore as [before Hbefore].
  unfold shareStory.
  cbn [StoryController.storyId StoryController.senderId
       StoryController.receiverId].
  rewrite Ht1, Ht2, Ht3. unfold found. rewrite Hs, Ha, Hr. cbn [negb orb].
  fold G'. rewrite Hbefore, Hafter.
  eexists. exists before. split; [reflexivity |].
  split; [reflexivity |]. split; [reflexivity |].
  cbn [pathReduction rewardPoints hd_error].
  destruct (hd_error before) as [b |] eqn:Eb; [| cbn; auto].
  assert (Hb : (1 <= b)%Z).
  { eapply hd_positive; [| exact Eb].
    eapply pathQuery_positive. exact Hbefore. }
  unfold score. cbn [truthy]. destruct (Z.eqb_spec b 0); [lia |].
  cbn [negb andb Z.eqb].
  destruct (Z.gtb_spec (b - 1) 0); cbn [fst snd]; lia.
Qed.

Lemma X8_author_share_witness :
  exists resp,
    snd (shareStory reshareGraph (VStr "t2") (VStr "stamp")
           (mkShareBody (VStr "s") (VStr "a") (VStr "b"))) = Ok resp
    /\ pathAfterShare
         (Neo4jService.shareStory reshareGraph (VStr "t2") (VStr "s") (VStr "a")
            (VStr "b")) (VStr "s") (VStr "b") = Rows [1%Z].
Proof.
  destruct (X8_author_share reshareGraph (VStr "t2") (VStr "stamp") (VStr "s")
              (VStr "a") (VStr "b") tale alice bob
              eq_refl eq_refl eq_refl eq_refl eq_refl eq_refl eq_refl
              ltac:(discriminate))
    as (resp & before & H & _ & Hafter & _).
  exists resp. rewrite H. split; [reflexivity | exact Hafter].
Defined.

End ShareMoreFacts.

(* ================================================================== *)
(** ** getPath *)
(* ================================================================== *)

Module GetPathFacts.

Import ObjectFacts ParseIntFacts SearchFacts SearchComplete PathFacts
       NetworkFacts FormatFacts RegisterFacts NetworkFormatterFacts
       PipelineFacts NetworkController.

Lemma hexRun_digits (n : nat) : forall s s1,
  allDigits s = true -> hexRun n s = Some s1 -> allDigits s1 = true.
Proof.
  induction n as [| n IH]; intros s s1 Hs H; cbn [hexRun] in H.
  - congruence.
  - destruct s as [| c rest]; [discriminate |].
    cbn [allDigits] in Hs. apply andb_true_iff in Hs. destruct Hs as [_ Hs].
    destruct (isHex c); [| discriminate]. eapply IH; eassumption.
Qed.

Lemma dash_digits (s : string) : allDigits s = true -> dash s = None.
Proof.
  destruct s as [| c rest]; [reflexivity |]. cbn [allDigits]. intro H.
  apply andb_true_iff in H. destruct H as [Hc _].
  destruct c as [[|] [|] [|] [|] [|] [|] [|] [|]]; try reflexivity;
    cbn in Hc; discriminate.
Qed.

Lemma digits_not_uuid (s : string) : allDigits s = true -> uuidShaped s = false.
Proof.
  intro H. unfold uuidShaped.
  destruct (hexRun 8 s) as [s1 |] eqn:E; cbn [andThen]; [| reflexivity].
  rewrite (dash_digits s1 (hexRun_digits _ _ _ H E)). reflexivity.
Qed.

Lemma printed_digits (d : Decimal.uint) :
  allDigits (NilEmpty.string_of_uint d) = true.
Proof. induction d; cbn [NilEmpty.string_of_uint allDigits]; auto. Qed.

Lemma numToString_not_uuid (i : Z) : uuidShaped (numToString i) = false.
Proof.
  unfold numToString. destruct i as [| p | p]; [reflexivity | |];
    cbn [Z.to_int NilZero.string_of_int]; rewrite printed_nonzero.
  - apply digits_not_uuid, printed_digits.
  - reflexivity.
Qed.

(** The id executeQuery gives a node is never UUID-shaped. *)
Lemma convertNode_id (random36 : nat -> string) (n : Node) (j : nat) :
  exists fs x,
    fst (Neo4jService.convertNode random36 n j) = VObj fs
    /\ lookup "id" fs = Some (VStr x)
    /\ uuidShaped x = false.
Proof.
  unfold Neo4jService.convertNode, bind, ret.
  assert (H : exists x, fst (Neo4jService.identityOrRandom random36 "node-"
                               (identity n) j) = VStr x
                        /\ uuidShaped x = false).
  { unfold Neo4jService.identityOrRandom. destruct (truthy (VNum (identity n))).
    - eexists. split; [reflexivity | apply numToString_not_uuid].
    - unfold Neo4jService.randomId. eexists. split; reflexivity. }
  destruct H as (x & Hx & Hu).
  destruct (Neo4jService.identityOrRandom random36 "node-" (identity n) j)
    as [id j1].
  cbn [fst] in *. subst id. unfold objLit. eexists. exists x.
  split; [reflexivity |]. split; [| assumption].
  rewrite assign_app, lookup_assign
    by (repeat constructor; cbn; intuition discriminate).
  reflexivity.
Qed.

Lemma filter_nil {A : Type} (f : A -> bool) (l : list A) :
  (forall x, In x l -> f x = false) -> filter f l = [].
Proof.
  induction l as [| x l IH]; intro H; [reflexivity |].
  cbn [filter]. rewrite (H x (or_introl eq_refl)). apply IH.
  intros y Hy. apply H. right. assumption.
Qed.

Lemma uuidKeyed_no_match (G : Graph) (x : string) :
  uuidKeyed G -> uuidShaped x = false -> matchNodes G "User" (VStr x) = [].
Proof.
  intros HG Hx. unfold matchNodes. apply filter_nil. intros n Hn.
  destruct (hasLabel "User" n) eqn:Hl; [| reflexivity].
  destruct (HG n Hn Hl) as (u & -> & Hu). cbn.
  destruct (String.eqb_spec u x) as [-> | _]; [congruence | reflexivity].
Qed.

Lemma findShortestPath_unmatched (random36 : nat -> string) (G : Graph)
  (sourceId targetId : value) (k : nat) :
  matchNodes G "User" sourceId = [] ->
  Neo4jService.findShortestPath random36 G sourceId targetId k = (Ok VUndef, k).
Proof.
  intro H. unfold Neo4jService.findShortestPath,
    Neo4jService.findShortestPath_rows. rewrite H. reflexivity.
Qed.

Lemma userByName_result (random36 : nat -> string) (G : Graph) (name : value)
  (k : nat) :
  exists k',
    userByName random36 G name k
    = (match matchByName G name with
       | [] => VUndef
       | n :: _ => VObj [("u", fst (Neo4jService.convertNode random36 n k))]
       end, k').
Proof.
  unfold userByName, bind, ret.
  destruct (matchByName G name) as [| n l]; cbn [mapM].
  - exists k. reflexivity.
  - unfold bind, ret.
    destruct (Neo4jService.convertNode random36 n k) as [u k1].
    destruct (mapM _ l k1) as [ys k2]. exists k2. reflexivity.
Qed.

Lemma get_u (v : value) : get (VObj [("u", v)]) "u" = v.
Proof. reflexivity. Qed.

(** X9.  Looking a path up by names never finds one when user ids are
    UUIDs: the by-name branch of getPath reads the [id] of the converted
    user records, which executeQuery has overwritten with the store
    identity, and searches for users under that value.  The answer is 404
    for an unknown name and "no path" (length -1) otherwise, whatever the
    graph. *)
Theorem X9_getPath_by_name (random36 : nat -> string) (G : Graph) (s : string)
  (target : value) (k : nat) :
  uuidKeyed G -> s <> "" -> uuidShaped s = false -> truthy target = true ->
  fst (getPath random36 G (VStr s) target k)
  = match matchByName G (VStr s), matchByName G target with
    | [], _ => Err (notFound ("Source user '" ++ s ++ "' not found"))
    | _ :: _, [] =>
        Err (notFound ("Target user '" ++ toString target ++ "' not found"))
    | _ :: _, _ :: _ => Ok noPath
    end.
Proof.
  intros HG Hs Hu Ht. unfold getPath.
  rewrite (truthy_nonempty s Hs), Ht, Hu. cbn [negb orb]. unfold bind.
  destruct (userByName_result random36 G (VStr s) k) as [k1 ->].
  destruct (userByName_result random36 G target k1) as [k2 ->].
  destruct (matchByName G (VStr s)) as [| n l]; [reflexivity |].
  destruct (convertNode_id random36 n k) as (fs & x & Hn & Hid & Hx).
  rewrite Hn.
  destruct (matchByName G target) as [| n' l'].
  - rewrite !get_u. reflexivity.
  - destruct (convertNode_id random36 n' k1) as (fs' & x' & Hn' & Hid' & Hx').
    rewrite Hn', !get_u. cbn [truthy negb orb get].
    rewrite Hid. unfold findAndRespond, bind.
    rewrite (findShortestPath_unmatched _ _ _ _ _
               (uuidKeyed_no_match G x HG Hx)).
    reflexivity.
Qed.

Lemma uuidGraph_keyed : uuidKeyed uuidGraph.
Proof.
  intros n Hn _. destruct Hn as [<- | [<- | []]]; eexists; split; reflexivity.
Qed.

Lemma X9_getPath_by_name_witness :
  fst (getPath noRandom uuidGraph (VStr "Ann") (VStr "Ben") 0%nat) = Ok noPath.
Proof.
  apply (X9_getPath_by_name noRandom uuidGraph "Ann" (VStr "Ben") 0%nat
           uuidGraph_keyed ltac:(discriminate) eq_refl eq_refl).
Defined.

(** *** Looking a path up by identifiers *)

Section ById.

Variable random36 : nat -> string.

Lemma mapM_length {A B : Type} (f : A -> Rand B) (l : list A) (k : nat) :
  List.length (fst (mapM f l k)) = List.length l.
Proof. symmetry. apply (Forall2_length (mapM_Forall2 f l k)). Qed.

Lemma convertedSegments_shaped (G : Graph) (p : Path) (k : nat) :
  (forall s, In s p -> In (seg_relationship s) (rels G)) ->
  plainRels G ->
  forall v, In v (fst (mapM (Neo4jService.convertSegment random36) p k)) ->
  DataService.validSegment v = true
  /\ segmentKeyed v && segmentPlain v = true.
Proof.
  intros Hin Hplain v Hv.
  destruct (Forall2_in_r _ _ _ (mapM_Forall2 _ p k) v Hv) as (s & Hs & j & ->).
  destruct (Hplain _ (Hin s Hs)) as [H1 H2].
  apply (convertSegment_shaped random36 s j H1 H2).
Qed.

Lemma resolve_length (segments : list value) :
  (forall v, In v segments -> DataService.validSegment v = true) ->
  forall k, List.length (fst (resolve random36 segments k)) = List.length segments.
Proof.
  induction segments as [| v segments IH]; intros Hv k; [reflexivity |].
  cbn [resolve]. unfold bind, ret.
  assert (H : exists r k1, resolveSegment random36 v k = ([r], k1)).
  { unfold resolveSegment. rewrite (Hv v (or_introl eq_refl)). cbn [negb].
    unfold bind, ret.
    destruct (DataService.orPlaceholder random36 (get (get v "start") "id") "node-" k)
      as [a k1].
    destruct (DataService.orPlaceholder random36 (get (get v "end") "id") "node-" k1)
      as [b k2].
    destruct (DataService.orPlaceholder random36
                (get (get v "relationship") "id") "rel-" k2) as [c k3].
    eauto. }
  destruct H as (r & k1 & ->).
  specialize (IH (fun x Hx => Hv x (or_intror Hx)) k1).
  destruct (resolve random36 segments k1) as [rs k2]. cbn [fst] in *.
  cbn. rewrite IH. reflexivity.
Qed.

(** formatPathData on a record as findShortestPath returns it. *)
Lemma formatPathData_record (items : list value) (n : Z) (k : nat) :
  DataService.formatPathData random36
    (VObj [("path", VObj [("segments", VArr items)]); ("pathLength", VNum n)]) k
  = (let (rs, k') := resolve random36 items k in
     (Some (VObj [("nodes", VArr (DataService.mapValues
                                    (register [] (occurrencesOf rs))));
                  ("links", VArr (linksOf rs));
                  ("length", or_else (VNum n)
                                     (VNum (Z.of_nat (List.length items))))]),
      k')).
Proof.
  unfold DataService.formatPathData.
  change (get (VObj [("path", VObj [("segments", VArr items)]);
                     ("pathLength", VNum n)]) "path")
    with (VObj [("segments", VArr items)]).
  change (get (VObj [("segments", VArr items)]) "segments") with (VArr items).
  change (get (VObj [("path", VObj [("segments", VArr items)]);
                     ("pathLength", VNum n)]) "pathLength") with (VNum n).
  cbn [truthy negb orb or_else]. unfold bind.
  change (@nil value, @nil (value * value), @nil value)
    with (DataService.mapValues [], @nil (value * value), @nil value).
  rewrite foldM_addPathSegment.
  destruct (resolve random36 items k) as [rs k']. reflexivity.
Qed.

Lemma findShortestPath_cases (G : Graph) (sourceId targetId : value) (k : nat) :
  (exists e, fst (Neo4jService.findShortestPath random36 G sourceId targetId k)
             = Err e)
  \/ fst (Neo4jService.findShortestPath random36 G sourceId targetId k)
     = Ok VUndef
  \/ (exists ps p,
        Neo4jService.findShortestPath_rows G sourceId targetId = Rows ps
        /\ In p ps
        /\ fst (Neo4jService.findShortestPath random36 G sourceId targetId k)
           = Ok (VObj [("path",
                        VObj [("segments",
                               VArr (fst (mapM (Neo4jService.convertSegment random36)
                                               p k)))]);
                       ("pathLength", VNum (Z.of_nat (List.length p)))])).
Proof.
  unfold Neo4jService.findShortestPath.
  destruct (Neo4jService.findShortestPath_rows G sourceId targetId)
    as [ps | m]; [| left; eexists; reflexivity].
  right. destruct ps as [| p ps]; [left; reflexivity |].
  right. exists (p :: ps), p. split; [reflexivity |].
  split; [left; reflexivity |].
  unfold bind, ret. cbn [mapM]. unfold bind, ret.
  unfold Neo4jService.pathRecord at 1, Neo4jService.convertPath, bind, ret.
  destruct (mapM (Neo4jService.convertSegment random36) p k) as [segs k1].
  destruct (mapM (Neo4jService.pathRecord random36) ps k1) as [ys k2].
  reflexivity.
Qed.

Lemma rows_paths (G : Graph) (sourceId targetId : value) (ps : list Path)
  (p : Path) :
  Neo4jService.findShortestPath_rows G sourceId targetId = Rows ps -> In p ps ->
  (1 <= List.length p)%nat
  /\ exists a b,
       In a (matchNodes G "User" sourceId)
       /\ In b (matchNodes G "User" targetId)
       /\ shortestPath G Neo4jService.anyRelationship a b = Rows (Some p).
Proof.
  intros H Hp.
  destruct (forRows_in _ _ _ _ H Hp) as ([a b] & l & Hab & Hf & Hl).
  cbn [fst snd] in Hf. apply in_prod_iff in Hab.
  destruct (shortestPath G Neo4jService.anyRelationship a b) as [o |] eqn:E;
    [| discriminate].
  injection Hf as <-. destruct o as [q |]; [| destruct Hl].
  destruct Hl as [<- | []].
  split; [apply (shortestPath_sound _ _ _ _ _ E) |].
  exists a, b. tauto.
Qed.

Lemma found_path_rels (G : Graph) (a b : Node) (p : Path) :
  shortestPath G Neo4jService.anyRelationship a b = Rows (Some p) ->
  forall s, In s p -> In (seg_relationship s) (rels G).
Proof.
  intros E s Hs. apply shortestPath_sound in E.
  destruct E as [(b' & Hw & _) _].
  apply (walk_rels _ _ _ _ _ Hw s Hs).
Qed.

Lemma positive_truthy (n : nat) : (1 <= n)%nat -> truthy (VNum (Z.of_nat n)) = true.
Proof.
  intro H. cbn. destruct (Z.eqb_spec (Z.of_nat n) 0); [lia | reflexivity].
Qed.

(** X10.  Looking a path up by identifiers: when getPath answers, it is
    either "no path" (length -1) or a path whose [length] is at least 1 and
    equals the number of links, whose message names that length, whose
    links all start and end at listed nodes, and whose listed nodes have
    pairwise distinct ids (provided no relationship property is named
    source or target). *)
Theorem X10_getPath_by_id (G : Graph) (s : string) (target : value) (k : nat)
  (resp : value) :
  uuidShaped s = true -> plainRels G ->
  fst (getPath random36 G (VStr s) target k) = Ok resp ->
  resp = noPath
  \/ exists n nodes links,
       resp = VObj [("message", VStr ("Path found with length " ++ numToString n));
                    ("nodes", VArr nodes);
                    ("links", VArr links);
                    ("length", VNum n)]
       /\ (1 <= n)%Z
       /\ Z.of_nat (List.length links) = n
       /\ linksClosed nodes links
       /\ NoDup (map nodeId nodes).
Proof.
  intros Hu Hplain. unfold getPath.
  destruct (negb (truthy (VStr s)) || negb (truthy target));
    [intro H; discriminate H |].
  rewrite Hu. unfold findAndRespond, bind.
  destruct (findShortestPath_cases G (VStr s) target k)
    as [[e He] | [Hn | (ps & p & Hrows & Hp & Hrec)]];
    destruct (Neo4jService.findShortestPath random36 G (VStr s) target k)
      as [r k1]; cbn [fst] in *; subst r.
  - intro H; discriminate H.
  - intro H. cbn in H. injection H as <-. left. reflexivity.
  - destruct (rows_paths G _ _ _ _ Hrows Hp) as (Hlen & a & b & _ & _ & Hsp).
    pose proof (found_path_rels G a b p Hsp) as Hrels.
    set (items := fst (mapM (Neo4jService.convertSegment random36) p k)).
    pose proof (convertedSegments_shaped G p k Hrels Hplain) as Hshape.
    fold items in Hshape.
    assert (Hps : pathShaped items = true).
    { unfold pathShaped. apply forallb_forall. intros v Hv.
      apply (Hshape v Hv). }
    assert (Hkeyed : nodesKeyed items = true).
    { unfold nodesKeyed. apply forallb_forall. intros v Hv.
      destruct (Hshape v Hv) as [_ H]. apply andb_true_iff in H. tauto. }
    unfold respondPath. cbn [truthy negb]. unfold bind.
    rewrite formatPathData_record.
    pose proof (links_closed random36 items k1 Hps) as Hclosed.
    pose proof (register_firstOccurrenceWins _
                  (occurrences_keyed random36 items k1 Hkeyed)) as [Hnd _].
    pose proof (resolve_length items (fun v Hv => proj1 (Hshape v Hv)) k1) as Hrl.
    destruct (resolve random36 items k1) as [rs k2]. cbn [fst] in *.
    assert (Hitems : List.length items = List.length p)
      by (apply mapM_length).
    unfold or_else. rewrite (positive_truthy _ Hlen).
    intro H. cbn in H. injection H as <-. right.
    exists (Z.of_nat (List.length p)),
      (DataService.mapValues (register [] (occurrencesOf rs))), (linksOf rs).
    split; [reflexivity |]. split; [lia |].
    split; [unfold linksOf; rewrite length_map, Hrl, Hitems; reflexivity |].
    split; assumption.
Qed.

(** X11.  findShortestPath between two users found once each and distinct
    in the store: when some chain of relationships of any kind joins them,
    the record returned has a pathLength of at least 1 and at most the
    length of that chain, with one segment per hop; when no chain joins
    them the call returns no record. *)
Theorem X11_findShortestPath_minimal (G : Graph) (sourceId targetId : value)
  (a b : Node) (k : nat) :
  matchNodes G "User" sourceId = [a] ->
  matchNodes G "User" targetId = [b] ->
  identity a <> identity b ->
  (forall p, walk G Neo4jService.anyRelationship a p b ->
     exists n segs,
       fst (Neo4jService.findShortestPath random36 G sourceId targetId k)
       = Ok (VObj [("path", VObj [("segments", VArr segs)]);
                   ("pathLength", VNum (Z.of_nat n))])
       /\ (1 <= n <= List.length p)%nat
       /\ List.length segs = n)
  /\ ((forall p b', identity b' = identity b ->
         ~ walk G Neo4jService.anyRelationship a p b') ->
      fst (Neo4jService.findShortestPath random36 G sourceId targetId k)
      = Ok VUndef).
Proof.
  intros Ha Hb Hne.
  assert (Hrows : forall o,
            shortestPath G Neo4jService.anyRelationship a b = Rows o ->
            Neo4jService.findShortestPath_rows G sourceId targetId
            = Rows (optList o)).
  { intros o Ho. unfold Neo4jService.findShortestPath_rows.
    rewrite Ha, Hb. cbn [list_prod map app forRows fst snd].
    rewrite Ho. rewrite app_nil_r. reflexivity. }
  split.
  - intros p Hw.
    destruct (shortestPath_complete G Neo4jService.anyRelationship a b p Hw Hne)
      as (q & Hq & Hle).
    pose proof (proj2 (shortestPath_sound G _ _ _ _ Hq)) as Hpos.
    exists (List.length q),
      (fst (mapM (Neo4jService.convertSegment random36) q k)).
    split; [| split; [lia | apply mapM_length]].
    unfold Neo4jService.findShortestPath. rewrite (Hrows _ Hq).
    cbn [optList mapM]. unfold bind, ret.
    unfold Neo4jService.pathRecord, Neo4jService.convertPath, bind, ret.
    destruct (mapM (Neo4jService.convertSegment random36) q k) as [segs k1].
    reflexivity.
  - intro Hno.
    destruct (shortestPath G Neo4jService.anyRelationship a b) as [o | m] eqn:E.
    + destruct o as [q |].
      * destruct (shortestPath_sound G _ _ _ _ E) as [(b' & Hw & Hid) _].
        destruct (Hno q b' Hid Hw).
      * unfold Neo4jService.findShortestPath. rewrite (Hrows _ eq_refl).
        reflexivity.
    + unfold shortestPath in E.
      destruct (Z.eqb_spec (identity a) (identity b)); [contradiction |].
      discriminate E.
Qed.

End ById.

Lemma uuidGraph_plain : plainRels uuidGraph.
Proof. intros r [<- | []]. split; reflexivity. Qed.

Lemma X10_getPath_by_id_witness :
  exists resp,
    fst (getPath noRandom uuidGraph (VStr "11111111-1111-4111-8111-111111111111")
           (VStr "22222222-2222-4222-8222-222222222222") 0%nat) = Ok resp
    /\ get resp "length" = VNum 1
    /\ (resp = noPath \/ exists n nodes links,
          resp = VObj [("message", VStr ("Path found with length " ++ numToString n));
                       ("nodes", VArr nodes); ("links", VArr links);
                       ("length", VNum n)]
          /\ linksClosed nodes links).
Proof.
  eexists. split; [reflexivity |]. split; [reflexivity |].
  destruct (X10_getPath_by_id noRandom uuidGraph
              "11111111-1111-4111-8111-111111111111"
              (VStr "22222222-2222-4222-8222-222222222222") 0%nat _
              eq_refl uuidGraph_plain eq_refl)
    as [H | (n & nodes & links & H & _ & _ & Hc & _)]; [left; exact H |].
  right. exists n, nodes, links. split; assumption.
Defined.

Lemma X11_findShortestPath_minimal_witness :
  exists n segs,
    fst (Neo4jService.findShortestPath noRandom uuidGraph
           (VStr "11111111-1111-4111-8111-111111111111")
           (VStr "22222222-2222-4222-8222-222222222222") 0%nat)
    = Ok (VObj [("path", VObj [("segments", VArr segs)]);
                ("pathLength", VNum (Z.of_nat n))])
    /\ (1 <= n <= 1)%nat /\ List.length segs = n.
Proof.
  refine (proj1 (X11_findShortestPath_minimal noRandom uuidGraph
                   (VStr "11111111-1111-4111-8111-111111111111")
                   (VStr "22222222-2222-4222-8222-222222222222")
                   ann ben 0%nat eq_refl eq_refl _)
                [mkSegment ann (mkRel 20 "KNOWS" 1 2 [("createdAt", VStr "t0")]) ben]
                _).
  - cbn. lia.
  - apply (walk_snoc uuidGraph Neo4jService.anyRelationship ann [] ann
             (mkRel 20 "KNOWS" 1 2 [("createdAt", VStr "t0")]) ben).
    + apply walk_nil.
    + left. reflexivity.
    + reflexivity.
    + right. left. reflexivity.
    + reflexivity.
Defined.

End GetPathFacts.

(* ================================================================== *)
(** ** The connection queries *)
(* ================================================================== *)

Module ConnectionFacts.

Import ObjectFacts ParseIntFacts SearchFacts NetworkFacts DataService
       FormatFacts RegisterFacts NetworkFormatterFacts PipelineFacts
       VarLength ConnectionQueries.

(** *** Variable length patterns *)

Section Trails.

Variable G : Graph.

Lemma in_nodesWithIdentity (c : Node) (i : Z) :
  In c (nodesWithIdentity G i) <-> In c (nodes G) /\ identity c = i.
Proof. unfold nodesWithIdentity. rewrite filter_In, Z.eqb_eq. tauto. Qed.

Lemma in_steps (p : Path) (b : Node) (r : Relationship) (c : Node) :
  In (r, c) (steps G p b)
  <-> In r (rels G) /\ usedIn p r = false /\ In c (nodes G)
      /\ joins r b c = true.
Proof.
  unfold steps. rewrite in_flat_map. split.
  - intros (r' & Hr' & Hin). destruct (usedIn p r') eqn:Eu; [destruct Hin |].
    destruct (Z.eqb_spec (startNodeIdentity r') (identity b)) as [Es | Es].
    + apply in_map_iff in Hin. destruct Hin as (c' & Heq & Hc).
      injection Heq as <- <-. apply in_nodesWithIdentity in Hc.
      destruct Hc as [Hc Hid].
      split; [assumption |]. split; [assumption |]. split; [assumption |].
      unfold joins. apply orb_true_iff. left. apply andb_true_iff.
      split; apply Z.eqb_eq; congruence.
    + destruct (Z.eqb_spec (endNodeIdentity r') (identity b)) as [Ee | Ee];
        [| destruct Hin].
      apply in_map_iff in Hin. destruct Hin as (c' & Heq & Hc).
      injection Heq as <- <-. apply in_nodesWithIdentity in Hc.
      destruct Hc as [Hc Hid].
      split; [assumption |]. split; [assumption |]. split; [assumption |].
      unfold joins. apply orb_true_iff. right. apply andb_true_iff.
      split; apply Z.eqb_eq; congruence.
  - intros (Hr & Hu & Hc & Hj). exists r. split; [assumption |]. rewrite Hu.
    assert (Hends : (startNodeIdentity r = identity b
                     /\ endNodeIdentity r = identity c)
                    \/ (endNodeIdentity r = identity b
                        /\ startNodeIdentity r = identity c)).
    { unfold joins in Hj. apply orb_true_iff in Hj.
      destruct Hj as [Hj | Hj]; apply andb_true_iff in Hj;
        destruct Hj as [H1 H2]; apply Z.eqb_eq in H1, H2; auto. }
    destruct (Z.eqb_spec (startNodeIdentity r) (identity b)) as [Es | Es].
    + apply in_map. apply in_nodesWithIdentity. split; [assumption | lia].
    + destruct Hends as [[H1 H2] | [H1 H2]]; [contradiction |].
      destruct (Z.eqb_spec (endNodeIdentity r) (identity b)); [| contradiction].
      apply in_map. apply in_nodesWithIdentity. split; [assumption | lia].
Qed.

Lemma in_extend (front : list (Node * Path)) (c : Node) (q : Path) :
  In (c, q) (extend G front)
  <-> exists b p r, In (b, p) front /\ In (r, c) (steps G p b)
                    /\ q = p ++ [mkSegment b r c].
Proof.
  unfold extend. rewrite in_flat_map. split.
  - intros ([b p] & Hin & Hm). cbn [fst snd] in Hm.
    apply in_map_iff in Hm. destruct Hm as ([r c'] & Heq & Hs).
    cbn [fst snd] in Heq. injection Heq as -> <-.
    exists b, p, r. auto.
  - intros (b & p & r & Hin & Hs & ->). exists (b, p). split; [assumption |].
    cbn [fst snd]. apply in_map_iff. exists (r, c). split; [reflexivity | assumption].
Qed.

Lemma hopLayer_extend (n : nat) :
  forall front, hopLayer G n (extend G front) = extend G (hopLayer G n front).
Proof.
  induction n as [| n IH]; intro front; [reflexivity |].
  cbn [hopLayer]. apply IH.
Qed.

Lemma trail_inv (a b : Node) (p : Path) :
  trail G a p b ->
  (p = [] /\ b = a)
  \/ exists p0 b0 r,
       p = p0 ++ [mkSegment b0 r b] /\ trail G a p0 b0 /\ In r (rels G)
       /\ usedIn p0 r = false /\ In b (nodes G) /\ joins r b0 b = true.
Proof.
  destruct 1 as [a | a p0 b0 r c Ht Hr Hu Hc Hj]; [left; auto |].
  right. exists p0, b0, r. auto 10.
Qed.

Lemma in_hopLayer (a : Node) (n : nat) :
  forall b p, In (b, p) (hopLayer G n [(a, [])])
              <-> trail G a p b /\ List.length p = n.
Proof.
  induction n as [| n IH]; intros b p.
  - cbn [hopLayer In]. split.
    + intros [H | []]. injection H as <- <-. split; [constructor | reflexivity].
    + intros [Ht Hl]. destruct p; [| discriminate Hl].
      destruct (trail_inv _ _ _ Ht) as [[_ ->] | (p0 & b0 & r & Hp & _)].
      * left. reflexivity.
      * destruct p0; discriminate Hp.
  - cbn [hopLayer]. rewrite hopLayer_extend, in_extend. split.
    + intros (b0 & p0 & r & Hin & Hst & ->). apply IH in Hin.
      destruct Hin as [Ht Hl]. apply in_steps in Hst.
      destruct Hst as (Hr & Hu & Hc & Hj).
      split; [apply trail_snoc; assumption |].
      rewrite length_app. cbn. lia.
    + intros [Ht Hl].
      destruct (trail_inv _ _ _ Ht)
        as [[-> _] | (p0 & b0 & r & -> & Ht0 & Hr & Hu & Hc & Hj)].
      * discriminate Hl.
      * rewrite length_app in Hl. cbn in Hl.
        exists b0, p0, r. split; [apply IH; split; [assumption | lia] |].
        split; [apply in_steps; auto | reflexivity].
Qed.

Lemma in_varLength (d : nat) :
  forall front x,
  In x (varLength G d front)
  <-> exists n, (1 <= n <= d)%nat /\ In x (hopLayer G n front).
Proof.
  induction d as [| d IH]; intros front x.
  - cbn [varLength]. split; [intros [] | intros (n & Hn & _); lia].
  - cbn [varLength]. rewrite in_app_iff, IH. split.
    + intros [H | (n & Hn & H)].
      * exists 1%nat. split; [lia | exact H].
      * exists (S n). split; [lia | exact H].
    + intros (n & Hn & H). destruct n as [| n]; [lia |].
      cbn [hopLayer] in H. destruct n as [| n].
      * left. exact H.
      * right. exists (S n). split; [lia | exact H].
Qed.

(** The pattern [(a)-[*1..d]-(b)] matches the trails of 1 to [d] hops. *)
Lemma varLength_trails (a : Node) (d : nat) (b : Node) (p : Path) :
  In (b, p) (varLength G d [(a, [])])
  <-> trail G a p b /\ (1 <= List.length p <= d)%nat.
Proof.
  rewrite in_varLength. split.
  - intros (n & Hn & H). apply in_hopLayer in H. destruct H as [Ht <-]. auto.
  - intros [Ht Hl]. exists (List.length p). split; [assumption |].
    apply in_hopLayer. auto.
Qed.

Lemma extend_lengths (front : list (Node * Path)) (m : nat) :
  (forall x, In x front -> List.length (snd x) = m) ->
  forall x, In x (extend G front) -> List.length (snd x) = S m.
Proof.
  intros Hm [c q] Hin. apply in_extend in Hin.
  destruct Hin as (b & p & r & Hin & _ & ->). cbn [snd].
  pose proof (Hm _ Hin) as Hl. cbn [snd] in Hl.
  rewrite length_app, Hl. cbn. lia.
Qed.

Lemma sorted_app {A : Type} (R : A -> A -> Prop) (l1 l2 : list A) :
  StronglySorted R l1 -> StronglySorted R l2 ->
  (forall x y, In x l1 -> In y l2 -> R x y) ->
  StronglySorted R (l1 ++ l2).
Proof.
  induction 1 as [| x l1 Hs IH Hf]; intros H2 Hc; [exact H2 |].
  cbn [app]. constructor.
  - apply IH; [assumption |]. intros a b Ha Hb. apply Hc; [right |]; assumption.
  - apply Forall_app. split; [assumption |].
    apply Forall_forall. intros y Hy. apply Hc; [left; reflexivity | assumption].
Qed.

Lemma sorted_level {A : Type} (R : A -> A -> Prop) (l : list A) :
  (forall x y, In x l -> In y l -> R x y) -> StronglySorted R l.
Proof.
  induction l as [| x l IH]; intro H; constructor.
  - apply IH. intros a b Ha Hb. apply H; right; assumption.
  - apply Forall_forall. intros y Hy. apply H; [left; reflexivity | right; assumption].
Qed.

Lemma varLength_sorted (d : nat) :
  forall front m,
  (forall x, In x front -> List.length (snd x) = m) ->
  StronglySorted (fun x y => shorter (snd x) (snd y)) (varLength G d front)
  /\ (forall x, In x (varLength G d front) -> (m < List.length (snd x))%nat).
Proof.
  induction d as [| d IH]; intros front m Hm; cbn [varLength].
  - split; [constructor | intros x []].
  - pose proof (extend_lengths front m Hm) as Hn.
    destruct (IH (extend G front) (S m) Hn) as [Hs Hgt]. split.
    + apply sorted_app; [| assumption |].
      * apply sorted_level. intros x y Hx Hy. unfold shorter.
        rewrite (Hn x Hx), (Hn y Hy). lia.
      * intros x y Hx Hy. unfold shorter. rewrite (Hn x Hx).
        specialize (Hgt y Hy). lia.
    + intros x Hx. apply in_app_or in Hx. destruct Hx as [Hx | Hx].
      * rewrite (Hn x Hx). lia.
      * specialize (Hgt x Hx). lia.
Qed.

End Trails.

(** *** LIMIT, DISTINCT and the order of the rows *)

Lemma in_firstn {A : Type} (n : nat) :
  forall (l : list A) (x : A), In x (firstn n l) -> In x l.
Proof.
  induction n as [| n IH]; intros [| y l] x H; cbn in H; try destruct H.
  - left. assumption.
  - right. apply IH. assumption.
Qed.

Lemma sorted_firstn {A : Type} (R : A -> A -> Prop) (l : list A) :
  StronglySorted R l -> forall n, StronglySorted R (firstn n l).
Proof.
  induction 1 as [| x l Hs IH Hf]; intros [| n]; cbn; constructor.
  - apply IH.
  - apply Forall_forall. intros y Hy. apply in_firstn in Hy.
    revert y Hy. apply Forall_forall. assumption.
Qed.

Lemma sorted_filter {A : Type} (R : A -> A -> Prop) (f : A -> bool)
  (l : list A) :
  StronglySorted R l -> StronglySorted R (filter f l).
Proof.
  induction 1 as [| x l Hs IH Hf]; cbn; [constructor |].
  destruct (f x); [| assumption]. constructor; [assumption |].
  apply Forall_forall. intros y Hy. apply filter_In in Hy. destruct Hy as [Hy _].
  revert y Hy. apply Forall_forall. assumption.
Qed.

Lemma sorted_map_snd (l : list (Node * Path)) :
  StronglySorted (fun x y => shorter (snd x) (snd y)) l ->
  ascending (map snd l).
Proof.
  unfold ascending.
  induction 1 as [| x l Hs IH Hf]; cbn; constructor; [assumption |].
  apply Forall_forall. intros q Hq. apply in_map_iff in Hq.
  destruct Hq as (y & <- & Hy). revert y Hy. apply Forall_forall. assumption.
Qed.

Lemma distinctPaths_incl (l : list Path) :
  forall seen, incl (distinctPaths seen l) l.
Proof.
  induction l as [| p l IH]; intros seen q Hq; cbn in *; [assumption |].
  destruct (existsb (samePath p) seen).
  - right. eapply IH; eassumption.
  - destruct Hq as [-> | Hq]; [left; reflexivity | right; eapply IH; eassumption].
Qed.

Lemma distinctPaths_length (l : list Path) :
  forall seen, (List.length (distinctPaths seen l) <= List.length l)%nat.
Proof.
  induction l as [| p l IH]; intro seen; cbn; [lia |].
  destruct (existsb (samePath p) seen); cbn.
  - specialize (IH seen). lia.
  - specialize (IH (p :: seen)). lia.
Qed.

Lemma distinctPaths_first (l : list Path) :
  (1 <= List.length l)%nat -> (1 <= List.length (distinctPaths [] l))%nat.
Proof. destruct l as [| p l]; cbn; lia. Qed.

Lemma sorted_distinctPaths (l : list Path) :
  ascending l -> forall seen, ascending (distinctPaths seen l).
Proof.
  unfold ascending.
  induction 1 as [| p l Hs IH Hf]; intro seen; cbn; [constructor |].
  destruct (existsb (samePath p) seen); [apply IH |].
  constructor; [apply IH |].
  apply Forall_forall. intros q Hq. apply distinctPaths_incl in Hq.
  revert q Hq. apply Forall_forall. assumption.
Qed.

(** *** The rows of a connection query *)

Section Rows.

Variable G : Graph.

Lemma connectedRows_connects (c : Node) (d : nat) (b : Node) (p : Path) :
  In (b, p) (connectedRows G c d) -> connects G c d p b.
Proof.
  unfold connectedRows. intro H. apply in_firstn in H. apply filter_In in H.
  destruct H as [Hin Hf]. cbn [fst] in Hf. apply andb_true_iff in Hf.
  destruct Hf as [Hu Hne]. apply negb_true_iff, Z.eqb_neq in Hne.
  apply varLength_trails in Hin. destruct Hin as [Ht Hl].
  unfold connects, otherUser. auto.
Qed.


Lemma connectedRows_sorted (c : Node) (d : nat) :
  StronglySorted (fun x y => shorter (snd x) (snd y)) (connectedRows G c d).
Proof.
  unfold connectedRows. apply sorted_firstn, sorted_filter.
  apply (varLength_sorted G d [(c, [])] 0%nat).
  intros x [<- | []]. reflexivity.
Qed.



Lemma recordRows_in (matches : list Node) (d : nat) (row : ConnectionRow) :
  In row (recordRows G matches d) ->
  In (row_node row) matches
  /\ connectionsOf G (row_node row) d (row_paths row) (row_connections row).
Proof.
  unfold recordRows. intro H. apply in_flat_map in H.
  destruct H as (c & Hc & Hin).
  assert (Hrow : connectedRows G c d <> []
                 /\ row = mkConnectionRow c
                            (distinctPaths [] (map snd (connectedRows G c d)))
                            (distinctBy identity [] (map fst (connectedRows G c d)))).
  { destruct (connectedRows G c d) as [| x rows]; [destruct Hin |].
    destruct Hin as [<- | []]. split; [discriminate | reflexivity]. }
  clear Hin. destruct Hrow as [Hne ->].
  cbn [row_node row_paths row_connections]. split; [assumption |].
  set (rows := connectedRows G c d) in *.
  assert (Hrows : forall b p, In (b, p) rows -> connects G c d p b)
    by (intros b p; apply connectedRows_connects).
  unfold connectionsOf. split; [| split; [| split; [| split]]].
  - split.
    + apply distinctPaths_first. rewrite length_map.
      destruct rows; [congruence | cbn; lia].
    + etransitivity; [apply distinctPaths_length |]. rewrite length_map.
      unfold rows, connectedRows. apply firstn_le_length.
  - apply sorted_distinctPaths, sorted_map_snd, connectedRows_sorted.
  - intros p Hp. apply distinctPaths_incl in Hp. apply in_map_iff in Hp.
    destruct Hp as ([b q] & Hq & Hin). cbn [snd] in Hq. subst q.
    exists b. split; [apply Hrows; assumption |].
    apply distinctBy_keys. split; [| intros []].
    rewrite map_map. apply in_map_iff. exists (b, p). split; [reflexivity | assumption].
  - apply distinctBy_NoDup.
  - intros b Hb. apply distinctBy_incl in Hb. apply in_map_iff in Hb.
    destruct Hb as ([b' p] & Hq & Hin). cbn [fst] in Hq. subst b'.
    exists p. apply Hrows. assumption.
Qed.

End Rows.

(** *** The records and the response *)

Lemma record_fields (key : string) (c ps cs : value) :
  get (VObj [(key, c); ("paths", ps); ("connections", cs)]) key = c.
Proof. unfold get. cbn [lookup]. rewrite String.eqb_refl. reflexivity. Qed.

Lemma character_fields (c ps cs : value) :
  get (VObj [("character", c); ("paths", ps); ("connections", cs)]) "paths" = ps
  /\ get (VObj [("character", c); ("paths", ps); ("connections", cs)])
         "connections" = cs.
Proof. split; reflexivity. Qed.

Lemma rawSegment_shaped (s : Segment) :
  validSegment (rawSegment s) = true
  /\ segmentKeyed (rawSegment s) = true
  /\ segmentPlain (rawSegment s) = true.
Proof. repeat split; reflexivity. Qed.

Lemma rawSegment_ends (s : Segment) :
  get (rawSegment s) "start" = rawNode (seg_start s)
  /\ get (rawSegment s) "end" = rawNode (seg_end s).
Proof. split; reflexivity. Qed.

Lemma rawNode_entry (i : value) (n : Node) :
  get (nodeEntry i (rawNode n)) "name" = VStr "Unknown"
  /\ nodeId (nodeEntry i (rawNode n)) = i.
Proof. split; reflexivity. Qed.

Lemma networkSegments_raw (ps : list Path) :
  networkSegments (VObj [("paths", VArr (map rawPath ps))])
  = flat_map (map rawSegment) ps.
Proof.
  unfold networkSegments.
  change (get (VObj [("paths", VArr (map rawPath ps))]) "paths")
    with (VArr (map rawPath ps)).
  cbn [arrayItems]. induction ps as [| p ps IH]; [reflexivity |].
  cbn [map flat_map]. rewrite IH. reflexivity.
Qed.

Section WithRandom.

Variable random36 : nat -> string.

Lemma firstRecord_mapM {A : Type} (f : A -> Rand value) (rows : list A)
  (k : nat) :
  Neo4jService.firstRecord (fst (mapM f rows k))
  = match rows with
    | [] => VUndef
    | row :: _ => fst (f row k)
    end.
Proof.
  destruct rows as [| row rest]; [reflexivity |].
  cbn [mapM]. unfold bind, ret. destruct (f row k) as [y k1].
  destruct (mapM f rest k1) as [ys k2]. reflexivity.
Qed.

Lemma convertNode_object (n : Node) (j : nat) :
  truthy (fst (Neo4jService.convertNode random36 n j)) = true.
Proof.
  destruct (GetPathFacts.convertNode_id random36 n j) as (fs & x & -> & _).
  reflexivity.
Qed.

(** A record of a connection query, when there is one. *)
Lemma connectionsQuery_record (G : Graph) (key : string) (matches : list Node)
  (depth : value) (d k : nat) (rec : value) :
  depthBound depth = Some d ->
  fst (connectionsQuery random36 G key matches depth k) = Ok rec ->
  truthy rec = true ->
  exists c ps cs items,
    In c matches
    /\ rec = VObj [(key, fst (Neo4jService.convertNode random36 c k));
                   ("paths", VArr (map rawPath ps));
                   ("connections", VArr items)]
    /\ connectionsOf G c d ps cs
    /\ Forall2 (fun b v => exists j,
                  v = fst (Neo4jService.convertNode random36 b j)) cs items.
Proof.
  intro Hd. unfold connectionsQuery. rewrite Hd. unfold bind.
  pose proof (firstRecord_mapM (connectionRecord random36 key)
                (recordRows G matches d) k) as Hf.
  destruct (mapM (connectionRecord random36 key) (recordRows G matches d) k)
    as [records k']. cbn [fst ret] in *. intro H. injection H as <-.
  rewrite Hf. clear Hf.
  destruct (recordRows G matches d) as [| row rest] eqn:Er;
    [intro H; discriminate H |]. intros _.
  destruct (recordRows_in G matches d row) as [Hin Hc];
    [rewrite Er; left; reflexivity |].
  unfold connectionRecord, bind, ret.
  pose proof (mapM_Forall2 (Neo4jService.convertNode random36)
                (row_connections row)) as HF.
  destruct (Neo4jService.convertNode random36 (row_node row) k) as [cv k1] eqn:Ec.
  specialize (HF k1).
  destruct (mapM (Neo4jService.convertNode random36) (row_connections row) k1)
    as [items k2]. cbn [fst] in *.
  exists (row_node row), (row_paths row), (row_connections row), items.
  rewrite Ec.
  split; [assumption | split; [reflexivity | split; assumption]].
Qed.

(** What the controller answers. *)
Lemma controller_eval (G : Graph) (name : string) (depthParam : value)
  (k : nat) :
  let depth := defaultArg (requestedDepth depthParam) (VNum 1) in
  exists k1 k2,
    fst (NetworkController.getCharacterConnections random36 G name depthParam k)
    = match depthBound depth with
      | None => Err (Neo4jService.databaseError (invalidDepth depth))
      | Some d =>
          match recordRows G (NetworkController.matchByName G (VStr name)) d with
          | [] => Err (notFound ("Character '" ++ name ++ "' not found"))
          | row :: _ =>
              Ok (VObj
                    [("character",
                      NetworkController.withIdAndName
                        (fst (Neo4jService.convertNode random36 (row_node row) k)));
                     ("connections",
                      VArr (map NetworkController.withIdAndName
                              (fst (mapM (Neo4jService.convertNode random36)
                                         (row_connections row) k1))));
                     ("network",
                      fst (formatNetworkForD3 random36
                             (VObj [("paths",
                                     VArr (map rawPath (row_paths row)))]) k2))])
          end
      end.
Proof.
  intro depth.
  unfold NetworkController.getCharacterConnections,
    ConnectionQueries.getCharacterConnections, connectionsQuery, bind.
  fold (requestedDepth depthParam). fold depth.
  change (filter _ (nodes G)) with (NetworkController.matchByName G (VStr name)).
  destruct (depthBound depth) as [d |]; [| exists k, k; reflexivity].
  destruct (recordRows G (NetworkController.matchByName G (VStr name)) d)
    as [| row rest]; [exists k, k; reflexivity |].
  cbn [mapM]. unfold bind, ret. unfold connectionRecord at 1. unfold bind, ret.
  pose proof (convertNode_object (row_node row) k) as Ht.
  destruct (Neo4jService.convertNode random36 (row_node row) k) as [cv k1].
  cbn [fst] in Ht.
  destruct (mapM (Neo4jService.convertNode random36) (row_connections row) k1)
    as [items k2] eqn:Ei.
  destruct (mapM (connectionRecord random36 "character") rest k2) as [recs k3].
  cbn [Neo4jService.firstRecord truthy negb orb].
  rewrite record_fields, Ht. cbn [negb].
  destruct (character_fields cv (VArr (map rawPath (row_paths row))) (VArr items))
    as [-> ->].
  exists k1, k3. rewrite Ei. cbn [fst arrayItems].
  destruct (formatNetworkForD3 random36
              (VObj [("paths", VArr (map rawPath (row_paths row)))]) k3)
    as [net k4].
  reflexivity.
Qed.


(** X13.  A record returned by getUserConnections or by
    getCharacterConnections is about a user matching the identifier (the
    name) and holds between 1 and 50 paths, shortest first, each leading
    from that user to another user in 1 to [depth] hops without using a
    relationship twice; its connections are pairwise different users other
    than that user, each within [depth] hops, and include the end of every
    path.  The paths are handed on as the driver's objects; the user and
    the connections are converted. *)
Theorem X13_connection_records (G : Graph) (userId characterName depth : value)
  (d k : nat) (recU recC : value) :
  depthBound (defaultArg depth (VNum 1)) = Some d ->
  (fst (getUserConnections random36 G userId depth k) = Ok recU ->
   truthy recU = true ->
   exists c ps cs items,
     In c (matchNodes G "User" userId)
     /\ recU = VObj [("user", fst (Neo4jService.convertNode random36 c k));
                     ("paths", VArr (map rawPath ps));
                     ("connections", VArr items)]
     /\ connectionsOf G c d ps cs
     /\ Forall2 (fun b v => exists j,
                   v = fst (Neo4jService.convertNode random36 b j)) cs items)
  /\ (fst (ConnectionQueries.getCharacterConnections random36 G characterName
             depth k) = Ok recC ->
      truthy recC = true ->
      exists c ps cs items,
        In c (NetworkController.matchByName G characterName)
        /\ recC = VObj [("character",
                         fst (Neo4jService.convertNode random36 c k));
                        ("paths", VArr (map rawPath ps));
                        ("connections", VArr items)]
        /\ connectionsOf G c d ps cs
        /\ Forall2 (fun b v => exists j,
                      v = fst (Neo4jService.convertNode random36 b j)) cs items).
Proof.
  intro Hd. split; intros H Ht.
  - apply (connectionsQuery_record G "user" _ _ d k recU Hd H Ht).
  - apply (connectionsQuery_record G "character" _ _ d k recC Hd H Ht).
Qed.

Lemma raw_occurrence (ps : list Path) (k : nat) (ko : value * value) :
  In ko (occurrencesOf (fst (resolve random36 (flat_map (map rawSegment) ps) k))) ->
  exists x n, ko = (VStr ("node-" ++ x), rawNode n).
Proof.
  intro Hin. unfold occurrencesOf in Hin. apply in_flat_map in Hin.
  destruct Hin as (r & Hr & Hko).
  destruct (resolve_in _ _ _ _ Hr) as (seg & j & Hseg & Hrs).
  destruct (resolveSegment_in _ _ _ _ Hrs) as (_ & Hs & He & _ & [j1 H1] & [j2 H2]).
  apply in_flat_map in Hseg. destruct Hseg as (p & _ & Hseg).
  apply in_map_iff in Hseg. destruct Hseg as (s & <- & _).
  destruct (rawSegment_ends s) as [Es Ee]. rewrite Es in Hs. rewrite Ee in He.
  rewrite Hs in H1. rewrite He in H2.
  destruct Hko as [<- | [<- | []]].
  - exists (substring 2 9 (random36 j1)), (seg_start s).
    rewrite H1, Hs. reflexivity.
  - exists (substring 2 9 (random36 j2)), (seg_end s).
    rewrite H2, He. reflexivity.
Qed.

(** X14.  The network in a getCharacterConnections response is built from
    paths that executeQuery left unconverted, so no node of it carries a
    name or an identifier of the store: every node is named 'Unknown' and
    has a placeholder id.  The network still has at least one link, its
    links start and end at listed nodes, and the listed nodes have
    pairwise distinct ids. *)
Theorem X14_connections_network (G : Graph) (name : string)
  (depthParam : value) (k : nat) (resp : value) :
  fst (NetworkController.getCharacterConnections random36 G name depthParam k)
  = Ok resp ->
  exists nodes links,
    get resp "network" = VObj [("nodes", VArr nodes); ("links", VArr links)]
    /\ links <> []
    /\ linksClosed nodes links
    /\ NoDup (map nodeId nodes)
    /\ (forall n, In n nodes ->
          get n "name" = VStr "Unknown"
          /\ exists x, nodeId n = VStr ("node-" ++ x)).
Proof.
  destruct (controller_eval G name depthParam k) as (k1 & k2 & ->).
  destruct (depthBound _) as [d |]; [| intro H; discriminate H].
  destruct (recordRows G (NetworkController.matchByName G (VStr name)) d)
    as [| row rest] eqn:Er; [intro H; discriminate H |].
  intro H. injection H as <-.
  destruct (recordRows_in G (NetworkController.matchByName G (VStr name))
              d row) as [_ Hc];
    [rewrite Er; left; reflexivity |].
  destruct Hc as ([Hlen _] & _ & Hps & _).
  set (ps := row_paths row) in *.
  change (get (VObj _) "network")
    with (fst (formatNetworkForD3 random36
                 (VObj [("paths", VArr (map rawPath ps))]) k2)).
  rewrite formatNetworkForD3_paths by reflexivity.
  rewrite networkSegments_raw.
  set (segs := flat_map (map rawSegment) ps).
  assert (Hshape : pathShaped segs = true).
  { unfold pathShaped. apply forallb_forall. intros x Hx.
    apply in_flat_map in Hx. destruct Hx as (p & _ & Hx).
    apply in_map_iff in Hx. destruct Hx as (s & <- & _).
    destruct (rawSegment_shaped s) as (_ & -> & ->). reflexivity. }
  assert (Hkeyed : nodesKeyed segs = true).
  { unfold nodesKeyed. apply forallb_forall. intros x Hx.
    unfold pathShaped in Hshape. rewrite forallb_forall in Hshape.
    specialize (Hshape x Hx). apply andb_true_iff in Hshape. tauto. }
  assert (Hvalid : forall v, In v segs -> validSegment v = true).
  { intros x Hx. apply in_flat_map in Hx. destruct Hx as (p & _ & Hx).
    apply in_map_iff in Hx. destruct Hx as (s & <- & _).
    apply rawSegment_shaped. }
  pose proof (links_closed random36 segs k2 Hshape) as Hclosed.
  pose proof (register_firstOccurrenceWins _
                (occurrences_keyed random36 segs k2 Hkeyed)) as (Hnd & _ & Hall).
  pose proof (GetPathFacts.resolve_length random36 segs Hvalid k2) as Hrl.
  pose proof (raw_occurrence ps k2) as Hraw. fold segs in Hraw.
  destruct (resolve random36 segs k2) as [rs k3]. cbn [fst] in *.
  exists (mapValues (register [] (occurrencesOf rs))), (linksOf rs).
  split; [reflexivity |]. split; [| split; [assumption | split; [assumption |]]].
  - assert (Hsegs : (1 <= List.length segs)%nat).
    { unfold segs. destruct ps as [| p ps']; [cbn in Hlen; lia |].
      destruct (Hps p (or_introl eq_refl)) as (b & (_ & Hl & _) & _).
      cbn [flat_map]. rewrite length_app, length_map. lia. }
    unfold linksOf. intro Hnil. apply (f_equal (@List.length value)) in Hnil.
    rewrite length_map, Hrl in Hnil. cbn in Hnil. lia.
  - intros n Hn. destruct (Hall n Hn) as (i & o1 & Hfo & ->).
    unfold firstOccurrence in Hfo.
    destruct (find (fun ko => sameValueZero (fst ko) i) (occurrencesOf rs))
      as [ko |] eqn:Ef; [| discriminate Hfo].
    injection Hfo as <-. apply find_some in Ef. destruct Ef as [Hin Hs].
    apply sameValueZero_eq in Hs. subst i.
    destruct (Hraw ko Hin) as (x & nd & ->). cbn [fst snd].
    destruct (rawNode_entry (VStr ("node-" ++ x)) nd) as [-> ->].
    split; [reflexivity | exists x; reflexivity].
Qed.


End WithRandom.



Lemma X13_connection_records_witness :
  (exists c ps cs,
     In c (matchNodes reshareGraph "User" (VStr "a"))
     /\ connectionsOf reshareGraph c 2 ps cs)
  /\ (exists c ps cs,
        In c (NetworkController.matchByName reshareGraph (VStr "Alice"))
        /\ connectionsOf reshareGraph c 2 ps cs).
Proof.
  pose (recU := match fst (getUserConnections noRandom reshareGraph (VStr "a")
                             (VNum 2) 0%nat) with
                | Ok r => r
                | Err _ => VUndef
                end).
  pose (recC := match fst (ConnectionQueries.getCharacterConnections noRandom
                             reshareGraph (VStr "Alice") (VNum 2) 0%nat) with
                | Ok r => r
                | Err _ => VUndef
                end).
  destruct (X13_connection_records noRandom reshareGraph (VStr "a")
              (VStr "Alice") (VNum 2) 2%nat 0%nat recU recC eq_refl)
    as [HU HC].
  split.
  - destruct HU as (c & ps & cs & items & Hin & _ & Hc & _);
      [vm_compute; reflexivity | vm_compute; reflexivity |].
    exists c, ps, cs. split; assumption.
  - destruct HC as (c & ps & cs & items & Hin & _ & Hc & _);
      [vm_compute; reflexivity | vm_compute; reflexivity |].
    exists c, ps, cs. split; assumption.
Defined.

Lemma X14_connections_network_witness :
  exists resp nodes links,
    fst (NetworkController.getCharacterConnections counter36 reshareGraph
           "Alice" (VStr "2") 0%nat) = Ok resp
    /\ get resp "network" = VObj [("nodes", VArr nodes); ("links", VArr links)]
    /\ linksClosed nodes links
    /\ NoDup (map nodeId nodes).
Proof.
  pose (resp := match fst (NetworkController.getCharacterConnections counter36
                             reshareGraph "Alice" (VStr "2") 0%nat) with
                | Ok r => r
                | Err _ => VUndef
                end).
  destruct (X14_connections_network counter36 reshareGraph "Alice" (VStr "2")
              0%nat resp)
    as (nodes & links & Hnet & _ & Hc & Hnd & _);
    [vm_compute; reflexivity |].
  exists resp, nodes, links.
  split; [vm_compute; reflexivity |]. split; [assumption |].
  split; assumption.
Defined.

End ConnectionFacts.

(* ================================================================== *)
(** ** Reading stories *)
(* ================================================================== *)

Module StoryReadFacts.

Import ObjectFacts ParseIntFacts PaginationFacts SearchFacts NetworkFacts
       StoryQueries StoryListing.

Lemma nil_iff {A : Type} (l : list A) : l = [] <-> (forall x, ~ In x l).
Proof.
  split; [intros -> x [] |].
  destruct l as [| x l]; [reflexivity |]. intro H. destruct (H x). left.
  reflexivity.
Qed.

Section Rows.

Variable G : Graph.

Lemma in_authorsOfNode (s a : Node) :
  In a (authorsOfNode G s) <-> authored G a s.
Proof.
  unfold authorsOfNode, authored. rewrite in_flat_map. split.
  - intros (r & Hr & Hin).
    destruct (String.eqb_spec (rel_type r) "AUTHORED") as [Et | _];
      [| destruct Hin].
    destruct (Z.eqb_spec (endNodeIdentity r) (identity s)) as [Ee | _];
      [| destruct Hin].
    cbn [andb] in Hin. apply filter_In in Hin. destruct Hin as [Hin Hu].
    unfold nodesWithIdentity in Hin. apply filter_In in Hin.
    destruct Hin as [Hn Hid]. apply Z.eqb_eq in Hid.
    split; [assumption |]. split; [assumption |].
    exists r. auto.
  - intros (Hn & Hu & r & Hr & Et & Es & Ee). exists r. split; [assumption |].
    rewrite Et, Ee, Z.eqb_refl. cbn [String.eqb andb].
    change ("AUTHORED" =? "AUTHORED") with true. cbv iota.
    apply filter_In. split; [| assumption].
    unfold nodesWithIdentity. apply filter_In. split; [assumption |].
    apply Z.eqb_eq. congruence.
Qed.

Lemma in_authoredRows (stories : list Node) (s a : Node) :
  In (s, a) (authoredRows G stories)
  <-> In s stories /\ authored G a s.
Proof.
  unfold authoredRows. rewrite in_flat_map. split.
  - intros (s' & Hs & Hin). apply in_map_iff in Hin.
    destruct Hin as (a' & Heq & Ha). injection Heq as -> ->.
    split; [assumption | apply in_authorsOfNode; assumption].
  - intros [Hs Ha]. exists s. split; [assumption |].
    apply in_map. apply in_authorsOfNode. assumption.
Qed.

Lemma in_authorsOf (id : value) (a : Node) :
  In a (StoryController.authorsOf G id)
  <-> exists s, In s (matchNodes G "Story" id) /\ authored G a s.
Proof.
  unfold StoryController.authorsOf, authored. rewrite in_flat_map. split.
  - intros (r & Hr & Hin).
    destruct (String.eqb_spec (rel_type r) "AUTHORED") as [Et | _];
      [| destruct Hin].
    apply in_flat_map in Hin. destruct Hin as (a' & Ha & Hin).
    apply in_map_iff in Hin. destruct Hin as (s & -> & Hs).
    apply filter_In in Hs. destruct Hs as [Hs Hid]. apply Z.eqb_eq in Hid.
    apply filter_In in Ha. destruct Ha as [Ha Hu].
    unfold nodesWithIdentity in Ha. apply filter_In in Ha.
    destruct Ha as [Hn Hida]. apply Z.eqb_eq in Hida.
    exists s. split; [assumption |]. split; [assumption |].
    split; [assumption |]. exists r. auto.
  - intros (s & Hs & Hn & Hu & r & Hr & Et & Es & Ee). exists r.
    split; [assumption |]. rewrite Et.
    change ("AUTHORED" =? "AUTHORED") with true. cbv iota.
    apply in_flat_map. exists a. split.
    + apply filter_In. split; [| assumption].
      unfold nodesWithIdentity. apply filter_In. split; [assumption |].
      apply Z.eqb_eq. congruence.
    + apply in_map_iff. exists s. split; [reflexivity |].
      apply filter_In. split; [assumption |]. apply Z.eqb_eq. congruence.
Qed.

(** The join of getStoryById finds nothing exactly when the story has no
    author. *)
Lemma authoredRows_none (id : value) :
  authoredRows G (matchNodes G "Story" id) = []
  <-> StoryController.authorsOf G id = [].
Proof.
  rewrite !nil_iff. split.
  - intros H a Ha. apply in_authorsOf in Ha. destruct Ha as (s & Hs & Ha).
    apply (H (s, a)). apply in_authoredRows. auto.
  - intros H [s a] Hin. apply in_authoredRows in Hin. destruct Hin as [Hs Ha].
    apply (H a). apply in_authorsOf. exists s. auto.
Qed.

Lemma distinctRows_incl (l : list (Node * Node)) :
  forall seen, incl (distinctRows seen l) l.
Proof.
  induction l as [| x l IH]; intros seen y Hy; cbn in *; [assumption |].
  destruct (existsb (sameRow x) seen).
  - right. eapply IH; eassumption.
  - destruct Hy as [-> | Hy]; [left; reflexivity | right; eapply IH; eassumption].
Qed.

Lemma distinctRows_nil (l : list (Node * Node)) :
  distinctRows [] l = [] <-> l = [].
Proof.
  destruct l as [| x l]; cbn; [tauto |]. split; discriminate.
Qed.

End Rows.

Section WithRandom.

Variable random36 : nat -> string.

Lemma convertNode_get (n : Node) (j : nat) (key : string) :
  key <> "id" -> key <> "labels" ->
  get (fst (Neo4jService.convertNode random36 n j)) key
  = get (VObj (properties n)) key.
Proof.
  intros H1 H2. unfold Neo4jService.convertNode, bind, ret.
  destruct (Neo4jService.identityOrRandom random36 "node-" (identity n) j)
    as [id j1]. cbn [fst]. unfold objLit, get.
  rewrite assign_app, lookup_assign
    by (repeat constructor; cbn; intuition discriminate).
  cbn [lookup].
  destruct (String.eqb_spec "id" key) as [E | _]; [congruence |].
  destruct (String.eqb_spec "labels" key) as [E | _]; [congruence |].
  cbn [spread]. rewrite lookup_assign by apply firstBindings_NoDup.
  rewrite lookup_firstBindings. cbn [existsb lookup].
  destruct (lookup key (properties n)); reflexivity.
Qed.

Lemma convertNode_get_id (n : Node) (j : nat) :
  identity n <> 0%Z ->
  get (fst (Neo4jService.convertNode random36 n j)) "id"
  = VStr (numToString (identity n)).
Proof.
  intro Hz. unfold Neo4jService.convertNode, bind, ret,
    Neo4jService.identityOrRandom.
  assert (Ht : truthy (VNum (identity n)) = true).
  { cbn. destruct (Z.eqb_spec (identity n) 0); [contradiction | reflexivity]. }
  rewrite Ht. cbn [fst ret].
  apply (get_objLit_after "id" _ (properties n) []
           [("labels", VArr (map VStr (labels n)))]).
  repeat constructor; cbn; intuition discriminate.
Qed.

Lemma shares_formatted (G : Graph) (s : Node) :
  map formatShare
      (filter (fun share => truthy (and_then (get share "sharer")
                                             (get share "shared")))
              (shareItems G s))
  = map (fun _ => blankShare)
        (distinctBy (fun share => rel_identity (snd share)) [] (sharesOf G s)).
Proof.
  unfold shareItems. destruct (sharesOf G s) as [| x l]; [reflexivity |].
  induction (distinctBy (fun share => rel_identity (snd share)) [] (x :: l))
    as [| y ys IH]; [reflexivity |].
  cbn [map filter].
  change (truthy (and_then (get (shareItem y) "sharer")
                           (get (shareItem y) "shared"))) with true.
  cbv iota. cbn [map]. rewrite IH. reflexivity.
Qed.

Lemma story_fields (s a sh : value) :
  get (VObj [("s", s); ("author", a); ("shares", sh)]) "s" = s
  /\ get (VObj [("s", s); ("author", a); ("shares", sh)]) "author" = a
  /\ get (VObj [("s", s); ("author", a); ("shares", sh)]) "shares" = sh.
Proof. repeat split; reflexivity. Qed.

(** What getStoryById answers. *)
Lemma getStoryById_eval (G : Graph) (id : string) (k : nat) :
  exists j,
    fst (getStoryById random36 G id k)
    = match distinctRows [] (authoredRows G (matchNodes G "Story" (VStr id))) with
      | [] => Err (notFound ("Story with ID " ++ id ++ " not found"))
      | row :: _ =>
          let s := fst (Neo4jService.convertNode random36 (fst row) k) in
          let author := fst (Neo4jService.convertNode random36 (snd row) j) in
          Ok (VObj [("id", get s "id");
                    ("title", get s "title");
                    ("content", get s "content");
                    ("createdAt", get s "createdAt");
                    ("author", VObj [("id", get author "id");
                                     ("name", get author "name")]);
                    ("shares",
                     VArr (map (fun _ => blankShare)
                             (distinctBy (fun share => rel_identity (snd share))
                                         [] (sharesOf G (fst row)))))])
      end.
Proof.
  unfold getStoryById, bind.
  destruct (distinctRows [] (authoredRows G (matchNodes G "Story" (VStr id))))
    as [| row rest]; [exists k; reflexivity |].
  cbn [mapM]. unfold bind, ret. unfold storyRecord at 1. unfold bind, ret.
  pose proof (ConnectionFacts.convertNode_object random36 (fst row) k) as Ht.
  destruct (Neo4jService.convertNode random36 (fst row) k) as [s k1].
  exists k1.
  destruct (Neo4jService.convertNode random36 (snd row) k1) as [author k2].
  destruct (mapM (storyRecord random36 G) rest k2) as [recs k3].
  cbn [fst Neo4jService.firstRecord truthy negb orb] in *.
  destruct (story_fields s author (VArr (shareItems G (fst row))))
    as (-> & -> & ->).
  rewrite Ht. cbn [negb DataService.arrayItems].
  rewrite shares_formatted. reflexivity.
Qed.

(** X16.  getStoryById joins the story to its authors: it answers 404
    "Story with ID ... not found" exactly when no User has an AUTHORED
    relationship to a story with that id, so a story without author is
    reported as missing.  When it answers, the [id] of the response is the
    store identity of the story node in decimal (not the id asked for),
    title and content are the node's properties, the author is a User with
    an AUTHORED relationship to it, and [shares] holds one entry per SHARED
    relationship from a User to the story; each entry is
    [{user: {id: undefined, name: undefined}, timestamp: undefined}], since
    the items collected in the query reach the controller unconverted. *)
Theorem X16_getStoryById (G : Graph) (id : string) (k : nat) :
  (fst (getStoryById random36 G id k)
   = Err (notFound ("Story with ID " ++ id ++ " not found"))
   <-> StoryController.authorsOf G (VStr id) = [])
  /\ (forall resp,
        fst (getStoryById random36 G id k) = Ok resp ->
        exists s a j,
          In s (matchNodes G "Story" (VStr id)) /\ authored G a s
          /\ (identity s <> 0%Z ->
              get resp "id" = VStr (numToString (identity s)))
          /\ get resp "title" = get (VObj (properties s)) "title"
          /\ get resp "content" = get (VObj (properties s)) "content"
          /\ get (get resp "author") "name"
             = get (VObj (properties a)) "name"
          /\ get (get resp "author") "id"
             = get (fst (Neo4jService.convertNode random36 a j)) "id"
          /\ get resp "shares"
             = VArr (map (fun _ => blankShare)
                       (distinctBy (fun share => rel_identity (snd share)) []
                                   (sharesOf G s)))).
Proof.
  destruct (getStoryById_eval G id k) as [j ->].
  split.
  - rewrite <- authoredRows_none, <- distinctRows_nil.
    destruct (distinctRows [] _) as [| row rest]; split; intro H;
      try reflexivity; discriminate H.
  - intros resp H.
    destruct (distinctRows [] (authoredRows G (matchNodes G "Story" (VStr id))))
      as [| [s a] rest] eqn:Er; [discriminate H |].
    assert (Hin : In (s, a) (authoredRows G (matchNodes G "Story" (VStr id)))).
    { apply (distinctRows_incl _ []). rewrite Er. left. reflexivity. }
    apply in_authoredRows in Hin. destruct Hin as [Hs Ha].
    cbn [fst snd] in H. injection H as <-.
    exists s, a, j. split; [assumption |]. split; [assumption |].
    split; [intro Hz; apply (convertNode_get_id s k Hz) |].
    split; [apply convertNode_get; discriminate |].
    split; [apply convertNode_get; discriminate |].
    split; [apply (convertNode_get a j "name"); discriminate |].
    split; reflexivity.
Qed.

End WithRandom.

(** *** The listing *)

Section Listing.

Variable random36 : nat -> string.
Variable newestFirst : list (Node * Node) -> list (Node * Node).














End Listing.



Lemma X16_getStoryById_witness :
  exists resp,
    fst (getStoryById noRandom sharedTaleGraph "s" 0%nat) = Ok resp
    /\ get resp "id" = VStr "3"
    /\ get resp "shares" = VArr [blankShare; blankShare].
Proof.
  pose (resp := match fst (getStoryById noRandom sharedTaleGraph "s" 0%nat) with
                | Ok r => r
                | Err _ => VUndef
                end).
  destruct (proj2 (X16_getStoryById noRandom sharedTaleGraph "s" 0%nat) resp)
    as (s & a & j & _);
    [vm_compute; reflexivity |].
  exists resp. split; [vm_compute; reflexivity |].
  split; vm_compute; reflexivity.
Defined.

End StoryReadFacts.

(* ================================================================== *)
(** ** Errors and the error handler *)
(* ================================================================== *)

Module ErrorFacts.

Import ObjectFacts SearchFacts PathFacts ShareFacts.

Lemma plain_badRequest (m : string) : m <> "" -> plainError (badRequest m).
Proof. intro H. split; [left; reflexivity | exact H]. Qed.

Lemma plain_notFound (m : string) : m <> "" -> plainError (notFound m).
Proof. intro H. split; [right; left; reflexivity | exact H]. Qed.

Lemma plain_databaseError (m : string) :
  plainError (Neo4jService.databaseError m).
Proof. split; [right; right; reflexivity | discriminate]. Qed.

Lemma plain_500 (m : string) : m <> "" -> plainError (mkApiError m 500).
Proof. intro H. split; [right; right; reflexivity | exact H]. Qed.

Ltac plain :=
  first [ apply plain_databaseError
        | apply plain_badRequest; discriminate
        | apply plain_notFound; discriminate
        | apply plain_500; discriminate ].

(** X19.  The error handler.  An error with a non-zero status and a
    non-empty message is answered with that status, both as the HTTP
    status and in the body, and with that message; outside development
    mode the body holds nothing else, in development mode the stack trace
    as well.  The five constructors of ApiError fix the status (400, 404,
    500, 403, 401) and replace a missing or empty message by their default
    text, so that the handler's own defaults (500, 'Internal Server
    Error') apply to them only when the text of a non-empty message value
    is empty. *)
Theorem X19_errorHandler (e : ApiError) (stack message : value) :
  (statusCode e <> 0%Z -> err_message e <> "" ->
   ErrorHandler.errorHandler false (ErrorHandler.thrown e stack)
   = ErrorHandler.mkResponse (VNum (statusCode e))
       (errorBody (err_message e) (statusCode e))
   /\ ErrorHandler.status
        (ErrorHandler.errorHandler true (ErrorHandler.thrown e stack))
      = VNum (statusCode e)
   /\ get (get (ErrorHandler.body
                  (ErrorHandler.errorHandler true (ErrorHandler.thrown e stack)))
               "error") "stack" = stack)
  /\ statusCode (ErrorHandler.badRequest message) = 400%Z
  /\ statusCode (ErrorHandler.notFound message) = 404%Z
  /\ statusCode (ErrorHandler.internalServer message) = 500%Z
  /\ statusCode (ErrorHandler.forbidden message) = 403%Z
  /\ statusCode (ErrorHandler.unauthorized message) = 401%Z
  /\ (truthy message = false ->
      err_message (ErrorHandler.badRequest message) = "Bad Request"
      /\ err_message (ErrorHandler.notFound message) = "Resource Not Found"
      /\ err_message (ErrorHandler.internalServer message)
         = "Internal Server Error"
      /\ err_message (ErrorHandler.forbidden message) = "Forbidden"
      /\ err_message (ErrorHandler.unauthorized message) = "Unauthorized")
  /\ (forall s, message = VStr s -> s <> "" ->
      err_message (ErrorHandler.badRequest message) = s
      /\ err_message (ErrorHandler.notFound message) = s
      /\ err_message (ErrorHandler.internalServer message) = s
      /\ err_message (ErrorHandler.forbidden message) = s
      /\ err_message (ErrorHandler.unauthorized message) = s).
Proof.
  split; [| repeat split; try reflexivity].
  - intros Hs Hm.
    assert (Ht : truthy (VNum (statusCode e)) = true).
    { cbn. destruct (Z.eqb_spec (statusCode e) 0); [contradiction | reflexivity]. }
    assert (Hn : truthy (VStr (err_message e)) = true).
    { cbn. destruct (String.eqb_spec (err_message e) ""); [contradiction |].
      reflexivity. }
    unfold ErrorHandler.errorHandler, ErrorHandler.thrown.
    change (get (VObj [("message", VStr (err_message e));
                       ("statusCode", VNum (statusCode e));
                       ("name", VStr "ApiError"); ("stack", stack)])
                "statusCode") with (VNum (statusCode e)).
    change (get (VObj [("message", VStr (err_message e));
                       ("statusCode", VNum (statusCode e));
                       ("name", VStr "ApiError"); ("stack", stack)])
                "message") with (VStr (err_message e)).
    change (get (VObj [("message", VStr (err_message e));
                       ("statusCode", VNum (statusCode e));
                       ("name", VStr "ApiError"); ("stack", stack)])
                "stack") with stack.
    unfold or_else. rewrite Ht, Hn.
    split; [reflexivity |]. split; reflexivity.
  - unfold ErrorHandler.badRequest, or_else. rewrite H. reflexivity.
  - unfold ErrorHandler.notFound, or_else. rewrite H. reflexivity.
  - unfold ErrorHandler.internalServer, or_else. rewrite H. reflexivity.
  - unfold ErrorHandler.forbidden, or_else. rewrite H. reflexivity.
  - unfold ErrorHandler.unauthorized, or_else. rewrite H. reflexivity.
  - subst message. unfold ErrorHandler.badRequest, or_else. cbn [truthy].
    destruct (String.eqb_spec s ""); [contradiction | reflexivity].
  - subst message. unfold ErrorHandler.notFound, or_else. cbn [truthy].
    destruct (String.eqb_spec s ""); [contradiction | reflexivity].
  - subst message. unfold ErrorHandler.internalServer, or_else. cbn [truthy].
    destruct (String.eqb_spec s ""); [contradiction | reflexivity].
  - subst message. unfold ErrorHandler.forbidden, or_else. cbn [truthy].
    destruct (String.eqb_spec s ""); [contradiction | reflexivity].
  - subst message. unfold ErrorHandler.unauthorized, or_else. cbn [truthy].
    destruct (String.eqb_spec s ""); [contradiction | reflexivity].
Qed.

Lemma X19_errorHandler_witness :
  ErrorHandler.errorHandler false
    (ErrorHandler.thrown (ErrorHandler.notFound (VStr "Story with ID 7 not found"))
                         (VStr "trace"))
  = ErrorHandler.mkResponse (VNum 404)
      (errorBody "Story with ID 7 not found" 404)
  /\ err_message (ErrorHandler.forbidden VUndef) = "Forbidden".
Proof.
  destruct (X19_errorHandler
              (ErrorHandler.notFound (VStr "Story with ID 7 not found"))
              (VStr "trace") VUndef) as (H & _ & _ & _ & _ & _ & Hd & _).
  split.
  - apply H; [cbn; lia | discriminate].
  - apply Hd. reflexivity.
Defined.

(** *** The errors of the endpoints *)

Section Endpoints.

Variable random36 : nat -> string.
Variable newestFirst : list (Node * Node) -> list (Node * Node).

Ltac thrown :=
  let H := fresh "H" in cbn; intro H; injection H as <-; plain.










End Endpoints.


End ErrorFacts.

(* ================================================================== *)
(** ** Initialization with sample data *)
(* ================================================================== *)

Module InitFacts.

Import WriteFacts ShareMoreFacts.

(** *** What one write does to the counts *)

Lemma matchLabel_nodes (G G' : Graph) (n : list Node) (label : string) :
  nodes G' = nodes G ++ n ->
  matchLabel G' label = matchLabel G label ++ filter (hasLabel label) n.
Proof. unfold matchLabel. intros ->. apply filter_app. Qed.

Lemma knowsIn_rels (G G' : Graph) (new : list Relationship) :
  rels G' = rels G ++ new ->
  knowsIn G'
  = (knowsIn G
     + List.length (filter (fun r => (rel_type r =? "KNOWS")%string) new))%nat.
Proof. unfold knowsIn. intros ->. rewrite filter_app, length_app. reflexivity. Qed.

Lemma uniqueIds_nodes (G G' : Graph) :
  nodes G' = nodes G -> uniqueIds G "User" -> uniqueIds G' "User".
Proof.
  intros Hn Hu p. rewrite (matchNodes_nodes G G' "User" p Hn). apply Hu.
Qed.

Lemma grownFrom_refl (G : Graph) : grownFrom G G.
Proof. split; exists []; rewrite app_nil_r; reflexivity. Qed.

Lemma grownFrom_trans (G G1 G2 : Graph) (n : list Node) (r : list Relationship) :
  grownFrom G G1 -> nodes G2 = nodes G1 ++ n -> rels G2 = rels G1 ++ r ->
  grownFrom G G2.
Proof.
  intros [[n1 Hn1] [r1 Hr1]] Hn Hr. split.
  - exists (n1 ++ n). rewrite Hn, Hn1, app_assoc. reflexivity.
  - exists (r1 ++ r). rewrite Hr, Hr1, app_assoc. reflexivity.
Qed.

Lemma createUser_step (G G' : Graph) (now : value) (user : GraphWrites.UserData) :
  GraphWrites.createUser G now user = Rows G' ->
  exists n,
    nodes G' = nodes G ++ [n] /\ labels n = ["User"] /\ rels G' = rels G
    /\ (uniqueIds G "User" -> uniqueIds G' "User").
Proof.
  unfold GraphWrites.createUser.
  destruct (matchNodes G "User" (VStr (GraphWrites.user_id user))) eqn:E;
    [| discriminate].
  intro H. injection H as <-. eexists.
  split; [reflexivity |]. split; [reflexivity |]. split; [reflexivity |].
  intros Hu p. rewrite matchNodes_addNode. cbn [labels properties].
  destruct (hasLabel "User" _ && is_true (cy_eq (prop _ "id") p)) eqn:Ec.
  - apply andb_true_iff in Ec. destruct Ec as [_ Ec].
    rewrite prop_id_first in Ec. apply cy_eq_str in Ec. subst p.
    rewrite E. cbn. lia.
  - rewrite app_nil_r. apply Hu.
Qed.

Lemma fold_addRel {A : Type} (mk : Graph -> A -> Relationship) (t : string)
  (l : list A) :
  (forall g x, rel_type (mk g x) = t) ->
  forall G0,
  exists new,
    nodes (fold_left (fun g x => addRel g (mk g x)) l G0) = nodes G0
    /\ rels (fold_left (fun g x => addRel g (mk g x)) l G0) = rels G0 ++ new
    /\ List.length new = List.length l
    /\ (forall r, In r new -> rel_type r = t).
Proof.
  intro Ht. induction l as [| x l IH]; intro G0; cbn [fold_left].
  - exists []. rewrite app_nil_r. repeat split. intros r [].
  - destruct (IH (addRel G0 (mk G0 x))) as (new & Hn & Hr & Hl & Hall).
    exists (mk G0 x :: new). cbn [addRel nodes rels] in *.
    split; [assumption |]. split; [rewrite Hr, <- app_assoc; reflexivity |].
    split; [cbn; lia |].
    intros r [<- | Hin]; [apply Ht | apply Hall; assumption].
Qed.

Lemma createStory_step (G G' : Graph) (now : value)
  (story : GraphWrites.StoryData) :
  GraphWrites.createStory G now story = Rows G' ->
  exists s new,
    nodes G' = nodes G ++ [s] /\ labels s = ["Story"]
    /\ rels G' = rels G ++ new
    /\ (forall r, In r new -> rel_type r = "AUTHORED").
Proof.
  unfold GraphWrites.createStory.
  destruct (matchNodes G "Story" (VStr (GraphWrites.story_id story)));
    [| discriminate].
  intro H. injection H as <-.
  set (s := GraphWrites.storyNode G now story).
  destruct (fold_addRel (fun g author => GraphWrites.authoredRel g author s)
              "AUTHORED"
              (matchNodes (GraphWrites.addNode G s) "User"
                 (VStr (GraphWrites.story_authorId story)))
              (fun _ _ => eq_refl) (GraphWrites.addNode G s))
    as (new & Hn & Hr & _ & Hall).
  exists s, new. rewrite Hn, Hr. repeat split. assumption.
Qed.

Lemma filter_le {A : Type} (f : A -> bool) (l : list A) :
  (List.length (filter f l) <= List.length l)%nat.
Proof.
  induction l as [| x l IH]; cbn; [lia |]. destruct (f x); cbn; lia.
Qed.

Lemma createConnection_step (G : Graph) (now a b : value) (t : string) :
  uniqueIds G "User" ->
  exists new,
    nodes (GraphWrites.createConnection G now a b t) = nodes G
    /\ rels (GraphWrites.createConnection G now a b t) = rels G ++ new
    /\ (List.length new <= 1)%nat.
Proof.
  intro Hu. unfold GraphWrites.createConnection.
  destruct (fold_addRel
              (fun g row => GraphWrites.connectionRel g now t (fst row) (snd row))
              t (GraphWrites.connectionRows G a b) (fun _ _ => eq_refl) G)
    as (new & Hn & Hr & Hl & _).
  exists new. split; [assumption |]. split; [assumption |].
  rewrite Hl. unfold GraphWrites.connectionRows.
  etransitivity; [apply filter_le |]. rewrite length_prod.
  pose proof (Hu a). pose proof (Hu b). nia.
Qed.

Lemma shareStory_step (G : Graph) (now storyId senderId receiverId : value) :
  exists new,
    nodes (Neo4jService.shareStory G now storyId senderId receiverId) = nodes G
    /\ rels (Neo4jService.shareStory G now storyId senderId receiverId)
       = rels G ++ new
    /\ filter (fun r => rel_type r =? "KNOWS") new = [].
Proof.
  destruct (shareStory_extends G now storyId senderId receiverId)
    as (new & (Hn & Hr & _) & Hall).
  exists new. split; [assumption |]. split; [assumption |].
  apply GetPathFacts.filter_nil. intros r Hin.
  destruct (Hall r Hin) as [[Ht _] | [Ht _]]; rewrite Ht; reflexivity.
Qed.

(** *** The three loops *)

Lemma fold_invariant {S A : Type} (P : S -> Prop) (f : S -> A -> S)
  (l : list A) :
  (forall s x, P s -> P (f s x)) -> forall s, P s -> P (fold_left f l s).
Proof.
  intro Hf. induction l as [| x l IH]; intros s Hs; [exact Hs |].
  cbn [fold_left]. apply IH, Hf, Hs.
Qed.

Section Loops.

Variable uuidv4 : nat -> string.
Variable now : nat -> value.
Variable toLowerCase : string -> string.
Variable shuffle : nat -> list Initialization.Entry -> list Initialization.Entry.
Variable G0 : Graph.

Lemma accounted_start :
  uniqueIds G0 "User" ->
  accounted G0 (Initialization.mkState G0 (Initialization.mkSummary 0 0 0) 0 0).
Proof.
  intro Hu. unfold accounted. cbn.
  split; [assumption |]. split; [apply grownFrom_refl |].
  repeat split; lia.
Qed.

Lemma createCharacter_accounted (acc : Initialization.State * list Initialization.Entry)
  (c : Initialization.Character) :
  accounted G0 (fst acc) ->
  accounted G0 (fst (Initialization.createCharacter uuidv4 now acc c)).
Proof.
  destruct acc as [st entries]. cbn [fst]. intro H.
  unfold Initialization.createCharacter.
  destruct (negb (truthy (VStr (Initialization.name c)))); [exact H |].
  destruct (GraphWrites.createUser _ _ _) as [G' | m] eqn:E; cbn [fst];
    [| exact H].
  destruct (createUser_step _ _ _ _ E) as (n & Hn & Hl & Hr & Hu).
  destruct H as (U & Gr & Cu & Cs & Ck). unfold accounted.
  cbn [Initialization.store Initialization.summary Initialization.countCharacter
       Initialization.characters Initialization.stories
       Initialization.relationships].
  assert (Hr' : rels G' = rels (Initialization.store st) ++ [])
    by (rewrite app_nil_r; assumption).
  split; [apply Hu, U |]. split; [apply (grownFrom_trans _ _ _ _ _ Gr Hn Hr') |].
  split; [| split].
  - unfold usersIn in *. rewrite (matchLabel_nodes _ _ _ "User" Hn), length_app.
    cbn [filter]. unfold hasLabel. rewrite Hl. cbn. lia.
  - unfold storiesIn in *. rewrite (matchLabel_nodes _ _ _ "Story" Hn), length_app.
    cbn [filter]. unfold hasLabel. rewrite Hl. cbn. lia.
  - rewrite (knowsIn_rels _ _ _ Hr'). cbn. lia.
Qed.

Lemma createCharacter_counts (acc : Initialization.State * list Initialization.Entry)
  (c : Initialization.Character) :
  let s := Initialization.summary (fst acc) in
  let s' := Initialization.summary
              (fst (Initialization.createCharacter uuidv4 now acc c)) in
  (Initialization.characters s'
   <= Initialization.characters s
      + (if truthy (VStr (Initialization.name c)) then 1 else 0))%nat
  /\ Initialization.relationships s' = Initialization.relationships s
  /\ Initialization.stories s' = Initialization.stories s.
Proof.
  destruct acc as [st entries]. cbn [fst].
  unfold Initialization.createCharacter.
  destruct (truthy (VStr (Initialization.name c))); cbn [negb fst];
    [| repeat split; lia].
  destruct (GraphWrites.createUser _ _ _); cbn; repeat split; lia.
Qed.

Lemma firstLoop_counts (wot : list Initialization.Character) :
  forall acc,
  let s := Initialization.summary (fst acc) in
  let s' := Initialization.summary
              (fst (fold_left (Initialization.createCharacter uuidv4 now) wot acc)) in
  (Initialization.characters s' <= Initialization.characters s + named wot)%nat
  /\ Initialization.relationships s' = Initialization.relationships s
  /\ Initialization.stories s' = Initialization.stories s.
Proof.
  induction wot as [| c wot IH]; intro acc; cbn [fold_left].
  - cbn. repeat split; lia.
  - destruct (IH (Initialization.createCharacter uuidv4 now acc c))
      as (H1 & H2 & H3).
    destruct (createCharacter_counts acc c) as (C1 & C2 & C3).
    cbn zeta in *. unfold named in *. cbn [filter].
    destruct (truthy (VStr (Initialization.name c))); cbn [List.length];
      repeat split; lia || congruence.
Qed.

Lemma connect_accounted (entries : list Initialization.Entry) (cid : string)
  (st : Initialization.State) (association : string) :
  accounted G0 st ->
  accounted G0 (Initialization.connect now toLowerCase entries cid st association).
Proof.
  intro H. unfold Initialization.connect.
  destruct (negb (truthy (VStr association))); [exact H |].
  destruct (Initialization.associated toLowerCase entries association) as [a |];
    [| exact H].
  destruct (negb (Initialization.hasId a)); [exact H |].
  destruct H as (U & Gr & Cu & Cs & Ck).
  destruct (createConnection_step (Initialization.store st)
              (now (Initialization.queries st)) (VStr cid)
              (VStr (Initialization.idOf a)) "KNOWS" U)
    as (new & Hn & Hr & Hl).
  unfold accounted.
  cbn [Initialization.store Initialization.summary
       Initialization.countRelationship Initialization.characters
       Initialization.stories Initialization.relationships].
  assert (Hn' : nodes (GraphWrites.createConnection (Initialization.store st)
                         (now (Initialization.queries st)) (VStr cid)
                         (VStr (Initialization.idOf a)) "KNOWS")
                = nodes (Initialization.store st) ++ [])
    by (rewrite app_nil_r; assumption).
  split; [apply (uniqueIds_nodes _ _ Hn U) |].
  split; [apply (grownFrom_trans _ _ _ _ _ Gr Hn' Hr) |].
  split; [| split].
  - unfold usersIn in *. unfold matchLabel in *. rewrite Hn. assumption.
  - unfold storiesIn in *. unfold matchLabel in *. rewrite Hn. assumption.
  - rewrite (knowsIn_rels _ _ _ Hr).
    pose proof (filter_le (fun r => rel_type r =? "KNOWS") new). lia.
Qed.

Lemma connect_counts (entries : list Initialization.Entry) (cid : string)
  (st : Initialization.State) (association : string) :
  let s := Initialization.summary st in
  let s' := Initialization.summary
              (Initialization.connect now toLowerCase entries cid st association) in
  Initialization.characters s' = Initialization.characters s
  /\ Initialization.stories s' = Initialization.stories s.
Proof.
  unfold Initialization.connect.
  destruct (negb (truthy (VStr association))); [split; reflexivity |].
  destruct (Initialization.associated toLowerCase entries association) as [a |];
    [| split; reflexivity].
  destruct (negb (Initialization.hasId a)); split; reflexivity.
Qed.

Lemma connectCharacter_accounted (entries : list Initialization.Entry)
  (st : Initialization.State) (e : Initialization.Entry) :
  accounted G0 st ->
  accounted G0 (Initialization.connectCharacter now toLowerCase entries st e).
Proof.
  intro H. unfold Initialization.connectCharacter.
  destruct (negb (Initialization.hasId e)); [exact H |].
  apply fold_invariant; [| exact H].
  intros s x. apply connect_accounted.
Qed.

Lemma connectCharacter_counts (entries : list Initialization.Entry)
  (st : Initialization.State) (e : Initialization.Entry) :
  let s := Initialization.summary st in
  let s' := Initialization.summary
              (Initialization.connectCharacter now toLowerCase entries st e) in
  Initialization.characters s' = Initialization.characters s
  /\ Initialization.stories s' = Initialization.stories s.
Proof.
  unfold Initialization.connectCharacter.
  destruct (negb (Initialization.hasId e)); [split; reflexivity |].
  apply (fold_invariant
           (fun st' =>
              Initialization.characters (Initialization.summary st')
              = Initialization.characters (Initialization.summary st)
              /\ Initialization.stories (Initialization.summary st')
                 = Initialization.stories (Initialization.summary st)));
    [| split; reflexivity].
  intros s x [H1 H2].
  destruct (connect_counts entries (Initialization.idOf e) s x) as [C1 C2].
  cbn zeta in *. split; congruence.
Qed.

Lemma share_accounted (storyId authorId : string) (st : Initialization.State)
  (recipient : Initialization.Entry) :
  accounted G0 st ->
  accounted G0 (Initialization.share now storyId authorId st recipient).
Proof.
  intro H. unfold Initialization.share.
  destruct (Initialization.hasId recipient); [| exact H].
  destruct H as (U & Gr & Cu & Cs & Ck).
  destruct (shareStory_step (Initialization.store st)
              (now (Initialization.queries st)) (VStr storyId) (VStr authorId)
              (VStr (Initialization.idOf recipient)))
    as (new & Hn & Hr & Hk).
  unfold accounted. cbn [Initialization.store Initialization.summary].
  assert (Hn' : nodes (Neo4jService.shareStory (Initialization.store st)
                         (now (Initialization.queries st)) (VStr storyId)
                         (VStr authorId) (VStr (Initialization.idOf recipient)))
                = nodes (Initialization.store st) ++ [])
    by (rewrite app_nil_r; assumption).
  split; [apply (uniqueIds_nodes _ _ Hn U) |].
  split; [apply (grownFrom_trans _ _ _ _ _ Gr Hn' Hr) |].
  split; [| split].
  - unfold usersIn in *. unfold matchLabel in *. rewrite Hn. assumption.
  - unfold storiesIn in *. unfold matchLabel in *. rewrite Hn. assumption.
  - rewrite (knowsIn_rels _ _ _ Hr), Hk. cbn. lia.
Qed.

Lemma share_summary (storyId authorId : string) (st : Initialization.State)
  (recipient : Initialization.Entry) :
  Initialization.summary (Initialization.share now storyId authorId st recipient)
  = Initialization.summary st.
Proof.
  unfold Initialization.share. destruct (Initialization.hasId recipient);
    reflexivity.
Qed.

Lemma createSampleStory_accounted (entries authors : list Initialization.Entry)
  (st : Initialization.State) (it : nat * string) :
  accounted G0 st ->
  accounted G0 (Initialization.createSampleStory uuidv4 now shuffle entries
                  authors st it).
Proof.
  intro H. unfold Initialization.createSampleStory. destruct it as [i title].
  destruct (nth_error authors (i mod List.length authors)) as [author |];
    [| exact H].
  destruct (negb (Initialization.hasId author)); [exact H |].
  destruct (GraphWrites.createStory _ _ _) as [G' | m] eqn:E; [| exact H].
  apply fold_invariant; [intros s x; apply share_accounted |].
  destruct (createStory_step _ _ _ _ E) as (s & new & Hn & Hl & Hr & Hall).
  destruct H as (U & Gr & Cu & Cs & Ck). unfold accounted.
  cbn [Initialization.store Initialization.summary Initialization.countStory
       Initialization.characters Initialization.stories
       Initialization.relationships].
  split; [| split; [apply (grownFrom_trans _ _ _ _ _ Gr Hn Hr) | split; [| split]]].
  - intro p. unfold matchNodes. rewrite Hn, filter_app. cbn [filter].
    unfold hasLabel at 2. rewrite Hl. cbn [existsb String.eqb].
    change ("User" =? "Story") with false. cbn [orb andb].
    rewrite app_nil_r. apply U.
  - unfold usersIn in *. rewrite (matchLabel_nodes _ _ _ "User" Hn), length_app.
    cbn [filter]. unfold hasLabel. rewrite Hl. cbn. lia.
  - unfold storiesIn in *. rewrite (matchLabel_nodes _ _ _ "Story" Hn), length_app.
    cbn [filter]. unfold hasLabel. rewrite Hl. cbn. lia.
  - rewrite (knowsIn_rels _ _ _ Hr).
    rewrite (GetPathFacts.filter_nil _ new); [cbn; lia |].
    intros r Hin. rewrite (Hall r Hin). reflexivity.
Qed.

Lemma createSampleStory_counts (entries authors : list Initialization.Entry)
  (st : Initialization.State) (it : nat * string) :
  let s := Initialization.summary st in
  let s' := Initialization.summary
              (Initialization.createSampleStory uuidv4 now shuffle entries
                 authors st it) in
  Initialization.characters s' = Initialization.characters s
  /\ (Initialization.stories s' <= S (Initialization.stories s))%nat.
Proof.
  unfold Initialization.createSampleStory. destruct it as [i title].
  destruct (nth_error authors (i mod List.length authors)) as [author |];
    [| cbn; split; [reflexivity | lia]].
  destruct (negb (Initialization.hasId author)); [cbn; split; [reflexivity | lia] |].
  destruct (GraphWrites.createStory _ _ _) as [G' | m];
    [| cbn; split; [reflexivity | lia]].
  match goal with
  | |- context [fold_left ?f ?l ?s0] =>
      assert (Hs : Initialization.summary (fold_left f l s0)
                   = Initialization.summary s0)
  end.
  { apply (fold_invariant
             (fun st' => Initialization.summary st'
                         = Initialization.countStory (Initialization.summary st)));
      [| reflexivity].
    intros s x Hx. rewrite share_summary. assumption. }
  cbn zeta. rewrite Hs. cbn. split; [reflexivity | lia].
Qed.

Lemma thirdLoop_counts (entries authors : list Initialization.Entry)
  (its : list (nat * string)) :
  forall st,
  let s := Initialization.summary st in
  let s' := Initialization.summary
              (fold_left (Initialization.createSampleStory uuidv4 now shuffle
                            entries authors) its st) in
  Initialization.characters s' = Initialization.characters s
  /\ (Initialization.stories s'
      <= Initialization.stories s + List.length its)%nat.
Proof.
  induction its as [| it its IH]; intro st; cbn [fold_left].
  - cbn. split; [reflexivity | lia].
  - destruct (IH (Initialization.createSampleStory uuidv4 now shuffle entries
                    authors st it)) as [H1 H2].
    destruct (createSampleStory_counts entries authors st it) as [C1 C2].
    cbn zeta in *. cbn [List.length]. split; [congruence | lia].
Qed.

(** The state initializeWithWotData ends in. *)
Lemma initializeWithWotData_state (wot : list Initialization.Character) :
  uniqueIds G0 "User" ->
  exists st,
    Initialization.initializeWithWotData uuidv4 now toLowerCase shuffle G0 wot
    = (Initialization.store st, Initialization.summary st)
    /\ accounted G0 st
    /\ (Initialization.characters (Initialization.summary st) <= named wot)%nat
    /\ (Initialization.stories (Initialization.summary st) <= 5)%nat.
Proof.
  intro Hu. unfold Initialization.initializeWithWotData.
  set (start := (Initialization.mkState G0 (Initialization.mkSummary 0 0 0) 0 0,
                 @nil Initialization.Entry)).
  pose proof (fold_invariant (fun acc => accounted G0 (fst acc))
                (Initialization.createCharacter uuidv4 now) wot
                createCharacter_accounted start (accounted_start Hu)) as A1.
  destruct (firstLoop_counts wot start) as (B1 & B2 & B3).
  destruct (fold_left (Initialization.createCharacter uuidv4 now) wot start)
    as [st1 entries].
  cbn [fst snd start Initialization.summary Initialization.characters
       Initialization.relationships Initialization.stories] in *.
  set (st2 := fold_left (Initialization.connectCharacter now toLowerCase entries)
                        entries st1).
  assert (A2 : accounted G0 st2).
  { apply fold_invariant; [| exact A1].
    intros s x. apply connectCharacter_accounted. }
  assert (C2 : Initialization.characters (Initialization.summary st2)
               = Initialization.characters (Initialization.summary st1)
               /\ Initialization.stories (Initialization.summary st2)
                  = Initialization.stories (Initialization.summary st1)).
  { apply (fold_invariant
             (fun st' =>
                Initialization.characters (Initialization.summary st')
                = Initialization.characters (Initialization.summary st1)
                /\ Initialization.stories (Initialization.summary st')
                   = Initialization.stories (Initialization.summary st1)));
      [| split; reflexivity].
    intros s x [H1 H2].
    destruct (connectCharacter_counts entries s x) as [D1 D2].
    cbn zeta in *. split; congruence. }
  destruct C2 as [C2 C3].
  set (authors := Initialization.authorsAmong entries).
  set (its := combine (seq 0 (List.length Initialization.storyTitles))
                      Initialization.storyTitles).
  set (st3 := match authors with
              | [] => st2
              | _ :: _ =>
                  fold_left (Initialization.createSampleStory uuidv4 now shuffle
                               entries authors) its st2
              end).
  assert (A3 : accounted G0 st3).
  { unfold st3. destruct authors; [exact A2 |].
    apply fold_invariant; [| exact A2].
    intros s x. apply createSampleStory_accounted. }
  assert (C4 : Initialization.characters (Initialization.summary st3)
               = Initialization.characters (Initialization.summary st2)
               /\ (Initialization.stories (Initialization.summary st3)
                   <= Initialization.stories (Initialization.summary st2) + 5)%nat).
  { unfold st3. destruct authors as [| a authors']; [split; [reflexivity | lia] |].
    apply (thirdLoop_counts entries (a :: authors') its st2). }
  destruct C4 as [C4 C5].
  exists st3. split; [reflexivity |]. split; [exact A3 |]. split; lia.
Qed.

(** X21.  initializeWithWotData keeps its books: whatever the characters,
    the identifiers drawn and the store it starts from (with user ids
    unique, as the constraint ensures), nothing is removed from the store,
    the number of User nodes grows by exactly [summary.characters], the
    number of Story nodes by exactly [summary.stories], and the number of
    KNOWS relationships by at most [summary.relationships] (a call of
    createConnection is counted even when it creates nothing); at most one
    user per named character and at most five stories are created. *)
Theorem X21_initialization_accounting (wot : list Initialization.Character) :
  uniqueIds G0 "User" ->
  let r := Initialization.initializeWithWotData uuidv4 now toLowerCase shuffle
             G0 wot in
  grownFrom G0 (fst r)
  /\ usersIn (fst r) = (usersIn G0 + Initialization.characters (snd r))%nat
  /\ storiesIn (fst r) = (storiesIn G0 + Initialization.stories (snd r))%nat
  /\ (knowsIn (fst r) <= knowsIn G0 + Initialization.relationships (snd r))%nat
  /\ (Initialization.characters (snd r) <= named wot)%nat
  /\ (Initialization.stories (snd r) <= 5)%nat
  /\ uniqueIds (fst r) "User".
Proof.
  intros Hu r.
  destruct (initializeWithWotData_state wot Hu)
    as (st & E & (U & [Gn Gr] & Cu & Cs & Ck) & Hc & Hs).
  unfold r. rewrite E. cbn [fst snd].
  split; [split; assumption |].
  split; [exact Cu |]. split; [exact Cs |]. split; [exact Ck |].
  split; [exact Hc |]. split; [exact Hs | exact U].
Qed.

Lemma characters_fixed (wot : list Initialization.Character) :
  Initialization.characters
    (snd (Initialization.initializeWithWotData uuidv4 now toLowerCase shuffle
            G0 wot))
  = Initialization.characters
      (Initialization.summary
         (fst (fold_left (Initialization.createCharacter uuidv4 now) wot
                 (Initialization.mkState G0 (Initialization.mkSummary 0 0 0) 0 0,
                  [])))).
Proof.
  unfold Initialization.initializeWithWotData.
  destruct (fold_left (Initialization.createCharacter uuidv4 now) wot _)
    as [st1 entries].
  cbn [fst snd].
  set (st2 := fold_left (Initialization.connectCharacter now toLowerCase entries)
                        entries st1).
  assert (C2 : Initialization.characters (Initialization.summary st2)
               = Initialization.characters (Initialization.summary st1)).
  { apply (fold_invariant
             (fun st' =>
                Initialization.characters (Initialization.summary st')
                = Initialization.characters (Initialization.summary st1)));
      [| reflexivity].
    intros s x H1.
    destruct (connectCharacter_counts entries s x) as [D1 _].
    cbn zeta in *. congruence. }
  destruct (Initialization.authorsAmong entries) as [| a authors];
    [exact C2 |].
  destruct (thirdLoop_counts entries (a :: authors)
              (combine (seq 0 (List.length Initialization.storyTitles))
                       Initialization.storyTitles) st2) as [C4 _].
  cbn zeta in C4. congruence.
Qed.

Lemma distinct_draws (N i j : nat) :
  NoDup (map uuidv4 (seq 0 N)) -> (i < N)%nat -> (j < N)%nat ->
  uuidv4 i = uuidv4 j -> i = j.
Proof.
  intros Hnd Hi Hj Heq.
  apply (proj1 (NoDup_nth (map uuidv4 (seq 0 N)) "") Hnd);
    rewrite ?length_map, ?length_seq; try assumption.
  rewrite !(nth_indep _ "" (uuidv4 0%nat))
    by (rewrite length_map, length_seq; assumption).
  rewrite !map_nth, !seq_nth by assumption. exact Heq.
Qed.

Lemma firstLoop_all (N : nat) (wot : list Initialization.Character) :
  NoDup (map uuidv4 (seq 0 N)) ->
  forall acc,
  drawnIds uuidv4 (fst acc) ->
  (Initialization.uuids (fst acc) + named wot <= N)%nat ->
  Initialization.characters
    (Initialization.summary
       (fst (fold_left (Initialization.createCharacter uuidv4 now) wot acc)))
  = (Initialization.characters (Initialization.summary (fst acc))
     + named wot)%nat.
Proof.
  intro Hnd. induction wot as [| c wot IH]; intros [st entries] Hd Hn;
    cbn [fold_left fst] in *.
  - cbn. lia.
  - unfold named in Hn |- *. cbn [filter] in Hn |- *.
    unfold Initialization.createCharacter at 2.
    destruct (truthy (VStr (Initialization.name c))) eqn:Et; cbn [negb].
    + cbn [List.length] in Hn |- *.
      assert (Hfree : matchNodes (Initialization.store st) "User"
                        (VStr (uuidv4 (Initialization.uuids st))) = []).
      { apply GetPathFacts.filter_nil. intros n Hin.
        destruct (hasLabel "User" n) eqn:Hl; [| reflexivity]. cbn [andb].
        destruct (Hd n Hin Hl) as (j & Hj & Hp). rewrite Hp. cbn.
        destruct (String.eqb_spec (uuidv4 j)
                    (uuidv4 (Initialization.uuids st))) as [E | _];
          [| reflexivity].
        apply (distinct_draws N) in E; try assumption; lia. }
      unfold GraphWrites.createUser. cbn [GraphWrites.user_id]. rewrite Hfree.
      rewrite IH.
      * cbn [fst Initialization.summary Initialization.characters
             Initialization.countCharacter].
        unfold named. lia.
      * intros n Hin Hl. cbn [fst Initialization.store Initialization.uuids] in *.
        unfold GraphWrites.addNode in Hin. cbn [nodes] in Hin.
        apply in_app_or in Hin. destruct Hin as [Hin | [<- | []]].
        -- destruct (Hd n Hin Hl) as (j & Hj & Hp). exists j. split; [lia | exact Hp].
        -- exists (Initialization.uuids st). split; [lia | reflexivity].
      * cbn [fst Initialization.uuids]. unfold named. lia.
    + rewrite IH; [reflexivity | exact Hd | exact Hn].
Qed.

(** X22.  When the store holds no user and the identifiers drawn are
    pairwise distinct, every character that has a name gets its user:
    [summary.characters] is the number of named characters, and so is the
    number of User nodes afterwards. *)
Theorem X22_every_named_character (wot : list Initialization.Character) :
  matchLabel G0 "User" = [] ->
  NoDup (map uuidv4 (seq 0 (named wot))) ->
  let r := Initialization.initializeWithWotData uuidv4 now toLowerCase shuffle
             G0 wot in
  Initialization.characters (snd r) = named wot
  /\ usersIn (fst r) = named wot.
Proof.
  intros Hnone Hnd r.
  assert (Hc : Initialization.characters (snd r) = named wot).
  { unfold r. rewrite characters_fixed.
    rewrite (firstLoop_all (named wot) wot Hnd); [reflexivity | | cbn; lia].
    intros n Hin Hl. cbn [fst Initialization.store] in Hin.
    assert (H : In n (matchLabel G0 "User"))
      by (apply filter_In; split; assumption).
    rewrite Hnone in H. destruct H. }
  split; [exact Hc |].
  assert (Hu : uniqueIds G0 "User").
  { intro p. unfold matchNodes.
    rewrite (GetPathFacts.filter_nil _ (nodes G0)); [cbn; lia |].
    intros n Hin. destruct (hasLabel "User" n) eqn:Hl; [| reflexivity].
    assert (H : In n (matchLabel G0 "User"))
      by (apply filter_In; split; assumption).
    rewrite Hnone in H. destruct H. }
  destruct (initializeWithWotData_state wot Hu)
    as (st & E & (_ & _ & Hcount & _) & _).
  unfold r in *. rewrite E in *. cbn [fst snd] in *.
  rewrite Hcount, Hc. unfold usersIn. rewrite Hnone. reflexivity.
Qed.

End Loops.



Lemma empty_unique : uniqueIds (mkGraph [] [] true) "User".
Proof. intro p. cbn. lia. Qed.

Lemma X21_initialization_accounting_witness :
  let r := Initialization.initializeWithWotData sampleUuid sampleClock sameCase
             noShuffle (mkGraph [] [] true)
             Initialization.generateSampleWotCharacters in
  grownFrom (mkGraph [] [] true) (fst r)
  /\ usersIn (fst r)
     = (usersIn (mkGraph [] [] true) + Initialization.characters (snd r))%nat
  /\ storiesIn (fst r)
     = (storiesIn (mkGraph [] [] true) + Initialization.stories (snd r))%nat
  /\ (knowsIn (fst r)
      <= knowsIn (mkGraph [] [] true) + Initialization.relationships (snd r))%nat
  /\ (Initialization.characters (snd r)
      <= named Initialization.generateSampleWotCharacters)%nat
  /\ (Initialization.stories (snd r) <= 5)%nat
  /\ uniqueIds (fst r) "User".
Proof.
  exact (X21_initialization_accounting sampleUuid sampleClock sameCase
           noShuffle (mkGraph [] [] true)
           Initialization.generateSampleWotCharacters empty_unique).
Defined.

Lemma X22_every_named_character_witness :
  let r := Initialization.initializeWithWotData sampleUuid sampleClock sameCase
             noShuffle (mkGraph [] [] true)
             Initialization.generateSampleWotCharacters in
  Initialization.characters (snd r)
  = named Initialization.generateSampleWotCharacters
  /\ usersIn (fst r) = named Initialization.generateSampleWotCharacters.
Proof.
  apply (X22_every_named_character sampleUuid sampleClock sameCase noShuffle
           (mkGraph [] [] true) Initialization.generateSampleWotCharacters).
  - reflexivity.
  - vm_compute. repeat (constructor; [cbn; intuition discriminate |]).
    constructor.
Defined.


End InitFacts.

(* ================================================================== *)
(** ** executeQuery and the formatters, once more *)
(* ================================================================== *)

Module ConversionFacts.

Import ObjectFacts ParseIntFacts PaginationFacts DataService FormatFacts
       RegisterFacts NetworkFormatterFacts.

(** *** Parameters *)




(** *** Converted nodes and relationships *)

Section WithRandom.

Variable random36 : nat -> string.



(** *** Counting what the formatters produce *)

Lemma resolve_count (segments : list value) :
  forall k, List.length (fst (resolve random36 segments k))
            = List.length (validSegments segments).
Proof.
  unfold validSegments.
  induction segments as [| v segments IH]; intro k; [reflexivity |].
  cbn [resolve filter]. unfold bind.
  assert (H : exists l k1,
             resolveSegment random36 v k = (l, k1)
             /\ List.length l = if validSegment v then 1%nat else 0%nat).
  { unfold resolveSegment. destruct (validSegment v); cbn [negb].
    - unfold bind, ret.
      destruct (orPlaceholder random36 (get (get v "start") "id") "node-" k)
        as [a k1].
      destruct (orPlaceholder random36 (get (get v "end") "id") "node-" k1)
        as [b k2].
      destruct (orPlaceholder random36 (get (get v "relationship") "id")
                  "rel-" k2) as [c k3].
      eexists _, _. split; reflexivity.
    - exists [], k. split; reflexivity. }
  destruct H as (l & k1 & -> & Hl).
  specialize (IH k1). destruct (resolve random36 segments k1) as [rs k2].
  unfold ret. cbn [fst] in *. rewrite length_app, IH, Hl.
  destruct (validSegment v); reflexivity.
Qed.

Lemma register_length (occs : list (value * value)) :
  forall m, (List.length (register m occs)
             <= List.length m + List.length occs)%nat.
Proof.
  unfold register. induction occs as [| ko occs IH]; intro m; cbn [fold_left].
  - cbn. lia.
  - specialize (IH (registerOne m ko)).
    destruct (registerOne_cases m ko) as [[_ E] | [_ E]]; rewrite E in *.
    + cbn [List.length]. lia.
    + rewrite length_app in IH. cbn [List.length] in *. lia.
Qed.

Lemma counts (rs : list Resolved) :
  (List.length (mapValues (register [] (occurrencesOf rs)))
   <= 2 * List.length (linksOf rs))%nat.
Proof.
  unfold mapValues, linksOf. rewrite !length_map.
  assert (Ho : List.length (occurrencesOf rs) = (2 * List.length rs)%nat).
  { unfold occurrencesOf. induction rs as [| r rs IH]; [reflexivity |].
    cbn [flat_map app List.length]. rewrite IH. lia. }
  pose proof (register_length (occurrencesOf rs) []) as H.
  cbn [List.length] in H. lia.
Qed.

Lemma pathData_length (pathData out : value) (k : nat) :
  fst (formatPathData random36 pathData k) = Some out ->
  truthy (get pathData "path") = true ->
  get out "length"
  = or_else (get pathData "pathLength")
            (VNum (Z.of_nat (List.length (pathSegments pathData)))).
Proof.
  intros H Hp. unfold formatPathData, pathSegments in *.
  assert (Hd : truthy pathData = true).
  { destruct pathData; try discriminate Hp; reflexivity. }
  rewrite Hd, Hp in H. cbn [negb orb] in H.
  destruct (get (get pathData "path") "segments")
    as [| | b | n | | s | items | fs] eqn:E;
    unfold or_else in H; cbn [truthy arrayItems] in H.
  - cbn in H. injection H as <-. reflexivity.
  - cbn in H. injection H as <-. reflexivity.
  - destruct b; cbn in H; [discriminate H |]. injection H as <-. reflexivity.
  - destruct (negb (n =? 0)%Z); cbn in H; [discriminate H |].
    injection H as <-. reflexivity.
  - cbn in H. injection H as <-. reflexivity.
  - destruct (negb (s =? "")); cbn in H; [discriminate H |].
    injection H as <-. reflexivity.
  - unfold bind in H.
    destruct (foldM (addPathSegment random36) items ([], [], []) k)
      as [[[nodes m] links] k']. unfold ret in H. cbn [fst] in H.
    injection H as <-. reflexivity.
  - discriminate H.
Qed.

(** X26.  Counting what the formatters produce: both list one link per
    segment that has a start, an end and a relationship (other segments
    are skipped) and at most two nodes per link.  The [length] reported by
    formatPathData is the record's pathLength when that is not 0 or
    missing, and otherwise the number of all segments, skipped ones
    included -- so it can exceed the number of links. *)
Theorem X26_formatter_counts (data pathData : value) (k : nat) :
  (truthy (and_then (get data "nodes") (get data "links")) = false ->
   let out := fst (formatNetworkForD3 random36 data k) in
   List.length (arrayItems (get out "links"))
   = List.length (validSegments (networkSegments data))
   /\ (List.length (arrayItems (get out "nodes"))
       <= 2 * List.length (arrayItems (get out "links")))%nat)
  /\ (forall out,
        fst (formatPathData random36 pathData k) = Some out ->
        List.length (arrayItems (get out "links"))
        = List.length (validSegments (pathSegments pathData))
        /\ (List.length (arrayItems (get out "nodes"))
            <= 2 * List.length (arrayItems (get out "links")))%nat
        /\ (truthy (get pathData "path") = true ->
            get out "length"
            = or_else (get pathData "pathLength")
                      (VNum (Z.of_nat (List.length (pathSegments pathData)))))).
Proof.
  split.
  - intros Hc out. unfold out. rewrite (formatNetworkForD3_paths random36 _ _ Hc).
    pose proof (resolve_count (networkSegments data) k) as Hn.
    destruct (resolve random36 (networkSegments data) k) as [rs k'].
    cbn [fst] in *.
    change (get (VObj [("nodes", VArr (mapValues (register [] (occurrencesOf rs))));
                       ("links", VArr (linksOf rs))]) "links")
      with (VArr (linksOf rs)).
    change (get (VObj [("nodes", VArr (mapValues (register [] (occurrencesOf rs))));
                       ("links", VArr (linksOf rs))]) "nodes")
      with (VArr (mapValues (register [] (occurrencesOf rs)))).
    cbn [arrayItems]. split; [| apply counts].
    unfold linksOf. rewrite length_map. exact Hn.
  - intros out H.
    destruct (formatPathData_segments random36 pathData out k H) as [Hnodes Hlinks].
    rewrite Hnodes, Hlinks.
    split; [| split; [apply counts | apply (pathData_length _ _ _ H)]].
    unfold linksOf. rewrite length_map. apply resolve_count.
Qed.

End WithRandom.


Lemma X26_formatter_counts_witness :
  exists out,
    fst (formatPathData noRandom gappyPathData 0%nat) = Some out
    /\ List.length (arrayItems (get out "links")) = 1%nat
    /\ get out "length" = VNum 2.
Proof.
  pose (out := match fst (formatPathData noRandom gappyPathData 0%nat) with
               | Some o => o
               | None => VUndef
               end).
  destruct (proj2 (X26_formatter_counts noRandom VUndef gappyPathData 0%nat) out)
    as (Hl & _ & Hlen); [vm_compute; reflexivity |].
  exists out. split; [vm_compute; reflexivity |].
  split; [rewrite Hl; reflexivity | rewrite Hlen by reflexivity; reflexivity].
Defined.

End ConversionFacts.
